(** * goisilon: the OneFS API client, its request plumbing and wrappers

    A shallow embedding of [api/api.go], [snapshots.go] and the volume
    and quota wrappers of package [v1], with the properties of the
    request and response handling stated over it.

    Go strings are byte strings: [string] over [ascii] is used as is.
    A Go function that can panic returns a [result]; the remote
    appliance and the Go standard library calls that talk to it are
    parameters of the model. *)

From Stdlib Require Import String Ascii List ZArith Lia Bool.
From stdpp Require Import base option list gmap strings.

Local Open Scope string_scope.
Local Open Scope Z_scope.

(* ===================================================================== *)
(** ** Results of Go code that may panic *)
(* ===================================================================== *)

Inductive result (A : Type) : Type :=
| Done (a : A)
| Panics (msg : string).
Arguments Done {A} a.
Arguments Panics {A} msg.

Definition rbind {A B} (k : A -> result B) (r : result A) : result B :=
  match r with
  | Done a => k a
  | Panics msg => Panics msg
  end.

#[global] Instance result_ret : MRet result := fun A a => Done a.
#[global] Instance result_bind : MBind result := fun A B k r => rbind k r.

(** The run-time panics of Go, by kind.  The text of an index panic
    goes on with the index and the length, which are left out here. *)
Definition indexOutOfRange : string := "runtime error: index out of range".
Definition nilDereference : string :=
  "runtime error: invalid memory address or nil pointer dereference".

(* ===================================================================== *)
(** ** Byte-string helpers *)
(* ===================================================================== *)

Definition slash : ascii := "/"%char.

Definition isSlash (c : ascii) : bool := Ascii.eqb c slash.

(** [len(s)] *)
Definition len (s : string) : Z := Z.of_nat (String.length s).

(** A byte as a number, and the byte of a number below 256. *)
Definition byteOf (c : ascii) : Z := Z.of_N (N_of_ascii c).
Definition byte (n : Z) : ascii := ascii_of_N (Z.to_N n).

(** The last byte of [s], when there is one. *)
Fixpoint lastByte (s : string) : option ascii :=
  match s with
  | EmptyString => None
  | String c EmptyString => Some c
  | String _ r => lastByte r
  end.

(** [s[1:]] for a non-empty [s]. *)
Definition dropFirst (s : string) : string :=
  match s with
  | EmptyString => EmptyString
  | String _ r => r
  end.

(** Total versions of the two slash tests, false on the empty string. *)
Definition hasSlashPrefix (s : string) : bool :=
  match s with
  | String c _ => isSlash c
  | EmptyString => false
  end.

Definition hasSlashSuffix (s : string) : bool :=
  match lastByte s with
  | Some c => isSlash c
  | None => false
  end.

(* ===================================================================== *)
(** ** Errors *)
(* ===================================================================== *)

(** [api.Error], one entry of the appliance's error payload. *)
Record Error := mkError {
  Code : string;
  Field : string;
  Message : string
}.

(** [api.JSONError] *)
Record JSONError := mkJSONError {
  StatusCode : Z;
  Err : list Error
}.

(** The values of Go's [error] interface that the client produces:
    [io.EOF] (compared by identity in [DoWithHeaders]), errors made from
    a message, and [*JSONError]. *)
Inductive error : Type :=
| io_EOF
| errorString (msg : string)
| errJSONError (e : JSONError).

(** [func (err *JSONError) Error() string]: indexes [Err[0]]. *)
Definition JSONError_Error (e : JSONError) : result string :=
  match Err e with
  | e0 :: _ => Done (Message e0)
  | [] => Panics indexOutOfRange
  end.

(** [err.Error()] *)
Definition error_Error (e : error) : result string :=
  match e with
  | io_EOF => Done "EOF"
  | errorString msg => Done msg
  | errJSONError je => JSONError_Error je
  end.

(* ===================================================================== *)
(** ** Ordered query parameters *)
(* ===================================================================== *)

(** [api.OrderedValues] is [[][][]byte]: each entry is a key followed by
    its values. *)
Definition OrderedValues : Type := list (list string).

Definition hexDigit (n : N) : ascii :=
  match n with
  | 0%N => "0" | 1%N => "1" | 2%N => "2" | 3%N => "3" | 4%N => "4"
  | 5%N => "5" | 6%N => "6" | 7%N => "7" | 8%N => "8" | 9%N => "9"
  | 10%N => "A" | 11%N => "B" | 12%N => "C" | 13%N => "D" | 14%N => "E"
  | _ => "F"
  end%char.

Definition isUnreserved (c : ascii) : bool :=
  let n := N_of_ascii c in
  ((48 <=? n) && (n <=? 57) || (65 <=? n) && (n <=? 90)
   || (97 <=? n) && (n <=? 122)
   || (n =? 45) || (n =? 46) || (n =? 95) || (n =? 126))%N.

Fixpoint escape (s : string) : string :=
  match s with
  | EmptyString => EmptyString
  | String c r =>
      if isUnreserved c then String c (escape r)
      else String "%" (String (hexDigit (N_of_ascii c / 16))
                         (String (hexDigit (N_of_ascii c mod 16)) (escape r)))
  end.

Fixpoint joinWith (sep : string) (l : list string) : string :=
  match l with
  | [] => EmptyString
  | [a] => a
  | a :: r => a +:+ sep +:+ joinWith sep r
  end.

Definition encodeEntry (e : list string) : list string :=
  match e with
  | [] => []
  | [k] => [escape k]
  | k :: vs => map (fun v => escape k +:+ "=" +:+ escape v) vs
  end.

(** Modelled from the spec: [OrderedValues.EncodeTo], whose file is not
    among the sources.  The pairs are written as [key=value&key=value]
    in their order, duplicates kept, keys and values percent-encoded; a
    key without a value is written alone, as in the [?acl] and
    [?metadata] calls of the wrappers. *)
Definition EncodeTo (params : OrderedValues) : string :=
  joinWith "&" (concat (map encodeEntry params)).

(* ===================================================================== *)
(** ** URL assembly, [api.go] *)
(* ===================================================================== *)

(** [func beginsWithSlash(s string) bool { return s[0] == '/' }] *)
Definition beginsWithSlash (s : string) : result bool :=
  match s with
  | String c _ => Done (isSlash c)
  | EmptyString => Panics indexOutOfRange
  end.

(** [func endsWithSlash(s string) bool { return s[len(s)-1] == '/' }] *)
Definition endsWithSlash (s : string) : result bool :=
  match lastByte s with
  | Some c => Done (isSlash c)
  | None => Panics indexOutOfRange
  end.

(** The first part of [DoAndGetResponseBody]: the [var] block and the
    writes to [ubf], up to [ubf.String()].  [EncodeTo] writes into a
    [bytes.Buffer], which takes every write: the return on its error is
    not reached. *)
Definition assembleURL (hostname uri id : string) (params : OrderedValues)
  : result string :=
  let lid := len id in
  let luri := len uri in
  hostnameEndsWithSlash ← endsWithSlash hostname;
  uriBeginsWithSlash ← beginsWithSlash uri;
  uriEndsWithSlash ← endsWithSlash uri;
  let ubf := hostname in
  let ubf :=
    if negb hostnameEndsWithSlash && ((0 <? luri) || (0 <? lid))
    then ubf +:+ "/" else ubf in
  let ubf :=
    if 0 <? luri then
      let ubf := if uriBeginsWithSlash : bool
                 then ubf +:+ dropFirst uri else ubf +:+ uri in
      if negb uriEndsWithSlash then ubf +:+ "/" else ubf
    else ubf in
  let ubf := if 0 <? lid then ubf +:+ id else ubf in
  let ubf :=
    if 0 <? Z.of_nat (length params)
    then ubf +:+ "?" +:+ EncodeTo params else ubf in
  Done ubf.


(* ===================================================================== *)
(** ** Packages [strings], [utf8] and [strconv] of the Go library *)
(* ===================================================================== *)

Module strings.

(** [strings.HasPrefix(s, prefix)] *)
Fixpoint HasPrefix (s prefix : string) : bool :=
  match prefix, s with
  | EmptyString, _ => true
  | String a p', String b s' => Ascii.eqb a b && HasPrefix s' p'
  | String _ _, EmptyString => false
  end.

(** [strings.Index(s, substr)], [-1] when [substr] does not occur. *)
Definition Index (s substr : string) : Z :=
  match String.index 0 substr s with
  | Some n => Z.of_nat n
  | None => -1
  end.

(** [s[i:]] and [s[:i]] for [0 <= i <= len(s)]. *)
Definition sliceFrom (s : string) (i : Z) : string :=
  String.substring (Z.to_nat i) (String.length s - Z.to_nat i) s.

Definition sliceTo (s : string) (i : Z) : string :=
  String.substring 0 (Z.to_nat i) s.

End strings.

Module utf8.

Definition RuneError : Z := 65533.
Definition RuneSelf : Z := 128.
Definition MaxRune : Z := 1114111.

(** The tables [first] and [acceptRanges]: for a leading byte, the
    width of its sequence and the range of the second byte; [None] for
    a byte that begins no sequence of two bytes or more. *)
Definition first (b : Z) : option (Z * Z * Z) :=
  if (194 <=? b) && (b <=? 223) then Some (2, 128, 191)
  else if b =? 224 then Some (3, 160, 191)
  else if (225 <=? b) && (b <=? 236) then Some (3, 128, 191)
  else if b =? 237 then Some (3, 128, 159)
  else if (238 <=? b) && (b <=? 239) then Some (3, 128, 191)
  else if b =? 240 then Some (4, 144, 191)
  else if (241 <=? b) && (b <=? 243) then Some (4, 128, 191)
  else if b =? 244 then Some (4, 128, 143)
  else None.

Definition outside (lo hi : Z) (c : ascii) : bool :=
  (byteOf c <? lo) || (hi <? byteOf c).

Definition low6 (c : ascii) : Z := Z.land (byteOf c) 63.

(** [utf8.DecodeRuneInString(s)]: the rune and its width in bytes. *)
Definition DecodeRuneInString (s : string) : Z * Z :=
  match s with
  | EmptyString => (RuneError, 0)
  | String s0 t =>
      match first (byteOf s0) with
      | None =>
          if byteOf s0 <? RuneSelf then (byteOf s0, 1) else (RuneError, 1)
      | Some (sz, lo, hi) =>
          if len s <? sz then (RuneError, 1)
          else
            match t with
            | String s1 t1 =>
                if outside lo hi s1 then (RuneError, 1)
                else if sz <=? 2
                then (Z.lor (Z.shiftl (Z.land (byteOf s0) 31) 6) (low6 s1),
                      2)
                else
                  match t1 with
                  | String s2 t2 =>
                      if outside 128 191 s2 then (RuneError, 1)
                      else if sz <=? 3
                      then (Z.lor (Z.shiftl (Z.land (byteOf s0) 15) 12)
                              (Z.lor (Z.shiftl (low6 s1) 6) (low6 s2)), 3)
                      else
                        match t2 with
                        | String s3 _ =>
                            if outside 128 191 s3 then (RuneError, 1)
                            else
                              (Z.lor (Z.shiftl (Z.land (byteOf s0) 7) 18)
                                 (Z.lor (Z.shiftl (low6 s1) 12)
                                    (Z.lor (Z.shiftl (low6 s2) 6)
                                       (low6 s3))), 4)
                        | EmptyString => (RuneError, 1)
                        end
                  | EmptyString => (RuneError, 1)
                  end
            | EmptyString => (RuneError, 1)
            end
      end
  end.

Definition cont (r : Z) (shift : Z) : ascii :=
  byte (Z.lor 128 (Z.land (Z.shiftr r shift) 63)).

(** [utf8.AppendRune(nil, r)]: the bytes that encode [r]. *)
Definition AppendRune (r : Z) : string :=
  if (0 <=? r) && (r <=? 127) then String (byte r) ""
  else if (0 <=? r) && (r <=? 2047)
  then String (byte (Z.lor 192 (Z.shiftr r 6))) (String (cont r 0) "")
  else if (r <? 0) || (MaxRune <? r) || (55296 <=? r) && (r <=? 57343)
  then String (byte 239) (String (byte 191) (String (byte 189) ""))
  else if r <=? 65535
  then String (byte (Z.lor 224 (Z.shiftr r 12)))
         (String (cont r 6) (String (cont r 0) ""))
  else String (byte (Z.lor 240 (Z.shiftr r 18)))
         (String (cont r 12) (String (cont r 6) (String (cont r 0) ""))).

End utf8.

Module strconv.

Definition lowerhex : string := "0123456789abcdef".

(** [lowerhex[n]] for [0 <= n < 16]. *)
Definition hexDigit (n : Z) : ascii :=
  default "0"%char (String.get (Z.to_nat n) lowerhex).

Definition hexByte (b : Z) : string :=
  String (hexDigit (Z.shiftr b 4)) (String (hexDigit (Z.land b 15)) "").

(** The loop [for s := from; s >= 0; s -= 4] that writes [r] in
    hexadecimal digits, [n] of them. *)
Fixpoint hexRune (n : nat) (r : Z) : string :=
  match n with
  | O => ""
  | S k =>
      String (hexDigit (Z.land (Z.shiftr r (4 * Z.of_nat k)) 15))
        (hexRune k r)
  end.

Definition quoteByte : ascii := "034"%char.
Definition backslash : ascii := "\"%char.

Section Quote.

(** What [strconv.IsPrint] answers for a rune above U+00FF: it looks
    the rune up in tables that are generated for the Go release. *)
Variable isPrintTable : Z -> bool.

(** [strconv.IsPrint(r)] *)
Definition IsPrint (r : Z) : bool :=
  if r <=? 255 then
    if (32 <=? r) && (r <=? 126) then true
    else if (161 <=? r) && (r <=? 255) then negb (r =? 173)
    else false
  else isPrintTable r.

(** [appendEscapedRune] for the double quote as quote, with
    [ASCIIonly] and [graphicOnly] false. *)
Definition appendEscapedRune (r : Z) : string :=
  if (r =? byteOf quoteByte) || (r =? byteOf backslash)
  then String backslash (String (byte r) "")
  else if IsPrint r then utf8.AppendRune r
  else if r =? 7 then "\a"
  else if r =? 8 then "\b"
  else if r =? 12 then "\f"
  else if r =? 10 then "\n"
  else if r =? 13 then "\r"
  else if r =? 9 then "\t"
  else if r =? 11 then "\v"
  else if (r <? 32) || (r =? 127) then "\x" +:+ hexByte r
  else
    let r := if (r <? 0) || (utf8.MaxRune <? r)
                || (55296 <=? r) && (r <=? 57343)
             then utf8.RuneError else r in
    if r <? 65536 then "\u" +:+ hexRune 4 r else "\U" +:+ hexRune 8 r.

(** The loop of [appendQuotedWith] over [s]; [skip] counts the bytes
    left of the rune that was written last. *)
Fixpoint quoted (s : string) (skip : nat) : string :=
  match s with
  | EmptyString => ""
  | String c t =>
      match skip with
      | S k => quoted t k
      | O =>
          let '(r, width) :=
            if byteOf c <? utf8.RuneSelf then (byteOf c, 1)
            else utf8.DecodeRuneInString s in
          if (width =? 1) && (r =? utf8.RuneError)
          then "\x" +:+ hexByte (byteOf c) +:+ quoted t 0
          else appendEscapedRune r +:+ quoted t (Z.to_nat (width - 1))
      end
  end.

(** [strconv.Quote(s)] *)
Definition Quote (s : string) : string :=
  String quoteByte (quoted s 0 +:+ String quoteByte "").

(** The [Error()] text of a [*strconv.NumError] of [ParseUint] for
    the number [s]. *)
Definition numError (s msg : string) : error :=
  errorString ("strconv.ParseUint: parsing " +:+ Quote s +:+ ": " +:+ msg).

Definition syntaxError (s : string) : error := numError s "invalid syntax".

Definition rangeError (s : string) : error :=
  numError s "value out of range".

(** The digit that the byte [c] stands for: [c - '0'], or
    [lower(c) - 'a' + 10] for a letter. *)
Definition digitOf (c : ascii) : option Z :=
  let b := byteOf c in
  if (48 <=? b) && (b <=? 57) then Some (b - 48)
  else
    let l := Z.lor b 32 in
    if (97 <=? l) && (l <=? 122) then Some (l - 97 + 10) else None.

Definition maxUint64 : Z := 2 ^ 64 - 1.

(** [cutoff] for base 10 and [maxVal] for 8 bits. *)
Definition cutoff : Z := maxUint64 / 10 + 1.
Definition maxVal : Z := Z.shiftl 1 8 - 1.

(** The loop of [ParseUint] over the bytes of [s0], in base 10; [n]
    is a [uint64]. *)
Fixpoint parseLoop (s0 bytes : string) (n : Z) : error + Z :=
  match bytes with
  | EmptyString => inr n
  | String c r =>
      match digitOf c with
      | None => inl (syntaxError s0)
      | Some d =>
          if d >=? 10 then inl (syntaxError s0)
          else if n >=? cutoff then inl (rangeError s0)
          else
            let n := (n * 10) mod 2 ^ 64 in
            let n1 := (n + d) mod 2 ^ 64 in
            if (n1 <? n) || (n1 >? maxVal) then inl (rangeError s0)
            else parseLoop s0 r n1
      end
  end.

(** [strconv.ParseUint(s, 10, 8)]: the number, or the error. *)
Definition ParseUint8 (s : string) : error + Z :=
  if String.eqb s "" then inl (syntaxError s) else parseLoop s s 0.

End Quote.

End strconv.

(* ===================================================================== *)
(** ** Package [encoding/base64] of the Go library *)
(* ===================================================================== *)

Module base64.

Definition encodeStd : string :=
  "ABCDEFGHIJKLMNOPQRSTUVWXYZabcdefghijklmnopqrstuvwxyz0123456789+/".

Definition enc (n : Z) : ascii :=
  default "="%char (String.get (Z.to_nat (Z.land n 63)) encodeStd).

(** [base64.StdEncoding.EncodeToString(src)] *)
Fixpoint EncodeToString (src : string) : string :=
  match src with
  | String a (String b (String c rest)) =>
      let val := Z.lor (Z.shiftl (byteOf a) 16)
                   (Z.lor (Z.shiftl (byteOf b) 8) (byteOf c)) in
      String (enc (Z.shiftr val 18)) (String (enc (Z.shiftr val 12))
        (String (enc (Z.shiftr val 6)) (String (enc val)
           (EncodeToString rest))))
  | String a (String b EmptyString) =>
      let val := Z.lor (Z.shiftl (byteOf a) 16) (Z.shiftl (byteOf b) 8) in
      String (enc (Z.shiftr val 18)) (String (enc (Z.shiftr val 12))
        (String (enc (Z.shiftr val 6)) "="))
  | String a EmptyString =>
      let val := Z.shiftl (byteOf a) 16 in
      String (enc (Z.shiftr val 18)) (String (enc (Z.shiftr val 12)) "==")
  | EmptyString => ""
  end.

End base64.

(* ===================================================================== *)
(** ** Package [json]: documents and their decoding into Go values *)
(* ===================================================================== *)

Module json.

(** A JSON document. *)
#[warnings="-register-all"]
Inductive JSON : Type :=
| JNull
| JBool (b : bool)
| JNumber (n : Z)
| JString (s : string)
| JArray (l : list JSON)
| JObject (fields : list (string * JSON)).

(** What a body reader holds, as a decoder sees it. *)
Inductive Body : Type :=
| BodyEmpty
| BodyInvalid (msg : string)
| BodyJSON (v : JSON).

Definition kindOf (j : JSON) : string :=
  match j with
  | JNull => "null"
  | JBool _ => "bool"
  | JNumber _ => "number"
  | JString _ => "string"
  | JArray _ => "array"
  | JObject _ => "object"
  end.

(** The message of the decoder's type error. *)
Definition typeError (j : JSON) (ty : string) : string :=
  "json: cannot unmarshal " +:+ kindOf j
  +:+ " into Go value of type " +:+ ty.

Definition firstError (a b : option string) : option string :=
  match a with
  | Some _ => a
  | None => b
  end.

(** How a document is stored into a Go value of type [T]: the new
    value and the message of the first type error met. *)
Class Unmarshal (T : Type) := unmarshal : JSON -> T -> T * option string.

(** How a Go value of type [T] is written as a document, or the message
    of the encoder's error. *)
Class Marshal (T : Type) := marshal : T -> string + JSON.

(** Modelled from the spec: [json.NewDecoder(r).Decode(v)] of package
    [api/json], which is not among the sources.  An empty body gives
    [io.EOF] and leaves [v] as it is (the caller ignores that error:
    "ignoring an empty body"), bytes that are no JSON value give a
    syntax error, and a JSON value is stored into [v], by the rules of
    Go's [encoding/json] that the definitions below follow. *)
Definition Decode {T} `{Unmarshal T} (b : Body) (v : T)
  : T * option error :=
  match b with
  | BodyEmpty => (v, Some io_EOF)
  | BodyInvalid msg => (v, Some (errorString msg))
  | BodyJSON j =>
      let '(v', e) := unmarshal j v in (v', errorString <$> e)
  end.

Definition lowerByte (c : ascii) : ascii :=
  let n := N_of_ascii c in
  if ((65 <=? n) && (n <=? 90))%N then ascii_of_N (n + 32) else c.

Fixpoint lower (s : string) : string :=
  match s with
  | EmptyString => EmptyString
  | String c r => String (lowerByte c) (lower r)
  end.

(** A key of the document names a struct field when it equals the
    field's JSON name, letter case aside. *)
Definition keyIs (name key : string) : bool :=
  String.eqb (lower name) (lower key).

(** Decoding into a struct: [null] changes nothing, an object sets
    the fields its keys name, in their order, anything else is a type
    error. *)
Definition unmarshalStruct {T} (ty : string)
    (setField : string -> JSON -> T -> T * option string)
    (j : JSON) (v : T) : T * option string :=
  match j with
  | JNull => (v, None)
  | JObject fields =>
      fold_left
        (fun acc kv =>
           let '(v', e') := setField (fst kv) (snd kv) (fst acc) in
           (v', firstError (snd acc) e'))
        fields (v, None)
  | _ => (v, Some (typeError j ty))
  end.

#[global] Instance unmarshal_string : Unmarshal string := fun j s =>
  match j with
  | JString s' => (s', None)
  | JNull => (s, None)
  | _ => (s, Some (typeError j "string"))
  end.

#[global] Instance unmarshal_int : Unmarshal Z := fun j n =>
  match j with
  | JNumber n' => (n', None)
  | JNull => (n, None)
  | _ => (n, Some (typeError j "int"))
  end.

(** A pointer field: [null] makes it nil, a value is stored into a
    fresh pointee when it is nil. *)
Definition unmarshalPtr {T} `{Unmarshal T} (zero : T)
    (j : JSON) (p : option T) : option T * option string :=
  match j with
  | JNull => (None, None)
  | _ =>
      let '(v, e) := unmarshal j (default zero p) in (Some v, e)
  end.

(** A slice: [null] makes it nil, an array is decoded element by
    element into zero values. *)
Definition unmarshalSlice {T} `{Unmarshal T} (ty : string) (zero : T)
    (j : JSON) (l : list T) : list T * option string :=
  match j with
  | JNull => ([], None)
  | JArray items =>
      fold_left
        (fun acc x =>
           let '(v, e) := unmarshal x zero in
           ((fst acc ++ [v])%list, firstError (snd acc) e))
        items ([], None)
  | _ => (l, Some (typeError j ty))
  end.

#[global] Instance marshal_string : Marshal string :=
  fun s => inr (JString s).

End json.

(** [api.Error] is decoded through its tags [code], [field] and
    [message]. *)
#[global] Instance unmarshal_Error : json.Unmarshal Error :=
  json.unmarshalStruct "api.Error" (fun k x e =>
    if json.keyIs "code" k then
      let '(s, err) := json.unmarshal x (Code e) in
      (mkError s (Field e) (Message e), err)
    else if json.keyIs "field" k then
      let '(s, err) := json.unmarshal x (Field e) in
      (mkError (Code e) s (Message e), err)
    else if json.keyIs "message" k then
      let '(s, err) := json.unmarshal x (Message e) in
      (mkError (Code e) (Field e) s, err)
    else (e, None)).

(** [api.JSONError]: [StatusCode] has no tag, [Err] is tagged
    [errors]. *)
#[global] Instance unmarshal_JSONError : json.Unmarshal JSONError :=
  json.unmarshalStruct "api.JSONError" (fun k x je =>
    if json.keyIs "StatusCode" k then
      let '(n, err) := json.unmarshal x (StatusCode je) in
      (mkJSONError n (Err je), err)
    else if json.keyIs "errors" k then
      let '(l, err) :=
        json.unmarshalSlice "[]api.Error" (mkError "" "" "") x (Err je) in
      (mkJSONError (StatusCode je) l, err)
    else (je, None)).

(* ===================================================================== *)
(** ** Package [path] of the Go library *)
(* ===================================================================== *)

Module path.

(** The elements of a path: the pieces between its slashes. *)
Fixpoint split (s : string) : list string :=
  match s with
  | EmptyString => [EmptyString]
  | String c r =>
      if isSlash c then EmptyString :: split r
      else match split r with
           | seg :: segs => String c seg :: segs
           | [] => [String c EmptyString]
           end
  end.

(** The output buffer of [Clean], one path element at a time: the
    leading [..] elements that cannot be backed over (what the index
    [dotdot] protects in an unrooted path) and the elements written
    after them, the last one first. *)
Record lazybuf := mkbuf {
  dotdots : nat;
  elems : list string
}.

(** One turn of the loop of [Clean], at the element [e]. *)
Definition step (rooted : bool) (out : lazybuf) (e : string) : lazybuf :=
  if String.eqb e "" then out
  else if String.eqb e "." then out
  else if String.eqb e ".." then
    match elems out with
    | _ :: rest => mkbuf (dotdots out) rest
    | [] => if rooted then out else mkbuf (S (dotdots out)) []
    end
  else mkbuf (dotdots out) (e :: elems out).

Definition written (out : lazybuf) : list string :=
  (repeat ".." (dotdots out) ++ rev (elems out))%list.

Definition render (rooted : bool) (out : lazybuf) : string :=
  (if rooted then "/" else "") +:+ joinWith "/" (written out).

(** [path.Clean]: the shortest path equivalent to [p] by purely
    lexical processing. *)
Definition Clean (p : string) : string :=
  match p with
  | EmptyString => "."
  | _ =>
      let rooted := hasSlashPrefix p in
      let out := fold_left (step rooted) (split p) (mkbuf 0 []) in
      let s := render rooted out in
      if String.eqb s "" then "." else s
  end.

(** [path.Join]: the non-empty elements joined by slashes, cleaned;
    the empty string when there is none. *)
Definition Join (elem : list string) : string :=
  match List.filter (fun e => negb (String.eqb e "")) elem with
  | [] => ""
  | es => Clean (joinWith "/" es)
  end.

End path.

(* ===================================================================== *)
(** ** Package [net/http] of the Go library *)
(* ===================================================================== *)

Module http.

Definition MethodGet : string := "GET".
Definition MethodPost : string := "POST".
Definition MethodPut : string := "PUT".
Definition MethodDelete : string := "DELETE".

Definition isTokenByte (c : ascii) : bool :=
  let n := N_of_ascii c in
  ((48 <=? n) && (n <=? 57) || (65 <=? n) && (n <=? 90)
   || (97 <=? n) && (n <=? 122)
   || existsb (N.eqb n)
        [33; 35; 36; 37; 38; 39; 42; 43; 45; 46; 94; 95; 96; 124; 126])%N.

Fixpoint allBytes (f : ascii -> bool) (s : string) : bool :=
  match s with
  | EmptyString => true
  | String c r => f c && allBytes f r
  end.

Definition upperByte (c : ascii) : ascii :=
  let n := N_of_ascii c in
  if ((97 <=? n) && (n <=? 122))%N then ascii_of_N (n - 32) else c.

Fixpoint canonicalize (upper : bool) (s : string) : string :=
  match s with
  | EmptyString => EmptyString
  | String c r =>
      let c' := if upper then upperByte c else json.lowerByte c in
      String c' (canonicalize (Ascii.eqb c' "-") r)
  end.

(** [textproto.CanonicalMIMEHeaderKey]: the first letter and each
    letter after a hyphen in upper case, the others in lower case; a
    key with a byte that is not a token byte is left as it is. *)
Definition CanonicalHeaderKey (s : string) : string :=
  if allBytes isTokenByte s then canonicalize true s else s.

(** [http.Header] is [map[string][]string]. *)
Abbreviation Header := (gmap string (list string)).

Definition Header_Set (h : Header) (key value : string) : Header :=
  <[CanonicalHeaderKey key := [value]]> h.

Definition Header_Add (h : Header) (key value : string) : Header :=
  <[CanonicalHeaderKey key :=
      (default [] (h !! CanonicalHeaderKey key) ++ [value])%list]> h.

Definition Header_Get (h : Header) (key : string) : string :=
  match h !! CanonicalHeaderKey key with
  | Some (v :: _) => v
  | _ => ""
  end.

(** What a request carries as its body. *)
Inductive Payload : Type :=
| NoPayload
| Raw (content : string)
| Encoded (doc : json.JSON).

(** [http.Request] *)
Record Request := mkRequest {
  Method : string;
  URL : string;
  Header_ : Header;
  Body_ : Payload
}.

(** [http.Response] *)
Record Response := mkResponse {
  StatusCode : Z;
  Status : string;
  Body : json.Body
}.

Definition validMethod (method : string) : bool :=
  (0 <? len method) && allBytes isTokenByte method.

Section NewRequest.

(** What [strconv.IsPrint] answers for a rune above U+00FF. *)
Variable isPrintTable : Z -> bool.

(** [url.Parse(s)] followed by [u.String()], or the message of the
    parse error. *)
Variable url_Parse : string -> string + string.

(** [fmt.Errorf] with the format [net/http: invalid method %q]. *)
Definition invalidMethodError (method : string) : error :=
  errorString
    ("net/http: invalid method " +:+ strconv.Quote isPrintTable method).

(** [http.NewRequest(method, url, body)] *)
Definition NewRequest (method url : string) (body : Payload)
  : error + Request :=
  let method := if String.eqb method "" then "GET" else method in
  if negb (validMethod method)
  then inl (invalidMethodError method)
  else
    match url_Parse url with
    | inl msg => inl (errorString msg)
    | inr u => inr (mkRequest method u ∅ body)
    end.

End NewRequest.

Definition setHeader (req : Request) (h : Header) : Request :=
  mkRequest (Method req) (URL req) h (Body_ req).

(** [basicAuth(username, password)] *)
Definition basicAuth (username password : string) : string :=
  base64.EncodeToString (username +:+ ":" +:+ password).

(** [func (r *Request) SetBasicAuth]: sets the [Authorization] header,
    in place of the values it had. *)
Definition SetBasicAuth (req : Request) (username password : string)
  : Request :=
  setHeader req
    (Header_Set (Header_ req) "Authorization"
       ("Basic " +:+ basicAuth username password)).

End http.

(* ===================================================================== *)
(** ** Package [api]: the client of [api.go] *)
(* ===================================================================== *)

Module api.

Definition headerKeyContentType : string := "Content-Type".
Definition headerValContentTypeJSON : string := "application/json".
Definition headerValContentTypeBinaryOctetStream : string :=
  "binary/octet-stream".
Definition defaultVolumesPath : string := "/ifs/volumes".

Definition errNewClient : error :=
  errorString "missing endpoint, username, or password".

(** What [ctx] tells the client: whether it carries a log level at or
    above debug.  The log lines themselves are not modelled; they do
    not change what the calls return. *)
Record Context := mkContext {
  debugLevel : bool
}.

(** [type client struct]; [http_] is what [c.http.Do] answers to a
    request: a response, or the message of the transport error. *)
Record client := mkClient {
  http_ : http.Request -> string + http.Response;
  hostname : string;
  username : string;
  groupname : string;
  password : string;
  volumePath : string;
  apiVersion : Z;
  apiMinorVersion : Z
}.

Record apiVerResponse := mkApiVerResponse {
  Latest : option string
}.

#[global] Instance unmarshal_apiVerResponse
  : json.Unmarshal apiVerResponse :=
  json.unmarshalStruct "api.apiVerResponse" (fun k x r =>
    if json.keyIs "latest" k then
      let '(p, err) := json.unmarshalPtr "" x (Latest r) in
      (mkApiVerResponse p, err)
    else (r, None)).

Record ClientOptions := mkClientOptions {
  Insecure : bool;
  VolumesPath : string;
  Timeout : Z
}.

(** The [body interface{}] argument: nil, a value that implements
    [io.ReadCloser] (with the bytes it yields), or any other value,
    with the way its type is encoded. *)
Inductive body : Type :=
| nilBody
| readCloser (content : string)
| value {T : Type} {M : json.Marshal T} (v : T).

(** The loop over [headers] of [DoAndGetResponseBody]. *)
Definition addHeaders (isContentTypeSet : bool)
    (headers : list (string * string)) (h : http.Header) : http.Header :=
  fold_left
    (fun h kv =>
       if String.eqb (fst kv) headerKeyContentType && isContentTypeSet
       then h
       else http.Header_Add h (fst kv) (snd kv))
    headers h.

Section Client.

(** What [strconv.IsPrint] answers for a rune above U+00FF. *)
Variable isPrintTable : Z -> bool.

(** [url.Parse(s)] followed by [u.String()], or the message of the
    parse error. *)
Variable url_Parse : string -> string + string.

(** The second part of [DoAndGetResponseBody], from [url.Parse] to
    [req.SetBasicAuth]: the request that is sent, or the error
    returned instead. *)
Definition buildRequest (c : client) (method ubf : string)
    (headers : gmap string string) (b : body)
  : result (error + http.Request) :=
  match url_Parse ubf with
  | inl msg => Done (inl (errorString msg))
  | inr u =>
      let contentType (dflt : string) (req : http.Request) :=
        http.setHeader req
          (http.Header_Set (http.Header_ req) headerKeyContentType
             (default dflt (headers !! headerKeyContentType))) in
      r ← match b with
          | readCloser r =>
              match http.NewRequest isPrintTable url_Parse method u
                      (http.Raw r) with
              | inl _ => Panics nilDereference
              | inr req =>
                  Done (inr (contentType
                               headerValContentTypeBinaryOctetStream req,
                             true))
              end
          | value v =>
              match json.marshal v with
              | inl msg => Done (inl (errorString msg))
              | inr doc =>
                  match http.NewRequest isPrintTable url_Parse method u
                          (http.Encoded doc) with
                  | inl _ => Panics nilDereference
                  | inr req =>
                      Done (inr (contentType headerValContentTypeJSON req,
                                 true))
                  end
              end
          | nilBody =>
              match http.NewRequest isPrintTable url_Parse method u
                      http.NoPayload with
              | inl err => Done (inl err)
              | inr req => Done (inr (req, false))
              end
          end;
      match r with
      | inl err => Done (inl err)
      | inr (req, isContentTypeSet) =>
          let isContentTypeSet :=
            if negb isContentTypeSet
            then negb (String.eqb
                         (http.Header_Get (http.Header_ req)
                            headerKeyContentType) "")
            else isContentTypeSet in
          let req :=
            if 0 <? Z.of_nat (size headers)
            then http.setHeader req
                   (addHeaders isContentTypeSet (map_to_list headers)
                      (http.Header_ req))
            else req in
          Done (inr (http.SetBasicAuth req (username c) (password c)))
      end
  end.

(** [func (c *client) DoAndGetResponseBody]: the response, whether
    debug logging is on, and the error.  [c.http.Do] gives a response
    or an error, never both; the calls of [logRequest] and [log.Debug]
    write log lines only. *)
Definition DoAndGetResponseBody (c : client) (ctx : Context)
    (method uri id : string) (params : OrderedValues)
    (headers : gmap string string) (b : body)
  : result (option http.Response * bool * option error) :=
  ubf ← assembleURL (hostname c) uri id params;
  r ← buildRequest c method ubf headers b;
  match r with
  | inl err => Done (None, false, Some err)
  | inr req =>
      let isDebugLog := debugLevel ctx in
      match http_ c req with
      | inl msg => Done (None, isDebugLog, Some (errorString msg))
      | inr res => Done (Some res, isDebugLog, None)
      end
  end.

(** [func parseJSONError(r *http.Response) error] *)
Definition parseJSONError (r : http.Response) : result error :=
  let '(jsonError, err) :=
    json.Decode (http.Body r) (mkJSONError 0 []) in
  match err with
  | Some err => Done err
  | None =>
      let jsonError := mkJSONError (http.StatusCode r) (Err jsonError) in
      match Err jsonError with
      | [] => Panics indexOutOfRange
      | e0 :: rest =>
          if String.eqb (Message e0) ""
          then Done (errJSONError
                       (mkJSONError (StatusCode jsonError)
                          (mkError (Code e0) (Field e0) (http.Status r)
                           :: rest)))
          else Done (errJSONError jsonError)
      end
  end.

(** [func (c *client) DoWithHeaders]: the error returned, with what
    [resp] points to after the call ([None] for a nil [resp]).
    [defer res.Body.Close()] reads [res.Body] before the [switch], so
    that a nil [res] panics there. *)
Definition DoWithHeaders {T} `{json.Unmarshal T} (c : client)
    (ctx : Context) (method uri id : string) (params : OrderedValues)
    (headers : gmap string string) (b : body) (resp : option T)
  : result (option T * option error) :=
  r ← DoAndGetResponseBody c ctx method uri id params headers b;
  let '(res, isDebugLog, err) := r in
  match err with
  | Some err => Done (resp, Some err)
  | None =>
      match res with
      | None => Panics nilDereference
      | Some res =>
          if (200 <=? http.StatusCode res)
             && (http.StatusCode res <=? 299)
          then
            match resp with
            | None => Done (None, None)
            | Some v =>
                let '(v', err) := json.Decode (http.Body res) v in
                match err with
                | Some io_EOF | None => Done (Some v', None)
                | Some err => Done (Some v', Some err)
                end
            end
          else
            err ← parseJSONError res;
            Done (resp, Some err)
      end
  end.

Definition Get {T} `{json.Unmarshal T} (c : client) (ctx : Context)
    (path id : string) (params : OrderedValues)
    (headers : gmap string string) (resp : option T) :=
  DoWithHeaders c ctx http.MethodGet path id params headers nilBody resp.

Definition Post {T} `{json.Unmarshal T} (c : client) (ctx : Context)
    (path id : string) (params : OrderedValues)
    (headers : gmap string string) (b : body) (resp : option T) :=
  DoWithHeaders c ctx http.MethodPost path id params headers b resp.

Definition Put {T} `{json.Unmarshal T} (c : client) (ctx : Context)
    (path id : string) (params : OrderedValues)
    (headers : gmap string string) (b : body) (resp : option T) :=
  DoWithHeaders c ctx http.MethodPut path id params headers b resp.

Definition Delete {T} `{json.Unmarshal T} (c : client) (ctx : Context)
    (path id : string) (params : OrderedValues)
    (headers : gmap string string) (resp : option T) :=
  DoWithHeaders c ctx http.MethodDelete path id params headers nilBody
    resp.

Definition Do {T} `{json.Unmarshal T} (c : client) (ctx : Context)
    (method path id : string) (params : OrderedValues)
    (b : body) (resp : option T) :=
  DoWithHeaders c ctx method path id params ∅ b resp.

Definition errUnsupported : error :=
  errorString "OneFS releases older than 8.0 are no longer supported".

(** The versions that [New] reads from [resp.Latest]: the major and
    the minor version, or the error of [strconv.ParseUint]. *)
Definition versionOf (latest : option string) : error + Z * Z :=
  match latest with
  | Some s =>
      let i := strings.Index s "." in
      if negb (i =? -1) then
        match strconv.ParseUint8 isPrintTable
                (strings.sliceFrom s (i + 1)) with
        | inl err => inl err
        | inr m =>
            match strconv.ParseUint8 isPrintTable (strings.sliceTo s i) with
            | inl err => inl err
            | inr major => inr (major, m)
            end
        end
      else
        match strconv.ParseUint8 isPrintTable s with
        | inl err => inl err
        | inr major => inr (major, 0)
        end
  | None => inr (2, 0)
  end.

(** [func New]: the client, or the error.  [http_Do] is the
    behaviour of the [http.Client] that [New] sets up from
    [opts]. *)
Definition New (http_Do : http.Request -> string + http.Response)
    (ctx : Context) (hostname username password groupname : string)
    (opts : option ClientOptions)
  : result (option client * option error) :=
  if String.eqb hostname "" || String.eqb username ""
     || String.eqb password ""
  then Done (None, Some errNewClient)
  else
    let vp :=
      match opts with
      | Some o =>
          if negb (String.eqb (VolumesPath o) "")
          then VolumesPath o else defaultVolumesPath
      | None => defaultVolumesPath
      end in
    let c := mkClient http_Do hostname username groupname password
               vp 0 0 in
    r ← Get c ctx "/platform/latest" "" [] ∅
          (Some (mkApiVerResponse None));
    let '(resp, err) := r in
    fatal ← match err with
            | Some err =>
                msg ← error_Error err;
                Done (negb (strings.HasPrefix msg "json: "))
            | None => Done false
            end;
    if fatal : bool then Done (None, err)
    else
      match versionOf (Latest (default (mkApiVerResponse None) resp)) with
      | inl err => Done (None, Some err)
      | inr (major, minor) =>
          if major <? 3 then Done (None, Some errUnsupported)
          else Done (Some (mkClient http_Do hostname username groupname
                             password vp major minor), None)
      end.

Definition APIVersion (c : client) : Z := apiVersion c.
Definition User (c : client) : string := username c.
Definition Group (c : client) : string := groupname c.
Definition VolumesPath_ (c : client) : string := volumePath c.

(** [func (c *client) VolumePath(volumeName string) string] *)
Definition VolumePath (c : client) (volumeName : string) : string :=
  path.Join [volumePath c; volumeName].

End Client.

(** [type Client interface]: what the wrappers are written against.
    [St] is the state behind the interface (the appliance, and what
    an implementation keeps); a method gets the value [resp] points
    to ([None] for a nil [resp]) and gives it back with the error.
    [Get] and [Delete] take no body, [Do] takes the method and no
    headers, [DoWithHeaders] takes the method. *)
Definition answer (St T : Type) : Type :=
  option T -> St -> result (option T * option error * St).

Definition query (St : Type) : Type :=
  forall T : Type, json.Unmarshal T -> Context ->
    string -> string -> OrderedValues -> gmap string string -> answer St T.

Definition call (St : Type) : Type :=
  forall T : Type, json.Unmarshal T -> Context ->
    string -> string -> OrderedValues -> gmap string string -> body ->
    answer St T.

Record Client (St : Type) := mkClientI {
  Client_Do :
    forall T : Type, json.Unmarshal T -> Context ->
      string -> string -> string -> OrderedValues -> body -> answer St T;
  Client_DoWithHeaders :
    forall T : Type, json.Unmarshal T -> Context ->
      string -> string -> string -> OrderedValues -> gmap string string ->
      body -> answer St T;
  Client_Get : query St;
  Client_Post : call St;
  Client_Put : call St;
  Client_Delete : query St;
  Client_APIVersion : Z;
  Client_User : string;
  Client_Group : string;
  Client_VolumesPath : string;
  Client_VolumePath : string -> string
}.
Arguments Client_Do {St} _ {T _}.
Arguments Client_DoWithHeaders {St} _ {T _}.
Arguments Client_Get {St} _ {T _}.
Arguments Client_Post {St} _ {T _}.
Arguments Client_Put {St} _ {T _}.
Arguments Client_Delete {St} _ {T _}.
Arguments Client_APIVersion {St}.
Arguments Client_User {St}.
Arguments Client_Group {St}.
Arguments Client_VolumesPath {St}.
Arguments Client_VolumePath {St}.

(** One call through the interface, as an observer of the client
    sees it. *)
Record Call := mkCall {
  call_method : string;
  call_path : string;
  call_id : string;
  call_params : OrderedValues;
  call_headers : gmap string string;
  call_body : body
}.

(** Running [f] and writing [c] down after the calls made so far. *)
Definition recorded {St T} (c : Call) (f : answer St T)
  : answer (St * list Call) T :=
  fun resp s =>
    r ← f resp (fst s);
    Done (fst r, (snd r, (snd s ++ [c])%list)).

(** The same client, keeping the list of the calls made through it. *)
Definition recording {St} (c : Client St) : Client (St * list Call) :=
  mkClientI (St * list Call)
    (fun T U ctx method path id params b =>
       recorded (mkCall method path id params ∅ b)
         (Client_Do c ctx method path id params b))
    (fun T U ctx method path id params headers b =>
       recorded (mkCall method path id params headers b)
         (Client_DoWithHeaders c ctx method path id params headers b))
    (fun T U ctx path id params headers =>
       recorded (mkCall http.MethodGet path id params headers nilBody)
         (Client_Get c ctx path id params headers))
    (fun T U ctx path id params headers b =>
       recorded (mkCall http.MethodPost path id params headers b)
         (Client_Post c ctx path id params headers b))
    (fun T U ctx path id params headers b =>
       recorded (mkCall http.MethodPut path id params headers b)
         (Client_Put c ctx path id params headers b))
    (fun T U ctx path id params headers =>
       recorded (mkCall http.MethodDelete path id params headers nilBody)
         (Client_Delete c ctx path id params headers))
    (Client_APIVersion c) (Client_User c) (Client_Group c)
    (Client_VolumesPath c) (Client_VolumePath c).

End api.

(* ===================================================================== *)
(** ** Package [v1]: volumes and quotas *)
(* ===================================================================== *)

Module v1.

Definition defaultACL : string := "public_read_write".

Definition aclQS : OrderedValues := [["acl"]].
Definition metadataQS : OrderedValues := [["metadata"]].
Definition recursiveTrueQS : OrderedValues := [["recursive"; "true"]].

(** [Ownership] and [AclRequest], as the literal in
    [CreateIsiVolumeWithACL] fills them: the declarations are not
    among the sources. *)
Record Ownership := mkOwnership {
  Name : string;
  Type_ : string
}.

Record AclRequest := mkAclRequest {
  Authoritative : string;
  Action : string;
  Owner : option Ownership;
  Group : option Ownership
}.

Definition ownershipDoc (o : option Ownership) : json.JSON :=
  match o with
  | Some o =>
      json.JObject [("name", json.JString (Name o));
                    ("type", json.JString (Type_ o))]
  | None => json.JNull
  end.

#[global] Instance marshal_AclRequest : json.Marshal AclRequest :=
  fun d =>
    inr (json.JObject
           [("authoritative", json.JString (Authoritative d));
            ("action", json.JString (Action d));
            ("owner", ownershipDoc (Owner d));
            ("group", ownershipDoc (Group d))]).

(** Modelled from the spec: [IsiQuota] and [isiQuotaListResp], whose
    declarations are not among the sources: a quota is identified by
    an id and a directory path, and the list response carries the
    quotas. *)
Record IsiQuota := mkIsiQuota {
  Id : string;
  Path : string
}.

Record isiQuotaListResp := mkIsiQuotaListResp {
  Quotas : list IsiQuota
}.

(** Modelled from the spec: the quota endpoint, a constant declared
    outside the sources. *)
Definition quotaPath : string := "/platform/1/quota/quotas".

Definition byteArrPath : string := "path".

(** The loop of [GetIsiQuota] over [quotaResp.Quotas]. *)
Fixpoint findQuota (path : string) (quotas : list IsiQuota)
  : option IsiQuota :=
  match quotas with
  | [] => None
  | quota :: rest =>
      if String.eqb (Path quota) path then Some quota
      else findQuota path rest
  end.

Section Wrappers.

Variable St : Type.

(** [getIsiVolumesResp], declared outside the sources, and the way
    a pointer to it is decoded. *)
Variable getIsiVolumesResp : Type.
Context {U_volumes : json.Unmarshal (option getIsiVolumesResp)}.
Context {U_quotas : json.Unmarshal isiQuotaListResp}.

(** [realNamespacePath(client)], a helper defined outside the
    sources. *)
Variable realNamespacePath : api.Client St -> string.

(** [func CreateIsiVolumeWithACL] *)
Definition CreateIsiVolumeWithACL (ctx : api.Context)
    (client : api.Client St) (name ACL : string) (s : St)
  : result (option getIsiVolumesResp * option error * St) :=
  let resp : option getIsiVolumesResp := None in
  let createVolumeHeaders : gmap string string :=
    <["x-isi-ifs-target-type" := "container"]>
      (<["x-isi-ifs-access-control" := ACL]> ∅) in
  r ← api.Client_Put client ctx (realNamespacePath client) name []
        createVolumeHeaders api.nilBody (Some resp) s;
  let '(out, err, s) := r in
  let resp := default resp out in
  match err with
  | Some err => Done (resp, Some err, s)
  | None =>
      let data :=
        mkAclRequest "acl" "update"
          (Some (mkOwnership (api.Client_User client) "user")) None in
      let group := api.Client_Group client in
      let data :=
        if negb (String.eqb group "")
        then mkAclRequest (Authoritative data) (Action data) (Owner data)
               (Some (mkOwnership group "group"))
        else data in
      r ← api.Client_Put client ctx (realNamespacePath client) name
            aclQS ∅ (api.value data) (Some resp) s;
      let '(out, err, s) := r in
      Done (default resp out, err, s)
  end.

(** [func CreateIsiVolume] *)
Definition CreateIsiVolume (ctx : api.Context) (client : api.Client St)
    (name : string) (s : St) :=
  CreateIsiVolumeWithACL ctx client name defaultACL s.

(** [func GetIsiQuota] *)
Definition GetIsiQuota (ctx : api.Context) (client : api.Client St)
    (path : string) (s : St)
  : result (option IsiQuota * option error * St) :=
  let quotaResp := mkIsiQuotaListResp [] in
  r ← api.Client_Get client ctx quotaPath "" [[byteArrPath; path]] ∅
        (Some quotaResp) s;
  let '(out, err, s) := r in
  let quotaResp := default quotaResp out in
  match err with
  | Some err => Done (None, Some err, s)
  | None =>
      match findQuota path (Quotas quotaResp) with
      | Some quota => Done (Some quota, None, s)
      | None =>
          Done (None, Some (errorString ("Quota not found: " +:+ path)),
                s)
      end
  end.

End Wrappers.

End v1.

(* ===================================================================== *)
(** ** Package [goisilon]: snapshots *)
(* ===================================================================== *)

Module goisilon.

(** Modelled from the spec: [api.IsiSnapshot], whose declaration is
    not among the sources: a snapshot is identified by an id, a name
    and a source path. *)
Record IsiSnapshot := mkIsiSnapshot {
  Id : Z;
  Name : string;
  Path : string
}.

(** [type Snapshot *api.IsiSnapshot]: [None] is the nil pointer. *)
Definition Snapshot : Type := option IsiSnapshot.

(** [type SnapshotList []*api.IsiSnapshot]: every entry is a pointer,
    which may be nil. *)
Definition SnapshotList : Type := list (option IsiSnapshot).

(** What [api.GetIsiSnapshots] returns: a value with the list in its
    field [SnapshotList]. *)
Record getIsiSnapshotsResp := mkSnapshotsResp {
  SnapshotList_ : SnapshotList
}.

(** The loop of [GetSnapshot] over [snapshotList], up to its
    [return nil, nil]; [snapshot.Name] of a nil entry panics. *)
Fixpoint findSnapshot (name : string) (snapshotList : SnapshotList)
  : result Snapshot :=
  match snapshotList with
  | [] => Done None
  | None :: _ => Panics nilDereference
  | Some snapshot :: rest =>
      if String.eqb (Name snapshot) name then Done (Some snapshot)
      else findSnapshot name rest
  end.

Section Snapshots.

Variable St : Type.

(** [type Client struct { API api.Client }] *)
Record Client := mkClient {
  API : api.Client St
}.

(** The snapshot calls of package [v1], defined outside the
    sources. *)
Variable GetIsiSnapshots :
  api.Context -> api.Client St -> St ->
  result (getIsiSnapshotsResp * option error * St).
Variable GetIsiSnapshot :
  api.Context -> api.Client St -> Z -> St ->
  result (Snapshot * option error * St).
Variable RemoveIsiSnapshot :
  api.Context -> api.Client St -> Z -> St ->
  result (option error * St).

(** [func (c *Client) GetSnapshots]; a nil list is the empty one. *)
Definition GetSnapshots (c : Client) (ctx : api.Context) (s : St)
  : result (SnapshotList * option error * St) :=
  r ← GetIsiSnapshots ctx (API c) s;
  let '(snapshots, err, s) := r in
  match err with
  | Some err => Done ([], Some err, s)
  | None => Done (SnapshotList_ snapshots, None, s)
  end.

(** [func (c *Client) GetSnapshot] *)
Definition GetSnapshot (c : Client) (ctx : api.Context) (id : Z)
    (name : string) (s : St)
  : result (Snapshot * option error * St) :=
  r ← GetIsiSnapshot ctx (API c) id s;
  let '(snapshot, err, s) := r in
  match err with
  | None => Done (snapshot, None, s)
  | Some err =>
      if String.eqb name "" then Done (None, Some err, s)
      else
        r ← GetSnapshots c ctx s;
        let '(snapshotList, err, s) := r in
        match err with
        | Some err => Done (None, Some err, s)
        | None =>
            snapshot ← findSnapshot name snapshotList;
            Done (snapshot, None, s)
        end
  end.

(** [func (c *Client) RemoveSnapshot] *)
Definition RemoveSnapshot (c : Client) (ctx : api.Context) (id : Z)
    (name : string) (s : St) : result (option error * St) :=
  r ← GetSnapshot c ctx id name s;
  let '(snapshot, err, s) := r in
  match err with
  | Some err => Done (Some err, s)
  | None =>
      match snapshot with
      | None => Panics nilDereference
      | Some snapshot => RemoveIsiSnapshot ctx (API c) (Id snapshot) s
      end
  end.

End Snapshots.

End goisilon.

(* ===================================================================== *)
(** ** Statements about the URL assembly *)
(* ===================================================================== *)

(** One slash, or none. *)
Definition optSlash (b : bool) : string := if b then "/" else "".

(** What follows the path and the id in the URL. *)
Definition queryOf (params : OrderedValues) : string :=
  if 0 <? Z.of_nat (length params) then "?" +:+ EncodeTo params else "".

(** The parts of the arguments between the boundary slashes: a host
    name that does not end with a slash, a path that neither begins nor
    ends with one, an id that does not begin with one. *)
Definition isHostCore (h : string) : bool :=
  negb (String.eqb h "") && negb (hasSlashSuffix h).

Definition isPathCore (p : string) : bool :=
  negb (String.eqb p "") && negb (hasSlashPrefix p)
  && negb (hasSlashSuffix p).

Definition isIdCore (i : string) : bool := negb (hasSlashPrefix i).

(** The URL assembled from [h], [p] and [i], each given with or without
    a slash at its boundaries ([hs]: after the host name, [ps] and [pe]:
    before and after the path, [is_]: before the id), has one slash at
    each of the two boundaries. *)
Definition oneSlashAtBoundaries (h p i : string) (hs ps pe is_ : bool)
    (params : OrderedValues) : Prop :=
  assembleURL (h +:+ optSlash hs) (optSlash ps +:+ p +:+ optSlash pe)
    (optSlash is_ +:+ i) params
  = Done (h +:+ "/" +:+ p +:+ "/" +:+ i +:+ queryOf params).

(* ===================================================================== *)
(** ** Statements about the response handling *)
(* ===================================================================== *)

(** A call returns an error whose message is [msg]. *)
Definition returnsError {T} (r : result (option T * option error))
    (msg : string) : Prop :=
  exists out err, r = Done (out, Some err) /\ error_Error err = Done msg.

Definition is2xx (res : http.Response) : bool :=
  (200 <=? http.StatusCode res) && (http.StatusCode res <=? 299).

(** The message that stands for the entry [e0] of an error payload in
    the response [res]. *)
Definition messageOf (res : http.Response) (e0 : Error) : string :=
  if String.eqb (Message e0) "" then http.Status res else Message e0.

(** ** A client to run the model on *)

(** A [url.Parse] that accepts every string and prints it back. *)
Definition parseAny : string -> string + string := fun s => inr s.

(** Tables of [strconv.IsPrint] with no rune above U+00FF in them. *)
Definition latin1Only : Z -> bool := fun _ => false.

(** An appliance that answers every request with [res]. *)
Definition answering (res : http.Response)
  : http.Request -> string + http.Response := fun _ => inr res.

Definition clientOf (http_Do : http.Request -> string + http.Response)
  : api.client :=
  api.mkClient http_Do "https://1.2.3.4:8080" "admin" "wheel" "secret"
    api.defaultVolumesPath 3 0.

Definition quiet : api.Context := api.mkContext false.

(** [{"errors": []}] *)
Definition noErrorsDoc : json.JSON :=
  json.JObject [("errors", json.JArray [])].

(** [{"errors": [{"code": "AEC_NOT_FOUND", "message": ...}]}] *)
Definition notFoundDoc (message : string) : json.JSON :=
  json.JObject
    [("errors",
      json.JArray
        [json.JObject [("code", json.JString "AEC_NOT_FOUND");
                       ("message", json.JString message)]])].

(* ===================================================================== *)
(** ** Statements about the request *)
(* ===================================================================== *)

(** [req.Header.Values(key)] *)
Definition headerValues (h : http.Header) (key : string) : list string :=
  default [] (h !! http.CanonicalHeaderKey key).

(** A method that [http.NewRequest] accepts: the empty one, which
    stands for [GET], or one made of token bytes. *)
Definition acceptedMethod (method : string) : bool :=
  http.validMethod (if String.eqb method "" then "GET" else method).

(** The content type of a request with a body: the one that [headers]
    has under the key [Content-Type], or else [dflt]. *)
Definition contentTypeOf (headers : gmap string string) (dflt : string)
  : string :=
  default dflt (headers !! api.headerKeyContentType).

(** An entry of [headers] under another spelling of the key
    [Content-Type], as in [content-type]. *)
Definition otherSpelling (kv : string * string) : bool :=
  negb (String.eqb (fst kv) api.headerKeyContentType)
  && String.eqb (http.CanonicalHeaderKey (fst kv)) api.headerKeyContentType.

(** The values of those entries, in the order in which the loop over
    [headers] meets them. *)
Definition otherSpellings (headers : gmap string string) : list string :=
  List.map snd (List.filter otherSpelling (map_to_list headers)).


(** What [DoAndGetResponseBody] returns once the request [req] is
    built. *)
Definition exchange (c : api.client) (ctx : api.Context)
    (req : http.Request)
  : result (option http.Response * bool * option error) :=
  match api.http_ c req with
  | inl msg => Done (None, api.debugLevel ctx, Some (errorString msg))
  | inr res => Done (Some res, api.debugLevel ctx, None)
  end.

(* ===================================================================== *)
(** ** Statements about the construction of a client *)
(* ===================================================================== *)

(** The volumes path that [New] gives the client. *)
Definition volumesPathOf (opts : option api.ClientOptions) : string :=
  match opts with
  | Some o =>
      if negb (String.eqb (api.VolumesPath o) "")
      then api.VolumesPath o else api.defaultVolumesPath
  | None => api.defaultVolumesPath
  end.

(** The version probe of [New]: the [Get] of [/platform/latest] into an
    empty [apiVerResponse]. *)
Definition versionProbe (isPrintTable : Z -> bool)
    (url_Parse : string -> string + string)
    (http_Do : http.Request -> string + http.Response) (ctx : api.Context)
    (hostname username password groupname : string)
    (opts : option api.ClientOptions)
  : result (option api.apiVerResponse * option error) :=
  api.Get isPrintTable url_Parse
    (api.mkClient http_Do hostname username groupname password
       (volumesPathOf opts) 0 0)
    ctx "/platform/latest" "" [] ∅ (Some (api.mkApiVerResponse None)).

(** What the probe left in [resp.Latest]. *)
Definition latestOf (resp : option api.apiVerResponse) : option string :=
  api.Latest (default (api.mkApiVerResponse None) resp).

(** [New] fails: it returns a nil client and an error. *)
Definition constructionFails (r : result (option api.client * option error))
  : Prop :=
  exists e, r = Done (None, Some e).

(* ===================================================================== *)
(** ** Statements about the wrappers *)
(* ===================================================================== *)

(** The two calls of [CreateIsiVolumeWithACL], as an observer of the
    client sees them. *)
Definition createVolumeCall (path name ACL : string) : api.Call :=
  api.mkCall http.MethodPut path name []
    (<["x-isi-ifs-target-type" := "container"]>
       (<["x-isi-ifs-access-control" := ACL]> ∅))
    api.nilBody.

Definition ownershipOf (user group : string) : v1.AclRequest :=
  v1.mkAclRequest "acl" "update" (Some (v1.mkOwnership user "user"))
    (if String.eqb group "" then None
     else Some (v1.mkOwnership group "group")).

Definition setOwnershipCall (path name user group : string) : api.Call :=
  api.mkCall http.MethodPut path name v1.aclQS ∅
    (api.value (ownershipOf user group)).

(** [sub] occurs in [s]. *)
Definition contains (s sub : string) : Prop :=
  exists a b, s = a +:+ sub +:+ b.

(** [x] is the first element of [l] that satisfies [P]. *)
Definition firstWith {A} (P : A -> Prop) (l : list A) (x : A) : Prop :=
  exists pre post,
    l = (pre ++ x :: post)%list /\ P x /\ Forall (fun y => ~ P y) pre.

(** A client that answers every call with the same error, a client
    that answers every call with a list of quotas, and snapshot calls
    over a fixed list, to run the wrappers on. *)
Definition answersOf (St : Type) (f : forall T, json.Unmarshal T ->
                                        api.answer St T)
  : api.Client St :=
  api.mkClientI St
    (fun T U _ _ _ _ _ _ => f T U)
    (fun T U _ _ _ _ _ _ _ => f T U)
    (fun T U _ _ _ _ _ => f T U)
    (fun T U _ _ _ _ _ _ => f T U)
    (fun T U _ _ _ _ _ _ => f T U)
    (fun T U _ _ _ _ _ => f T U)
    3 "admin" "wheel" "/ifs/volumes"
    (fun name => path.Join ["/ifs/volumes"; name]).

Definition failingClient (e : error) : api.Client unit :=
  answersOf unit (fun T U resp s => Done (resp, Some e, s)).

Definition quotasDoc (quotas : list v1.IsiQuota) : json.JSON :=
  json.JObject
    [("quotas",
      json.JArray
        (map (fun q => json.JObject
                          [("id", json.JString (v1.Id q));
                           ("path", json.JString (v1.Path q))])
           quotas))].

Definition listingClient (quotas : list v1.IsiQuota) : api.Client unit :=
  answersOf unit (fun T U resp s =>
    match resp with
    | Some v =>
        let '(v', err) := json.unmarshal (quotasDoc quotas) v in
        Done (Some v', errorString <$> err, s)
    | None => Done (None, None, s)
    end).

(** The way [listingClient] decodes its document: a quota through the
    keys [id] and [path], the list through the key [quotas]. *)
#[global] Instance unmarshal_IsiQuota : json.Unmarshal v1.IsiQuota :=
  json.unmarshalStruct "v1.IsiQuota" (fun k x q =>
    if json.keyIs "id" k then
      let '(s, err) := json.unmarshal x (v1.Id q) in
      (v1.mkIsiQuota s (v1.Path q), err)
    else if json.keyIs "path" k then
      let '(s, err) := json.unmarshal x (v1.Path q) in
      (v1.mkIsiQuota (v1.Id q) s, err)
    else (q, None)).

#[global] Instance unmarshal_isiQuotaListResp
  : json.Unmarshal v1.isiQuotaListResp :=
  json.unmarshalStruct "v1.isiQuotaListResp" (fun k x r =>
    if json.keyIs "quotas" k then
      let '(l, err) :=
        json.unmarshalSlice "[]v1.IsiQuota" (v1.mkIsiQuota "" "") x
          (v1.Quotas r) in
      (v1.mkIsiQuotaListResp l, err)
    else (r, None)).

(** The entry [y] of a snapshot list points to a snapshot whose [Name]
    is [name]. *)
Definition named (name : string) (y : goisilon.Snapshot) : Prop :=
  exists sn, y = Some sn /\ goisilon.Name sn = name.

(** The entry [y] is not nil. *)
Definition notNil (y : goisilon.Snapshot) : Prop := y <> None.

Definition snapshotsOf (l : goisilon.SnapshotList)
  : api.Context -> api.Client unit -> unit ->
    result (goisilon.getIsiSnapshotsResp * option error * unit) :=
  fun _ _ s => Done (goisilon.mkSnapshotsResp l, None, s).

Definition noSnapshot (e : error)
  : api.Context -> api.Client unit -> Z -> unit ->
    result (goisilon.Snapshot * option error * unit) :=
  fun _ _ _ s => Done (None, Some e, s).

Definition removeOk
  : api.Context -> api.Client unit -> Z -> unit ->
    result (option error * unit) :=
  fun _ _ _ s => Done (None, s).

(** A pointer to a string, for a response type to run the volume
    wrappers on. *)
#[global] Instance unmarshal_stringPtr : json.Unmarshal (option string) :=
  json.unmarshalPtr "".

(* ===================================================================== *)
(** ** Statements about volume paths *)
(* ===================================================================== *)

Fixpoint noSlash (s : string) : bool :=
  match s with
  | EmptyString => true
  | String c r => negb (isSlash c) && noSlash r
  end.

(** A path element that names something: not empty, not [.], not [..],
    and without a slash. *)
Definition isName (e : string) : bool :=
  negb (String.eqb e "") && negb (String.eqb e ".")
  && negb (String.eqb e "..") && noSlash e.

(** A rooted clean path: a slash, then names with one slash between
    them. *)
Definition rootedClean (p : string) : Prop :=
  exists names, p = "/" +:+ joinWith "/" names
                /\ Forall (fun e => isName e = true) names.

(** [p] is the directory [root] or lies below it. *)
Definition insideRoot (root p : string) : bool :=
  String.eqb p root || strings.HasPrefix p (root +:+ "/").

(** A client with the volumes path [vp]. *)
Definition clientAt (vp : string) : api.client :=
  api.mkClient (answering (http.mkResponse 200 "200 OK" json.BodyEmpty))
    "https://1.2.3.4:8080" "admin" "wheel" "secret" vp 3 0.

(** The buffer of [Clean] on a rooted path: no protected [..], and
    names only. *)
Definition rootedBuf (out : path.lazybuf) : Prop :=
  path.dotdots out = 0%nat
  /\ Forall (fun e => isName e = true) (path.elems out).

(* ===================================================================== *)
(** ** More of the Go library: [fmt] and [path.Base] *)
(* ===================================================================== *)

From Stdlib Require DecimalString.

Module fmt.

(** The verb [%d] on an [int64]. *)
Definition formatInt (n : Z) : string :=
  DecimalString.NilZero.string_of_int (Z.to_int n).

End fmt.

Module pathBase.

(** [path] without the slashes at its end. *)
Fixpoint stripTrailingSlashes (s : string) : string :=
  match s with
  | EmptyString => EmptyString
  | String c r =>
      match stripTrailingSlashes r with
      | EmptyString => if isSlash c then EmptyString else String c EmptyString
      | r' => String c r'
      end
  end.

(** What follows the last slash of [s]; [s] itself when it has none. *)
Fixpoint afterLastSlash (s : string) : string :=
  match s with
  | EmptyString => EmptyString
  | String c r =>
      if noSlash r then (if isSlash c then r else s)
      else afterLastSlash r
  end.

(** [path.Base]: the last element of [path]; [.] for the empty path,
    [/] for a path of slashes only. *)
Definition Base (p : string) : string :=
  if String.eqb p "" then "."
  else
    let p := afterLastSlash (stripTrailingSlashes p) in
    if String.eqb p "" then "/" else p.

End pathBase.

(* ===================================================================== *)
(** ** Package [v1]: the other volume calls *)
(* ===================================================================== *)

Module v1_volume.

Section Volumes.

Variable St : Type.

(** [getIsiVolumesResp] and [getIsiVolumeAttributesResp], declared
    outside the sources, and the way pointers to them are decoded. *)
Variables getIsiVolumesResp getIsiVolumeAttributesResp : Type.
Context {U_volumes : json.Unmarshal (option getIsiVolumesResp)}.
Context {U_attributes : json.Unmarshal (option getIsiVolumeAttributesResp)}.

(** [realNamespacePath(client)], a helper defined outside the
    sources. *)
Variable realNamespacePath : api.Client St -> string.

(** [func GetIsiVolumes] *)
Definition GetIsiVolumes (ctx : api.Context) (client : api.Client St)
    (s : St) : result (option getIsiVolumesResp * option error * St) :=
  let resp : option getIsiVolumesResp := None in
  r ← api.Client_Get client ctx (realNamespacePath client) "" [] ∅
        (Some resp) s;
  let '(out, err, s) := r in
  Done (default resp out, err, s).

(** [func GetIsiVolume] *)
Definition GetIsiVolume (ctx : api.Context) (client : api.Client St)
    (name : string) (s : St)
  : result (option getIsiVolumeAttributesResp * option error * St) :=
  let resp : option getIsiVolumeAttributesResp := None in
  r ← api.Client_Get client ctx (realNamespacePath client) name
        v1.metadataQS ∅ (Some resp) s;
  let '(out, err, s) := r in
  Done (default resp out, err, s).

(** [func DeleteIsiVolume] *)
Definition DeleteIsiVolume (ctx : api.Context) (client : api.Client St)
    (name : string) (s : St)
  : result (option getIsiVolumesResp * option error * St) :=
  let resp : option getIsiVolumesResp := None in
  r ← api.Client_Delete client ctx (realNamespacePath client) name
        v1.recursiveTrueQS ∅ (Some resp) s;
  let '(out, err, s) := r in
  Done (default resp out, err, s).

(** [func CopyIsiVolume] *)
Definition CopyIsiVolume (ctx : api.Context) (client : api.Client St)
    (sourceName destinationName : string) (s : St)
  : result (option getIsiVolumesResp * option error * St) :=
  let resp : option getIsiVolumesResp := None in
  let headers : gmap string string :=
    <["x-isi-ifs-copy-source" :=
        path.Join ["/"; realNamespacePath client; sourceName]]> ∅ in
  r ← api.Client_Put client ctx (realNamespacePath client) destinationName
        [] headers api.nilBody (Some resp) s;
  let '(out, err, s) := r in
  Done (default resp out, err, s).

End Volumes.

End v1_volume.

(* ===================================================================== *)
(** ** Package [v1]: the other quota calls *)
(* ===================================================================== *)

Module v1_quota.

(** The request types, as the literals in [CreateIsiQuota] and
    [UpdateIsiQuotaHardThreshold] fill them: the declarations are not
    among the sources.  [Advisory] and [Soft] are pointers, set to
    nil. *)
Record isiThresholdsReq := mkThresholds {
  Advisory : option Z;
  Hard : Z;
  Soft : option Z
}.

Record IsiQuotaReq := mkIsiQuotaReq {
  Enforced : bool;
  IncludeSnapshots : bool;
  Path : string;
  Container : bool;
  ThresholdsIncludeOverhead : bool;
  Type_ : string;
  Thresholds : isiThresholdsReq
}.

Record IsiUpdateQuotaReq := mkIsiUpdateQuotaReq {
  uEnforced : bool;
  uThresholdsIncludeOverhead : bool;
  uThresholds : isiThresholdsReq
}.

Definition optNumber (n : option Z) : json.JSON :=
  match n with
  | Some n => json.JNumber n
  | None => json.JNull
  end.

Definition thresholdsDoc (t : isiThresholdsReq) : json.JSON :=
  json.JObject [("advisory", optNumber (Advisory t));
                ("hard", json.JNumber (Hard t));
                ("soft", optNumber (Soft t))].

(** The documents that the comments of the two functions show. *)
#[global] Instance marshal_IsiQuotaReq : json.Marshal IsiQuotaReq :=
  fun d =>
    inr (json.JObject
           [("enforced", json.JBool (Enforced d));
            ("include_snapshots", json.JBool (IncludeSnapshots d));
            ("path", json.JString (Path d));
            ("container", json.JBool (Container d));
            ("thresholds_include_overhead",
             json.JBool (ThresholdsIncludeOverhead d));
            ("type", json.JString (Type_ d));
            ("thresholds", thresholdsDoc (Thresholds d))]).

#[global] Instance marshal_IsiUpdateQuotaReq
  : json.Marshal IsiUpdateQuotaReq :=
  fun d =>
    inr (json.JObject
           [("enforced", json.JBool (uEnforced d));
            ("thresholds_include_overhead",
             json.JBool (uThresholdsIncludeOverhead d));
            ("thresholds", thresholdsDoc (uThresholds d))]).

(** The type of the value behind a nil [resp]: there is none. *)
#[global] Instance unmarshal_nothing : json.Unmarshal Empty_set :=
  fun _ v => match v with end.

Section Quotas.

Variable St : Type.
Context {U_quota : json.Unmarshal v1.IsiQuota}.
Context {U_quotas : json.Unmarshal v1.isiQuotaListResp}.

(** [func CreateIsiQuota] *)
Definition CreateIsiQuota (ctx : api.Context) (client : api.Client St)
    (path : string) (container : bool) (size : Z) (s : St)
  : result (option error * St) :=
  let data :=
    mkIsiQuotaReq true false path container false "directory"
      (mkThresholds None size None) in
  let quotaResp := v1.mkIsiQuota "" "" in
  r ← api.Client_Post client ctx v1.quotaPath "" [] ∅ (api.value data)
        (Some quotaResp) s;
  let '(_, err, s) := r in
  Done (err, s).

(** [func SetIsiQuotaHardThreshold] *)
Definition SetIsiQuotaHardThreshold (ctx : api.Context)
    (client : api.Client St) (path : string) (size : Z) (s : St)
  : result (option error * St) :=
  CreateIsiQuota ctx client path false size s.

(** [func UpdateIsiQuotaHardThreshold] *)
Definition UpdateIsiQuotaHardThreshold (ctx : api.Context)
    (client : api.Client St) (path : string) (size : Z) (s : St)
  : result (option error * St) :=
  let data :=
    mkIsiUpdateQuotaReq true false (mkThresholds None size None) in
  r ← v1.GetIsiQuota St ctx client path s;
  let '(quota, err, s) := r in
  match err with
  | Some err => Done (Some err, s)
  | None =>
      match quota with
      | None => Panics nilDereference
      | Some quota =>
          let quotaResp := v1.mkIsiQuota "" "" in
          r ← api.Client_Put client ctx v1.quotaPath (v1.Id quota) [] ∅
                (api.value data) (Some quotaResp) s;
          let '(_, err, s) := r in
          Done (err, s)
      end
  end.

(** [func DeleteIsiQuota] *)
Definition DeleteIsiQuota (ctx : api.Context) (client : api.Client St)
    (path : string) (s : St) : result (option error * St) :=
  r ← api.Client_Delete client ctx v1.quotaPath ""
        [[v1.byteArrPath; path]] ∅ (None : option Empty_set) s;
  let '(_, err, s) := r in
  Done (err, s).

End Quotas.

End v1_quota.

(* ===================================================================== *)
(** ** Package [goisilon]: the quota methods of the facade *)
(* ===================================================================== *)

Module quota.

Section Quota.

Variable St : Type.
Context {U_quota : json.Unmarshal v1.IsiQuota}.
Context {U_quotas : json.Unmarshal v1.isiQuotaListResp}.

(** [func (c *Client) GetQuota] *)
Definition GetQuota (c : goisilon.Client St) (ctx : api.Context)
    (name : string) (s : St)
  : result (option v1.IsiQuota * option error * St) :=
  let API := goisilon.API St c in
  r ← v1.GetIsiQuota St ctx API (api.Client_VolumePath API name) s;
  let '(quota, err, s) := r in
  match err with
  | Some err => Done (None, Some err, s)
  | None => Done (quota, None, s)
  end.

(** [func (c *Client) CreateQuota] *)
Definition CreateQuota (c : goisilon.Client St) (ctx : api.Context)
    (name : string) (container : bool) (size : Z) (s : St)
  : result (option error * St) :=
  let API := goisilon.API St c in
  v1_quota.CreateIsiQuota St ctx API (api.Client_VolumePath API name)
    container size s.

(** [func (c *Client) SetQuotaSize] *)
Definition SetQuotaSize (c : goisilon.Client St) (ctx : api.Context)
    (name : string) (size : Z) (s : St) : result (option error * St) :=
  let API := goisilon.API St c in
  v1_quota.SetIsiQuotaHardThreshold St ctx API
    (api.Client_VolumePath API name) size s.

(** [func (c *Client) UpdateQuotaSize] *)
Definition UpdateQuotaSize (c : goisilon.Client St) (ctx : api.Context)
    (name : string) (size : Z) (s : St) : result (option error * St) :=
  let API := goisilon.API St c in
  v1_quota.UpdateIsiQuotaHardThreshold St ctx API
    (api.Client_VolumePath API name) size s.

(** [func (c *Client) ClearQuota] *)
Definition ClearQuota (c : goisilon.Client St) (ctx : api.Context)
    (name : string) (s : St) : result (option error * St) :=
  let API := goisilon.API St c in
  v1_quota.DeleteIsiQuota St ctx API (api.Client_VolumePath API name) s.

End Quota.

End quota.

(* ===================================================================== *)
(** ** Package [goisilon]: the other snapshot methods *)
(* ===================================================================== *)

Module snapshots.

(** The loop of [GetSnapshotsByPath]: the entries of [l] whose [Path]
    is [target], appended to [snapshotsWithPath]; [snapshot.Path] of a
    nil entry panics. *)
Fixpoint withPath (target : string) (l : goisilon.SnapshotList)
    (snapshotsWithPath : goisilon.SnapshotList)
  : result goisilon.SnapshotList :=
  match l with
  | [] => Done snapshotsWithPath
  | None :: _ => Panics nilDereference
  | Some snapshot :: rest =>
      if String.eqb (goisilon.Path snapshot) target
      then withPath target rest (snapshotsWithPath ++ [Some snapshot])%list
      else withPath target rest snapshotsWithPath
  end.

Section Snapshots.

Variable St : Type.

(** [api.IsiVolume], behind the pointer type [Volume], and the response
    of [api.CopyIsiSnapshot]: declared outside the sources. *)
Variables IsiVolume copyResp : Type.

(** The calls of package [v1] and the method [GetVolume] of the facade,
    defined outside the sources. *)
Variable GetIsiSnapshots :
  api.Context -> api.Client St -> St ->
  result (goisilon.getIsiSnapshotsResp * option error * St).
Variable GetIsiSnapshot :
  api.Context -> api.Client St -> Z -> St ->
  result (goisilon.Snapshot * option error * St).
Variable CreateIsiSnapshot :
  api.Context -> api.Client St -> string -> string -> St ->
  result (goisilon.Snapshot * option error * St).
Variable CopyIsiSnapshot :
  api.Context -> api.Client St -> string -> string -> string -> St ->
  result (copyResp * option error * St).
Variable GetVolume :
  goisilon.Client St -> api.Context -> string -> string -> St ->
  result (option IsiVolume * option error * St).

(** [func (c *Client) GetSnapshotsByPath] *)
Definition GetSnapshotsByPath (c : goisilon.Client St) (ctx : api.Context)
    (path : string) (s : St)
  : result (goisilon.SnapshotList * option error * St) :=
  r ← GetIsiSnapshots ctx (goisilon.API St c) s;
  let '(snapshots, err, s) := r in
  match err with
  | Some err => Done ([], Some err, s)
  | None =>
      snapshotsWithPath ←
        withPath (api.Client_VolumePath (goisilon.API St c) path)
          (goisilon.SnapshotList_ snapshots) [];
      Done (snapshotsWithPath, None, s)
  end.

(** [func (c *Client) CreateSnapshot] *)
Definition CreateSnapshot (c : goisilon.Client St) (ctx : api.Context)
    (path name : string) (s : St) :=
  CreateIsiSnapshot ctx (goisilon.API St c)
    (api.Client_VolumePath (goisilon.API St c) path) name s.

Definition errSnapshotDoesNotExist (sourceID : Z) (sourceName : string)
  : error :=
  errorString ("Snapshot doesn't exist: (" +:+ fmt.formatInt sourceID
               +:+ ", " +:+ sourceName +:+ ")").

(** [func (c *Client) CopySnapshot] *)
Definition CopySnapshot (c : goisilon.Client St) (ctx : api.Context)
    (sourceID : Z) (sourceName destinationName : string) (s : St)
  : result (option IsiVolume * option error * St) :=
  r ← goisilon.GetSnapshot St GetIsiSnapshots GetIsiSnapshot c ctx sourceID
        sourceName s;
  let '(snapshot, err, s) := r in
  match err with
  | Some err => Done (None, Some err, s)
  | None =>
      match snapshot with
      | None =>
          Done (None, Some (errSnapshotDoesNotExist sourceID sourceName), s)
      | Some snapshot =>
          r ← CopyIsiSnapshot ctx (goisilon.API St c)
                (goisilon.Name snapshot)
                (pathBase.Base (goisilon.Path snapshot)) destinationName s;
          let '(_, err, s) := r in
          match err with
          | Some err => Done (None, Some err, s)
          | None => GetVolume c ctx destinationName destinationName s
          end
      end
  end.

End Snapshots.

End snapshots.

(* ===================================================================== *)
(** ** Statements about the rest of the client *)
(* ===================================================================== *)

(** [s] between double quotes. *)
Definition inQuotes (s : string) : string :=
  String strconv.quoteByte (s +:+ String strconv.quoteByte "").

(** The entry [y] of a snapshot list points to a snapshot whose [Path]
    is [target]. *)
Definition hasPath (target : string) (y : goisilon.Snapshot) : bool :=
  match y with
  | Some x => String.eqb (goisilon.Path x) target
  | None => false
  end.

(** A method that [http.NewRequest] refuses. *)
Definition invalidMethod (method : string) : bool :=
  negb (String.eqb method "") && negb (http.validMethod method).

(** [s] has no dot. *)
Fixpoint noDot (s : string) : bool :=
  match s with
  | EmptyString => true
  | String c r => negb (Ascii.eqb c ".") && noDot r
  end.

(** The versions are [uint8] values. *)
Definition isUint8 (n : Z) : Prop := 0 <= n <= 255.

(** No element of [name] is [..]. *)
Definition noDotDot (name : string) : bool :=
  forallb (fun e => negb (String.eqb e "..")) (path.split name).

(* ===================================================================== *)
(** ** Statements about the other wrappers *)
(* ===================================================================== *)

(** The calls of the quota and volume wrappers, as an observer of the
    client sees them. *)
Definition getQuotaCall (path : string) : api.Call :=
  api.mkCall http.MethodGet v1.quotaPath "" [["path"; path]] ∅ api.nilBody.

Definition updateQuotaCall (id : string) (size : Z) : api.Call :=
  api.mkCall http.MethodPut v1.quotaPath id [] ∅
    (api.value
       (v1_quota.mkIsiUpdateQuotaReq true false
          (v1_quota.mkThresholds None size None))).

Definition createQuotaCall (path : string) (container : bool) (size : Z)
  : api.Call :=
  api.mkCall http.MethodPost v1.quotaPath "" [] ∅
    (api.value
       (v1_quota.mkIsiQuotaReq true false path container false "directory"
          (v1_quota.mkThresholds None size None))).

Definition copyVolumeCall (namespace source destination : string)
  : api.Call :=
  api.mkCall http.MethodPut namespace destination []
    (<["x-isi-ifs-copy-source" := path.Join ["/"; namespace; source]]> ∅)
    api.nilBody.

(** A client that answers every call without an error and leaves
    [resp] alone. *)
Definition silentClient : api.Client unit :=
  answersOf unit (fun T U resp s => Done (resp, None, s)).

(* ===================================================================== *)
(** * Properties *)
(* ===================================================================== *)

(** One step of a computation in [result]: a bind on a value that is
    known. *)
Ltac go_step := cbn [mbind result_bind rbind].

(** ** Byte strings *)

Lemma append_cons (c : ascii) (s t : string) :
  String c s +:+ t = String c (s +:+ t).
Proof. reflexivity. Qed.

Lemma append_nil_l (t : string) : "" +:+ t = t.
Proof. reflexivity. Qed.

Lemma append_nil_r (s : string) : s +:+ "" = s.
Proof.
  induction s as [|c s IH]; [reflexivity |].
  now rewrite append_cons, IH.
Qed.

Lemma append_assoc (a b c : string) : (a +:+ b) +:+ c = a +:+ b +:+ c.
Proof.
  induction a as [|x a IH]; [reflexivity |].
  now rewrite !append_cons, IH.
Qed.

Lemma append_empty (a b : string) : a +:+ b = "" -> a = "" /\ b = "".
Proof. destruct a; [now rewrite append_nil_l | discriminate]. Qed.

Lemma lastByte_cons (c : ascii) (s : string) :
  s <> "" -> lastByte (String c s) = lastByte s.
Proof. destruct s; [contradiction | reflexivity]. Qed.

Lemma lastByte_append (a b : string) :
  b <> "" -> lastByte (a +:+ b) = lastByte b.
Proof.
  intros Hb. induction a as [|x a IH]; [reflexivity |].
  rewrite append_cons, lastByte_cons, IH; [reflexivity |].
  intros [_ E]%append_empty. contradiction.
Qed.

Lemma lastByte_nonempty (s : string) : s <> "" -> lastByte s <> None.
Proof.
  induction s as [|c s IH]; [contradiction |]. intros _.
  destruct s as [|d s]; [discriminate |].
  rewrite lastByte_cons by discriminate. apply IH. discriminate.
Qed.

Lemma len_append (a b : string) : len (a +:+ b) = len a + len b.
Proof.
  unfold len. induction a as [|x a IH]; [reflexivity |].
  rewrite append_cons. cbn [String.length]. lia.
Qed.

Lemma len_pos (s : string) : s <> "" -> (0 <? len s) = true.
Proof.
  destruct s; [contradiction |]. intros _. unfold len. cbn [String.length].
  apply Z.ltb_lt. lia.
Qed.

Lemma eqb_empty_false (s : string) : String.eqb s "" = false -> s <> "".
Proof. intros H ->. discriminate. Qed.

(** ** URL assembly *)

Example assembleURL_probe :
  assembleURL "https://1.2.3.4:8080" "/platform/latest" "" []
  = Done "https://1.2.3.4:8080/platform/latest/".
Proof. reflexivity. Qed.

Example assembleURL_acl :
  assembleURL "https://h/" "namespace/ifs/volumes" "vol1" [["acl"]]
  = Done "https://h/namespace/ifs/volumes/vol1?acl".
Proof. reflexivity. Qed.

Example assembleURL_quota :
  assembleURL "https://h" "/platform/1/quota/quotas" ""
    [["path"; "/ifs/volumes/a b"]]
  = Done "https://h/platform/1/quota/quotas/?path=%2Fifs%2Fvolumes%2Fa%20b".
Proof. reflexivity. Qed.

Example assembleURL_empty_uri :
  assembleURL "https://h" "" "vol1" [] = Panics indexOutOfRange.
Proof. reflexivity. Qed.

Example assembleURL_slash_uri :
  assembleURL "https://h" "/" "vol1" [] = Done "https://h/vol1".
Proof. reflexivity. Qed.

Lemma endsWithSlash_host (h : string) (hs : bool) :
  isHostCore h = true -> endsWithSlash (h +:+ optSlash hs) = Done hs.
Proof.
  unfold isHostCore, hasSlashSuffix, endsWithSlash.
  intros [Hne Hs]%andb_prop. apply negb_true_iff in Hne, Hs.
  apply eqb_empty_false in Hne.
  destruct hs; unfold optSlash.
  - rewrite lastByte_append by discriminate. reflexivity.
  - rewrite append_nil_r. destruct (lastByte h) eqn:E.
    + now rewrite Hs.
    + now apply lastByte_nonempty in Hne.
Qed.

Lemma beginsWithSlash_path (p : string) (ps pe : bool) :
  isPathCore p = true ->
  beginsWithSlash (optSlash ps +:+ p +:+ optSlash pe) = Done ps.
Proof.
  unfold isPathCore.
  intros [[Hne Hp]%andb_prop _]%andb_prop. apply negb_true_iff in Hne, Hp.
  destruct ps; [reflexivity |]. unfold optSlash at 1. rewrite append_nil_l.
  destruct p as [|c p]; [discriminate |]. rewrite append_cons.
  unfold beginsWithSlash. simpl in Hp. now rewrite Hp.
Qed.

Lemma endsWithSlash_path (p : string) (ps pe : bool) :
  isPathCore p = true ->
  endsWithSlash (optSlash ps +:+ p +:+ optSlash pe) = Done pe.
Proof.
  unfold isPathCore, hasSlashSuffix, endsWithSlash.
  intros [[Hne _]%andb_prop Hs]%andb_prop. apply negb_true_iff in Hne, Hs.
  apply eqb_empty_false in Hne.
  destruct pe; unfold optSlash at 2.
  - rewrite <- append_assoc, lastByte_append by discriminate. reflexivity.
  - rewrite append_nil_r, lastByte_append by assumption.
    destruct (lastByte p) eqn:E.
    + now rewrite Hs.
    + now apply lastByte_nonempty in Hne.
Qed.

(** What [assembleURL] writes for a host name and a path that carry at
    most one slash at each boundary. *)
Lemma assembleURL_cores (h p id : string) (hs ps pe : bool)
    (params : OrderedValues) :
  isHostCore h = true -> isPathCore p = true ->
  assembleURL (h +:+ optSlash hs) (optSlash ps +:+ p +:+ optSlash pe) id
    params
  = Done (h +:+ "/" +:+ p +:+ "/" +:+ id +:+ queryOf params).
Proof.
  intros Hh Hp. unfold assembleURL.
  rewrite (endsWithSlash_host h hs Hh), (beginsWithSlash_path p ps pe Hp),
    (endsWithSlash_path p ps pe Hp).
  go_step.
  assert (Hluri : (0 <? len (optSlash ps +:+ p +:+ optSlash pe)) = true).
  { apply len_pos. intros [_ [E _]%append_empty]%append_empty.
    unfold isPathCore in Hp. now rewrite E in Hp. }
  rewrite Hluri, orb_true_l, andb_true_r. unfold queryOf. f_equal.
  assert (Hid : (0 <? len id) = false -> id = "").
  { destruct id; [reflexivity |]. now rewrite len_pos. }
  destruct (0 <? len id); [| rewrite Hid by reflexivity];
    destruct (0 <? Z.of_nat (length params));
    destruct hs, ps, pe; unfold optSlash, negb;
    rewrite ?append_nil_l, ?append_nil_r, ?append_cons, ?append_nil_l;
    cbn [dropFirst];
    rewrite ?append_assoc, ?append_nil_r, ?append_cons, ?append_nil_l;
    reflexivity.
Qed.

(** C2, as amended: for a host name with at most one slash at its end,
    a path with at most one slash at each end around a non-empty core,
    and an id that does not begin with a slash, the assembled URL has
    exactly one slash at the boundary of host name and path and exactly
    one at the boundary of path and id. *)
Theorem assembleURL_one_slash_at_boundaries
    (h p i : string) (hs ps pe : bool) (params : OrderedValues) :
  isHostCore h = true -> isPathCore p = true -> isIdCore i = true ->
  oneSlashAtBoundaries h p i hs ps pe false params.
Proof.
  intros Hh Hp _. unfold oneSlashAtBoundaries. unfold optSlash at 4.
  rewrite append_nil_l. now apply assembleURL_cores.
Qed.

Lemma assembleURL_one_slash_at_boundaries_witness :
  isHostCore "https://1.2.3.4:8080" = true
  /\ isPathCore "platform/1/quota/quotas" = true
  /\ isIdCore "AbCd" = true
  /\ oneSlashAtBoundaries "https://1.2.3.4:8080" "platform/1/quota/quotas"
       "AbCd" true true false false [["path"; "/ifs/volumes/v"]].
Proof.
  split; [reflexivity |]. split; [reflexivity |]. split; [reflexivity |].
  apply (assembleURL_one_slash_at_boundaries "https://1.2.3.4:8080"
           "platform/1/quota/quotas" "AbCd" true true false
           [["path"; "/ifs/volumes/v"]]); reflexivity.
Defined.

(** C2, as stated, fails for an id that begins with a slash: the slash
    is written after the one that ends the path. *)
Lemma assembleURL_id_slash_doubled :
  isHostCore "h" = true /\ isPathCore "p" = true /\ isIdCore "i" = true
  /\ assembleURL "h" "p" "/i" [] = Done "h/p//i"
  /\ ~ oneSlashAtBoundaries "h" "p" "i" false false false true [].
Proof.
  split; [reflexivity |]. split; [reflexivity |]. split; [reflexivity |].
  split; [reflexivity |]. unfold oneSlashAtBoundaries.
  vm_compute. discriminate.
Qed.

(** ** Response handling *)

Example Decode_not_found :
  json.Decode (json.BodyJSON (notFoundDoc "Path not found"))
    (mkJSONError 0 [])
  = (mkJSONError 0 [mkError "AEC_NOT_FOUND" "" "Path not found"], None).
Proof. reflexivity. Qed.

Example Decode_type_error :
  json.Decode (json.BodyJSON (json.JArray [])) (mkJSONError 0 [])
  = (mkJSONError 0 [],
     Some (errorString
             "json: cannot unmarshal array into Go value of type api.JSONError")).
Proof. reflexivity. Qed.

Example parseJSONError_status_text :
  api.parseJSONError
    (http.mkResponse 404 "404 Not Found" (json.BodyJSON (notFoundDoc "")))
  = Done (errJSONError
            (mkJSONError 404 [mkError "AEC_NOT_FOUND" "" "404 Not Found"])).
Proof. reflexivity. Qed.

Section Responses.

Variable isPrintTable : Z -> bool.
Variable url_Parse : string -> string + string.
Context {T : Type} {U : json.Unmarshal T}.
Variables (c : api.client) (ctx : api.Context).
Variables (method uri id : string) (params : OrderedValues).
Variables (headers : gmap string string) (b : api.body).

(** What [DoWithHeaders] does with a response that has arrived. *)
Lemma DoWithHeaders_response (resp : option T) (res : http.Response)
    (dbg : bool) :
  api.DoAndGetResponseBody isPrintTable url_Parse c ctx method uri id params
    headers b
  = Done (Some res, dbg, None) ->
  api.DoWithHeaders isPrintTable url_Parse c ctx method uri id params headers b
    resp
  = if is2xx res then
      match resp with
      | None => Done (None, None)
      | Some v =>
          match json.Decode (http.Body res) v with
          | (v', Some io_EOF) | (v', None) => Done (Some v', None)
          | (v', Some err) => Done (Some v', Some err)
          end
      end
    else err ← api.parseJSONError res; Done (resp, Some err).
Proof.
  intros E. unfold api.DoWithHeaders. rewrite E.
  go_step. unfold is2xx.
  destruct (_ && _); [| reflexivity].
  destruct resp as [v|]; [| reflexivity].
  destruct (json.Decode (http.Body res) v) as [v' [[]|]]; reflexivity.
Qed.

End Responses.

(** C3: a 2xx response with an empty body and a non-nil [resp] leaves
    the value [resp] points to as it was, and no error is returned. *)
Theorem DoWithHeaders_2xx_empty_body
    (isPrintTable : Z -> bool)
    (url_Parse : string -> string + string) (T : Type)
    (U : json.Unmarshal T) (c : api.client) (ctx : api.Context)
    (method uri id : string) (params : OrderedValues)
    (headers : gmap string string) (b : api.body)
    (res : http.Response) (dbg : bool) (v : T) :
  api.DoAndGetResponseBody isPrintTable url_Parse c ctx method uri id params
    headers b
  = Done (Some res, dbg, None) ->
  is2xx res = true ->
  http.Body res = json.BodyEmpty ->
  api.DoWithHeaders isPrintTable url_Parse c ctx method uri id params headers b
    (Some v)
  = Done (Some v, None).
Proof.
  intros E H2xx Hbody.
  rewrite (DoWithHeaders_response isPrintTable url_Parse c ctx method uri id
             params headers b (Some v) res dbg E), H2xx, Hbody.
  reflexivity.
Qed.

Lemma DoWithHeaders_2xx_empty_body_witness :
  let res := http.mkResponse 204 "204 No Content" json.BodyEmpty in
  api.DoAndGetResponseBody latin1Only parseAny (clientOf (answering res)) quiet
    "DELETE" "/namespace/ifs/volumes" "v" [["recursive"; "true"]] ∅
    api.nilBody
  = Done (Some res, false, None)
  /\ is2xx res = true
  /\ http.Body res = json.BodyEmpty
  /\ api.DoWithHeaders latin1Only parseAny (clientOf (answering res)) quiet
       "DELETE" "/namespace/ifs/volumes" "v" [["recursive"; "true"]] ∅
       api.nilBody (Some "before")
     = Done (Some "before", None).
Proof.
  intros res.
  assert (E : api.DoAndGetResponseBody latin1Only parseAny
                (clientOf (answering res))
                quiet "DELETE" "/namespace/ifs/volumes" "v"
                [["recursive"; "true"]] ∅ api.nilBody
              = Done (Some res, false, None)) by reflexivity.
  split; [exact E |]. split; [reflexivity |]. split; [reflexivity |].
  exact (DoWithHeaders_2xx_empty_body latin1Only parseAny string _
           (clientOf (answering res)) quiet "DELETE" "/namespace/ifs/volumes"
           "v" [["recursive"; "true"]] ∅ api.nilBody res false "before"
           E eq_refl eq_refl).
Defined.

Lemma JSONError_message (res : http.Response) (je : JSONError) (e0 : Error)
    (rest : list Error) :
  json.Decode (http.Body res) (mkJSONError 0 []) = (je, None) ->
  Err je = e0 :: rest ->
  exists je', api.parseJSONError res = Done (errJSONError je')
              /\ StatusCode je' = http.StatusCode res
              /\ JSONError_Error je' = Done (messageOf res e0).
Proof.
  intros Hdec Herr. unfold api.parseJSONError, messageOf.
  rewrite Hdec. cbn [Err]. rewrite Herr.
  destruct (String.eqb (Message e0) "") eqn:E;
    eexists; (split; [reflexivity |]); split; reflexivity.
Qed.

(** C1, as amended: a response outside 200-299 whose body decodes into
    an error list with at least one entry makes [DoWithHeaders] return
    an error whose message is the [Message] of the first entry, or the
    HTTP status text when that [Message] is empty; a body that does not
    decode makes it return the error of the decoder. *)
Theorem DoWithHeaders_non2xx_error
    (isPrintTable : Z -> bool)
    (url_Parse : string -> string + string) (T : Type)
    (U : json.Unmarshal T) (c : api.client) (ctx : api.Context)
    (method uri id : string) (params : OrderedValues)
    (headers : gmap string string) (b : api.body) (resp : option T)
    (res : http.Response) (dbg : bool) :
  api.DoAndGetResponseBody isPrintTable url_Parse c ctx method uri id params
    headers b
  = Done (Some res, dbg, None) ->
  is2xx res = false ->
  (forall je e0 rest,
      json.Decode (http.Body res) (mkJSONError 0 []) = (je, None) ->
      Err je = e0 :: rest ->
      returnsError
        (api.DoWithHeaders isPrintTable url_Parse c ctx method uri id params
           headers b resp)
        (messageOf res e0))
  /\ (forall je err,
         json.Decode (http.Body res) (mkJSONError 0 []) = (je, Some err) ->
         api.DoWithHeaders isPrintTable url_Parse c ctx method uri id params
           headers b resp
         = Done (resp, Some err)).
Proof.
  intros E H2xx.
  rewrite (DoWithHeaders_response isPrintTable url_Parse c ctx method uri id
             params headers b resp res dbg E), H2xx.
  split.
  - intros je e0 rest Hdec Herr.
    destruct (JSONError_message res je e0 rest Hdec Herr)
      as (je' & Hparse & _ & Hmsg).
    rewrite Hparse. exists resp, (errJSONError je'). split; [reflexivity |].
    exact Hmsg.
  - intros je err Hdec. unfold api.parseJSONError. rewrite Hdec.
    reflexivity.
Qed.

Lemma DoWithHeaders_non2xx_error_witness :
  let res := http.mkResponse 404 "404 Not Found"
               (json.BodyJSON (notFoundDoc "")) in
  let c := clientOf (answering res) in
  api.DoAndGetResponseBody latin1Only parseAny c quiet "GET"
    "/platform/1/snapshot" "7" [] ∅ api.nilBody
  = Done (Some res, false, None)
  /\ is2xx res = false
  /\ returnsError
       (api.DoWithHeaders latin1Only parseAny c quiet "GET"
          "/platform/1/snapshot" "7" [] ∅ api.nilBody (Some "before"))
       "404 Not Found".
Proof.
  intros res c.
  assert (E : api.DoAndGetResponseBody latin1Only parseAny c quiet "GET"
                "/platform/1/snapshot" "7" [] ∅ api.nilBody
              = Done (Some res, false, None)) by reflexivity.
  split; [exact E |]. split; [reflexivity |].
  exact (proj1 (DoWithHeaders_non2xx_error latin1Only parseAny string _ c quiet
                  "GET" "/platform/1/snapshot" "7" [] ∅ api.nilBody
                  (Some "before") res false E eq_refl)
           (mkJSONError 0 [mkError "AEC_NOT_FOUND" "" ""])
           (mkError "AEC_NOT_FOUND" "" "") [] eq_refl eq_refl).
Defined.

(** C1, as stated, fails: a response outside 200-299 whose decoded
    error list is empty makes [DoWithHeaders] panic at [Err[0]], so that
    no error is returned; and one whose body is empty makes it return
    [io.EOF], which is the message of no error entry. *)
Lemma DoWithHeaders_non2xx_no_entry :
  let res := http.mkResponse 500 "500 Internal Server Error"
               (json.BodyJSON noErrorsDoc) in
  let res' := http.mkResponse 404 "404 Not Found" json.BodyEmpty in
  is2xx res = false
  /\ fst (json.Decode (http.Body res) (mkJSONError 0 []))
     = mkJSONError 0 []
  /\ api.DoWithHeaders latin1Only parseAny (clientOf (answering res)) quiet
       "GET" "/platform/latest" "" [] ∅ api.nilBody (Some "before")
     = Panics indexOutOfRange
  /\ (forall msg,
         ~ returnsError
             (api.DoWithHeaders latin1Only parseAny (clientOf (answering res))
                quiet "GET" "/platform/latest" "" [] ∅ api.nilBody
                (Some "before"))
             msg)
  /\ is2xx res' = false
  /\ api.DoWithHeaders latin1Only parseAny (clientOf (answering res')) quiet
       "GET" "/platform/latest" "" [] ∅ api.nilBody (Some "before")
     = Done (Some "before", Some io_EOF).
Proof.
  intros res res'.
  split; [reflexivity |]. split; [reflexivity |]. split; [reflexivity |].
  split; [| split; reflexivity].
  intros msg (out & err & H & _). vm_compute in H. discriminate.
Qed.

(** ** Request headers and body *)

Example CanonicalHeaderKey_lower :
  http.CanonicalHeaderKey "x-isi-ifs-target-type" = "X-Isi-Ifs-Target-Type".
Proof. reflexivity. Qed.

Example CanonicalHeaderKey_not_token :
  http.CanonicalHeaderKey "content type" = "content type".
Proof. reflexivity. Qed.

Example basicAuth_admin : http.basicAuth "admin" "secret" = "YWRtaW46c2VjcmV0".
Proof. reflexivity. Qed.

Example basicAuth_padding :
  http.basicAuth "Aladdin" "open sesame" = "QWxhZGRpbjpvcGVuIHNlc2FtZQ==".
Proof. reflexivity. Qed.

Lemma headerValues_Set (h : http.Header) (key v : string) :
  headerValues (http.Header_Set h key v) key = [v].
Proof.
  unfold headerValues, http.Header_Set. now rewrite lookup_insert_eq.
Qed.

Lemma headerValues_Set_other (h : http.Header) (key key' v' : string) :
  http.CanonicalHeaderKey key' <> http.CanonicalHeaderKey key ->
  headerValues (http.Header_Set h key' v') key = headerValues h key.
Proof.
  intros NE. unfold headerValues, http.Header_Set.
  now rewrite lookup_insert_ne.
Qed.

Lemma headerValues_Add (h : http.Header) (key key' v' : string) :
  headerValues (http.Header_Add h key' v') key
  = if String.eqb (http.CanonicalHeaderKey key')
         (http.CanonicalHeaderKey key)
    then (headerValues h key ++ [v'])%list
    else headerValues h key.
Proof.
  unfold headerValues, http.Header_Add.
  destruct (String.eqb_spec (http.CanonicalHeaderKey key')
              (http.CanonicalHeaderKey key)) as [E | NE].
  - now rewrite E, lookup_insert_eq.
  - now rewrite lookup_insert_ne.
Qed.

(** The loop over [headers] after the content type was set: the
    entries under other spellings of [Content-Type] add their values
    to the header, the entry under [Content-Type] itself is skipped. *)
Lemma headerValues_addHeaders_content_type (l : list (string * string))
    (h : http.Header) :
  headerValues (api.addHeaders true l h) api.headerKeyContentType
  = (headerValues h api.headerKeyContentType
     ++ List.map snd (List.filter otherSpelling l))%list.
Proof.
  unfold api.addHeaders. revert h.
  induction l as [|[k x] l IH]; intros h.
  - cbn. now rewrite app_nil_r.
  - cbn [fold_left List.filter fst snd]. rewrite IH. unfold otherSpelling.
    cbn [fst snd].
    destruct (String.eqb k api.headerKeyContentType); cbn [andb negb];
      [reflexivity |].
    rewrite headerValues_Add.
    change (http.CanonicalHeaderKey api.headerKeyContentType)
      with api.headerKeyContentType.
    destruct (String.eqb (http.CanonicalHeaderKey k)
                api.headerKeyContentType); [| reflexivity].
    cbn [List.map snd]. now rewrite <- app_assoc.
Qed.

(** With no entry in [headers], the loop over them leaves the request
    as it is. *)
Lemma headers_loop (set : bool) (headers : gmap string string)
    (req : http.Request) :
  (if 0 <? Z.of_nat (size headers)
   then http.setHeader req
          (api.addHeaders set (map_to_list headers) (http.Header_ req))
   else req)
  = http.setHeader req
      (api.addHeaders set (map_to_list headers) (http.Header_ req)).
Proof.
  destruct (0 <? Z.of_nat (size headers)) eqn:E; [reflexivity |].
  assert (Hs : size headers = 0%nat) by (apply Z.ltb_ge in E; lia).
  apply map_size_empty_iff in Hs. subst headers.
  rewrite map_to_list_empty. now destruct req.
Qed.

Lemma NewRequest_inr (isPrintTable : Z -> bool)
    (url_Parse : string -> string + string)
    (method u : string) (p : http.Payload) (req : http.Request) :
  http.NewRequest isPrintTable url_Parse method u p = inr req ->
  http.Body_ req = p /\ http.Header_ req = ∅.
Proof.
  unfold http.NewRequest. destruct (negb _); [discriminate |].
  destruct (url_Parse u); [discriminate |].
  intros [= <-]. split; reflexivity.
Qed.

(** [http.NewRequest] makes a request of an accepted method and a URL
    that parses. *)
Lemma NewRequest_accepted (isPrintTable : Z -> bool)
    (url_Parse : string -> string + string)
    (method u u' : string) (p : http.Payload) :
  acceptedMethod method = true -> url_Parse u = inr u' ->
  http.NewRequest isPrintTable url_Parse method u p
  = inr (http.mkRequest (if String.eqb method "" then "GET" else method)
           u' ∅ p).
Proof.
  unfold acceptedMethod, http.NewRequest. now intros -> ->.
Qed.

(** The request that [buildRequest] makes of a request [req0] whose
    content type was set to [v]: it keeps the body, and its content
    types are [v] and then the values under the other spellings. *)
Lemma buildRequest_finish (c : api.client) (headers : gmap string string)
    (req0 : http.Request) (v : string) :
  let req1 :=
    http.setHeader req0
      (http.Header_Set (http.Header_ req0) api.headerKeyContentType v) in
  let req2 :=
    if 0 <? Z.of_nat (size headers)
    then http.setHeader req1
           (api.addHeaders true (map_to_list headers) (http.Header_ req1))
    else req1 in
  let req := http.SetBasicAuth req2 (api.username c) (api.password c) in
  http.Body_ req = http.Body_ req0
  /\ headerValues (http.Header_ req) api.headerKeyContentType
     = v :: otherSpellings headers.
Proof.
  intros req1 req2 req. subst req req2. rewrite headers_loop. subst req1.
  split; [reflexivity |].
  cbn [http.SetBasicAuth http.setHeader http.Header_].
  rewrite headerValues_Set_other by (vm_compute; discriminate).
  rewrite headerValues_addHeaders_content_type, headerValues_Set.
  reflexivity.
Qed.

(** C4, as amended: when the URL parses and [http.NewRequest] accepts
    the method, a non-nil body that implements [io.ReadCloser] is sent
    as it is, and the first content type of the request is
    [binary/octet-stream] unless [headers] has the key [Content-Type]
    in this spelling, whose value is then used; any other non-nil body
    is sent JSON-encoded, with [application/json] in the place of
    [binary/octet-stream], or the error of the encoder is returned.
    The values that [headers] has under other spellings of the key
    follow as further content types, in the order in which the loop
    over the map meets them, which Go does not fix: the request has
    the one content type exactly when [headers] has no other
    spelling. *)
Theorem DoAndGetResponseBody_body_and_content_type
    (isPrintTable : Z -> bool)
    (url_Parse : string -> string + string) (c : api.client)
    (ctx : api.Context) (method uri id : string) (params : OrderedValues)
    (headers : gmap string string) (b : api.body) (ubf u u' : string) :
  b <> api.nilBody ->
  assembleURL (api.hostname c) uri id params = Done ubf ->
  url_Parse ubf = inr u -> url_Parse u = inr u' ->
  acceptedMethod method = true ->
  let run :=
    api.DoAndGetResponseBody isPrintTable url_Parse c ctx method uri id
      params headers b in
  let sent (p : http.Payload) (dflt : string) :=
    exists req rest,
      run = exchange c ctx req
      /\ http.Body_ req = p
      /\ headerValues (http.Header_ req) "Content-Type"
         = contentTypeOf headers dflt :: rest
      /\ rest ≡ₚ otherSpellings headers in
  match b with
  | api.nilBody => False
  | api.readCloser r => sent (http.Raw r) "binary/octet-stream"
  | @api.value _ _ v =>
      match json.marshal v with
      | inr doc => sent (http.Encoded doc) "application/json"
      | inl msg => run = Done (None, false, Some (errorString msg))
      end
  end.
Proof.
  intros Hb Hurl Hu Hu' Hm run sent. subst sent run.
  unfold api.DoAndGetResponseBody. rewrite Hurl. go_step.
  unfold api.buildRequest. rewrite Hu.
  destruct b as [| r | T M v]; [contradiction | |].
  - rewrite (NewRequest_accepted isPrintTable url_Parse method u u'
               (http.Raw r) Hm Hu').
    cbn [mbind result_bind rbind negb].
    eexists. exists (otherSpellings headers). split; [reflexivity |].
    split; [| split; [| reflexivity]];
      apply (buildRequest_finish c headers
               (http.mkRequest
                  (if String.eqb method "" then "GET" else method)
                  u' ∅ (http.Raw r))).
  - destruct (json.marshal v) as [msg | doc]; [reflexivity |].
    rewrite (NewRequest_accepted isPrintTable url_Parse method u u'
               (http.Encoded doc) Hm Hu').
    cbn [mbind result_bind rbind negb].
    eexists. exists (otherSpellings headers). split; [reflexivity |].
    split; [| split; [| reflexivity]];
      apply (buildRequest_finish c headers
               (http.mkRequest
                  (if String.eqb method "" then "GET" else method)
                  u' ∅ (http.Encoded doc))).
Qed.

Lemma DoAndGetResponseBody_body_and_content_type_witness :
  let res := http.mkResponse 200 "200 OK" json.BodyEmpty in
  let c := clientOf (answering res) in
  let url := "https://1.2.3.4:8080/namespace/ifs/volumes/v?acl" in
  let headers : gmap string string :=
    <["x-isi-ifs-target-type" := "container"]> ∅ in
  let owner := ownershipOf "admin" "wheel" in
  api.value owner <> api.nilBody
  /\ assembleURL (api.hostname c) "/namespace/ifs/volumes" "v" [["acl"]]
     = Done url
  /\ parseAny url = inr url
  /\ acceptedMethod "PUT" = true
  /\ contentTypeOf headers "application/json" = "application/json"
  /\ otherSpellings headers = []
  /\ exists doc,
       json.marshal owner = inr doc
       /\ exists req rest,
            api.DoAndGetResponseBody latin1Only parseAny c quiet "PUT"
              "/namespace/ifs/volumes" "v" [["acl"]] headers
              (api.value owner)
            = exchange c quiet req
            /\ http.Body_ req = http.Encoded doc
            /\ headerValues (http.Header_ req) "Content-Type"
               = contentTypeOf headers "application/json" :: rest
            /\ rest ≡ₚ otherSpellings headers.
Proof.
  intros res c url headers owner.
  assert (Hb : api.value owner <> api.nilBody) by discriminate.
  assert (Hurl : assembleURL (api.hostname c) "/namespace/ifs/volumes" "v"
                   [["acl"]] = Done url) by reflexivity.
  assert (Hm : acceptedMethod "PUT" = true) by reflexivity.
  split; [exact Hb |]. split; [exact Hurl |]. split; [reflexivity |].
  split; [exact Hm |]. split; [reflexivity |].
  split; [vm_compute; reflexivity |].
  eexists. split; [reflexivity |].
  exact (DoAndGetResponseBody_body_and_content_type latin1Only parseAny c
           quiet "PUT" "/namespace/ifs/volumes" "v" [["acl"]] headers
           (api.value owner) url url url Hb Hurl eq_refl eq_refl Hm).
Defined.

(** A body that implements [io.ReadCloser], with a content type under
    the key [Content-Type]. *)
Example DoAndGetResponseBody_ReadCloser :
  let res := http.mkResponse 200 "200 OK" json.BodyEmpty in
  let c := clientOf (answering res) in
  let headers : gmap string string :=
    <["Content-Type" := "text/plain"]>
      (<["x-isi-ifs-target-type" := "object"]> ∅) in
  api.DoAndGetResponseBody latin1Only parseAny c quiet "PUT"
    "/namespace/ifs/volumes/v" "f" [] headers (api.readCloser "bytes")
  = exchange c quiet
      (http.mkRequest "PUT" "https://1.2.3.4:8080/namespace/ifs/volumes/v/f"
         (<["Authorization" := ["Basic YWRtaW46c2VjcmV0"]]>
            (<["X-Isi-Ifs-Target-Type" := ["object"]]>
               (<["Content-Type" := ["text/plain"]]> ∅)))
         (http.Raw "bytes")).
Proof. vm_compute. reflexivity. Qed.

(** C4, as stated, fails for a [headers] that supplies the content
    type under the key [content-type]: the request has the default as
    its first content type and the supplied value as a second one, so
    its content type is neither the supplied value nor the default
    alone. *)
Lemma DoAndGetResponseBody_content_type_other_spelling :
  let res := http.mkResponse 200 "200 OK" json.BodyEmpty in
  let c := clientOf (answering res) in
  let headers : gmap string string := <["content-type" := "text/plain"]> ∅ in
  let req :=
    http.mkRequest "PUT" "https://1.2.3.4:8080/namespace/ifs/volumes/v/f"
      (<["Authorization" := ["Basic YWRtaW46c2VjcmV0"]]>
         (<["Content-Type" := ["binary/octet-stream"; "text/plain"]]> ∅))
      (http.Raw "bytes") in
  api.DoAndGetResponseBody latin1Only parseAny c quiet "PUT"
    "/namespace/ifs/volumes/v" "f" [] headers (api.readCloser "bytes")
  = exchange c quiet req
  /\ headerValues (http.Header_ req) "Content-Type"
     = ["binary/octet-stream"; "text/plain"]
  /\ http.Header_Get (http.Header_ req) "Content-Type" <> "text/plain"
  /\ ~ exists v, headerValues (http.Header_ req) "Content-Type" = [v].
Proof.
  intros res c headers req.
  split; [vm_compute; reflexivity |].
  split; [reflexivity |].
  split; [vm_compute; discriminate |].
  intros [v Hv]. vm_compute in Hv. discriminate.
Qed.

(** ** Construction of a client *)

(** Every error that the client returns has a message. *)

Lemma Decode_error {T} `{json.Unmarshal T} (b : json.Body) (v v' : T)
    (e : error) :
  json.Decode b v = (v', Some e) ->
  e = io_EOF \/ exists msg, e = errorString msg.
Proof.
  unfold json.Decode. destruct b as [| msg | j].
  - intros [= _ <-]. now left.
  - intros [= _ <-]. right. eauto.
  - destruct (json.unmarshal j v) as [v0 [msg |]]; cbn; intros [= _ <-].
    right. eauto.
Qed.

Lemma parseJSONError_message (res : http.Response) (e : error) :
  api.parseJSONError res = Done e -> exists msg, error_Error e = Done msg.
Proof.
  unfold api.parseJSONError.
  destruct (json.Decode (http.Body res) (mkJSONError 0 []))
    as [je [err |]] eqn:E.
  - intros [= <-]. apply Decode_error in E as [-> | [msg ->]]; cbn; eauto.
  - cbn [Err]. destruct (Err je) as [|e0 rest]; [discriminate |].
    destruct (String.eqb (Message e0) ""); intros [= <-]; cbn; eauto.
Qed.

Lemma NewRequest_inl (isPrintTable : Z -> bool)
    (url_Parse : string -> string + string)
    (method u : string) (p : http.Payload) (e : error) :
  http.NewRequest isPrintTable url_Parse method u p = inl e ->
  exists msg, e = errorString msg.
Proof.
  unfold http.NewRequest. destruct (negb _); [intros [= <-]; eauto |].
  destruct (url_Parse u); [intros [= <-]; eauto | discriminate].
Qed.

Lemma buildRequest_error (isPrintTable : Z -> bool)
    (url_Parse : string -> string + string)
    (c : api.client) (method ubf : string) (headers : gmap string string)
    (b : api.body) (e : error) :
  api.buildRequest isPrintTable url_Parse c method ubf headers b
  = Done (inl e) ->
  exists msg, e = errorString msg.
Proof.
  unfold api.buildRequest. destruct (url_Parse ubf) as [msg | u];
    [intros [= <-]; eauto |].
  destruct b as [| r | T M v].
  - destruct (http.NewRequest isPrintTable url_Parse method u http.NoPayload)
      as [e' | req] eqn:E; cbn; [| discriminate].
    intros [= <-]. now apply NewRequest_inl in E.
  - destruct (http.NewRequest isPrintTable url_Parse method u (http.Raw r));
      cbn; discriminate.
  - destruct (json.marshal v) as [msg | doc]; cbn; [intros [= <-]; eauto |].
    destruct (http.NewRequest isPrintTable url_Parse method u
                (http.Encoded doc)); cbn; discriminate.
Qed.

Lemma DoWithHeaders_error_message (isPrintTable : Z -> bool)
    (url_Parse : string -> string + string)
    (T : Type) (U : json.Unmarshal T) (c : api.client) (ctx : api.Context)
    (method uri id : string) (params : OrderedValues)
    (headers : gmap string string) (b : api.body) (resp out : option T)
    (e : error) :
  api.DoWithHeaders isPrintTable url_Parse c ctx method uri id params headers b
    resp
  = Done (out, Some e) ->
  exists msg, error_Error e = Done msg.
Proof.
  unfold api.DoWithHeaders, api.DoAndGetResponseBody.
  destruct (assembleURL (api.hostname c) uri id params) as [ubf | m];
    [| discriminate].
  go_step.
  destruct (api.buildRequest isPrintTable url_Parse c method ubf headers b)
    as [[e' | req] | m] eqn:E; [| | discriminate].
  - cbn. intros [= _ <-]. apply buildRequest_error in E as [msg ->].
    cbn. eauto.
  - go_step.
    destruct (api.http_ c req) as [msg | res]; go_step.
    + intros [= _ <-]. cbn. eauto.
    + destruct (_ && _).
      * destruct resp as [v |]; [| discriminate].
        destruct (json.Decode (http.Body res) v) as [v' [err |]] eqn:Ed;
          [| discriminate].
        apply Decode_error in Ed as [-> | [msg ->]]; [discriminate |].
        intros [= _ <-]. cbn. eauto.
      * destruct (api.parseJSONError res) as [err | m] eqn:Ep;
          [| discriminate].
        cbn. intros [= _ <-]. now apply parseJSONError_message in Ep.
Qed.

(** C8: [New] returns a nil client and an error whenever the major
    version read from the probe is below 3; a probe that leaves no
    version string makes the major version 2, and [New] fails. *)
Theorem New_fails_below_version_3
    (isPrintTable : Z -> bool)
    (url_Parse : string -> string + string)
    (http_Do : http.Request -> string + http.Response) (ctx : api.Context)
    (hostname username password groupname : string)
    (opts : option api.ClientOptions)
    (resp : option api.apiVerResponse) (err : option error) :
  versionProbe isPrintTable url_Parse http_Do ctx hostname username password
    groupname opts
  = Done (resp, err) ->
  (forall major minor,
      api.versionOf isPrintTable (latestOf resp) = inr (major, minor) ->
      major < 3 ->
      constructionFails
        (api.New isPrintTable url_Parse http_Do ctx hostname username password
           groupname opts))
  /\ (latestOf resp = None ->
      api.versionOf isPrintTable (latestOf resp) = inr (2, 0)
      /\ constructionFails
           (api.New isPrintTable url_Parse http_Do ctx hostname username
              password groupname opts)).
Proof.
  intros Hprobe.
  assert (Hlt : forall major minor,
             api.versionOf isPrintTable (latestOf resp) = inr (major, minor) ->
             major < 3 ->
             constructionFails
               (api.New isPrintTable url_Parse http_Do ctx hostname username
                  password groupname opts)).
  { intros major minor Hver Hlow. unfold api.New, constructionFails.
    destruct (_ || _); [eauto |].
    change (api.Get isPrintTable url_Parse _ ctx "/platform/latest" "" [] ∅
              (Some (api.mkApiVerResponse None)))
      with (versionProbe isPrintTable url_Parse http_Do ctx hostname username
              password groupname opts).
    rewrite Hprobe. go_step.
    apply Z.ltb_lt in Hlow. destruct err as [e |].
    - destruct (DoWithHeaders_error_message _ _ _ _ _ _ _ _ _ _ _ _ _ _ _
                  Hprobe) as [msg Hm].
      rewrite Hm. go_step.
      destruct (negb _); [eauto |].
      fold (latestOf resp). rewrite Hver, Hlow. eauto.
    - go_step. fold (latestOf resp).
      rewrite Hver, Hlow. eauto. }
  split; [exact Hlt |].
  intros Hnone. rewrite Hnone. split; [reflexivity |].
  apply (Hlt 2 0); [now rewrite Hnone | lia].
Qed.

Lemma New_fails_below_version_3_witness :
  let res := http.mkResponse 200 "200 OK" (json.BodyJSON (json.JObject [])) in
  versionProbe latin1Only parseAny (answering res) quiet "https://1.2.3.4:8080"
    "admin" "secret" "wheel" None
  = Done (Some (api.mkApiVerResponse None), None)
  /\ latestOf (Some (api.mkApiVerResponse None)) = None
  /\ api.versionOf latin1Only (latestOf (Some (api.mkApiVerResponse None)))
     = inr (2, 0)
  /\ constructionFails
       (api.New latin1Only parseAny (answering res) quiet "https://1.2.3.4:8080"
          "admin" "secret" "wheel" None).
Proof.
  intros res.
  assert (Hprobe : versionProbe latin1Only parseAny (answering res) quiet
                     "https://1.2.3.4:8080" "admin" "secret" "wheel" None
                   = Done (Some (api.mkApiVerResponse None), None))
    by reflexivity.
  split; [exact Hprobe |]. split; [reflexivity |].
  exact (proj2 (New_fails_below_version_3 latin1Only parseAny (answering res)
                  quiet "https://1.2.3.4:8080" "admin" "secret" "wheel" None
                  (Some (api.mkApiVerResponse None)) None Hprobe)
           eq_refl).
Defined.

Example New_version_2 :
  let res := http.mkResponse 200 "200 OK"
               (json.BodyJSON (json.JObject [("latest", json.JString "2")])) in
  api.New latin1Only parseAny (answering res) quiet "https://1.2.3.4:8080"
    "admin" "secret" "wheel" None
  = Done (None, Some api.errUnsupported).
Proof. reflexivity. Qed.

Example New_version_5_1 :
  let res := http.mkResponse 200 "200 OK"
               (json.BodyJSON
                  (json.JObject [("latest", json.JString "5.1")])) in
  api.New latin1Only parseAny (answering res) quiet "https://1.2.3.4:8080"
    "admin" "secret" "wheel" None
  = Done (Some (api.mkClient (answering res) "https://1.2.3.4:8080" "admin"
                  "wheel" "secret" "/ifs/volumes" 5 1), None).
Proof. reflexivity. Qed.

(** ** Volumes *)

(** C5: [CreateIsiVolumeWithACL] makes the volume-create call and then
    the ownership call.  When the first call returns an error, that
    error is returned and no second call is made; otherwise the error
    of the second call is what is returned, and no call follows it. *)
Theorem CreateIsiVolumeWithACL_two_calls
    (St resp_t : Type) (U : json.Unmarshal (option resp_t))
    (realNamespacePath : api.Client (St * list api.Call) -> string)
    (ctx : api.Context) (client : api.Client St) (name ACL : string)
    (s s1 : St) (out1 : option (option resp_t)) (err1 : option error) :
  let path := realNamespacePath (api.recording client) in
  let run :=
    v1.CreateIsiVolumeWithACL (St * list api.Call) resp_t realNamespacePath
      ctx (api.recording client) name ACL (s, []) in
  let create := createVolumeCall path name ACL in
  let own :=
    setOwnershipCall path name (api.Client_User client)
      (api.Client_Group client) in
  api.Client_Put client ctx path name (api.call_params create)
    (api.call_headers create) (api.call_body create) (Some None) s
  = Done (out1, err1, s1) ->
  match err1 with
  | Some e => run = Done (default None out1, Some e, (s1, [create]))
  | None =>
      forall out2 err2 s2,
        api.Client_Put client ctx path name (api.call_params own)
          (api.call_headers own) (api.call_body own)
          (Some (default None out1)) s1
        = Done (out2, err2, s2) ->
        run = Done (default (default None out1) out2, err2,
                    (s2, [create; own]))
  end.
Proof.
  intros path run create own H1. subst run.
  unfold v1.CreateIsiVolumeWithACL.
  cbn [api.recording api.Client_Put]. fold path.
  cbn [api.call_params api.call_headers api.call_body create
         createVolumeCall] in H1.
  unfold api.recorded. cbn [fst snd].
  rewrite H1. cbn [mbind result_bind rbind fst snd].
  destruct err1 as [e |]; [reflexivity |].
  intros out2 err2 s2 H2.
  change (api.Client_Group (api.recording client))
    with (api.Client_Group client).
  change (api.Client_User (api.recording client))
    with (api.Client_User client).
  assert (Hdata :
    (if negb (String.eqb (api.Client_Group client) "")
     then v1.mkAclRequest "acl" "update"
            (Some (v1.mkOwnership (api.Client_User client) "user"))
            (Some (v1.mkOwnership (api.Client_Group client) "group"))
     else v1.mkAclRequest "acl" "update"
            (Some (v1.mkOwnership (api.Client_User client) "user")) None)
    = ownershipOf (api.Client_User client) (api.Client_Group client)).
  { unfold ownershipOf. now destruct (String.eqb _ _). }
  cbn [v1.Authoritative v1.Action v1.Owner]. rewrite Hdata.
  cbn [api.call_params api.call_headers api.call_body own
         setOwnershipCall] in H2.
  rewrite H2. reflexivity.
Qed.

Lemma CreateIsiVolumeWithACL_two_calls_witness :
  let client := failingClient (errorString "403 Forbidden") in
  let path := "namespace/ifs/volumes" in
  api.Client_Put client quiet path "v" []
    (api.call_headers (createVolumeCall path "v" "public_read_write"))
    api.nilBody (Some (None : option string)) tt
  = Done (Some None, Some (errorString "403 Forbidden"), tt)
  /\ v1.CreateIsiVolumeWithACL (unit * list api.Call) string
       (fun _ => path) quiet (api.recording client) "v" "public_read_write"
       (tt, [])
     = Done (None, Some (errorString "403 Forbidden"),
             (tt, [createVolumeCall path "v" "public_read_write"])).
Proof.
  intros client path.
  assert (H1 : api.Client_Put client quiet path "v" []
                 (api.call_headers
                    (createVolumeCall path "v" "public_read_write"))
                 api.nilBody (Some (None : option string)) tt
               = Done (Some None, Some (errorString "403 Forbidden"), tt))
    by reflexivity.
  split; [exact H1 |].
  exact (CreateIsiVolumeWithACL_two_calls unit string _ (fun _ => path)
           quiet client "v" "public_read_write" tt tt (Some None)
           (Some (errorString "403 Forbidden")) H1).
Defined.

(** ** Quotas *)

Lemma findQuota_Some (path : string) (quotas : list v1.IsiQuota)
    (q : v1.IsiQuota) :
  v1.findQuota path quotas = Some q ->
  firstWith (fun x => v1.Path x = path) quotas q.
Proof.
  induction quotas as [|x l IH]; [discriminate |].
  cbn [v1.findQuota]. destruct (String.eqb (v1.Path x) path) eqn:E.
  - intros [= <-]. exists [], l. apply String.eqb_eq in E. auto.
  - intros (pre & post & -> & Hq & Hpre)%IH.
    exists (x :: pre), post. apply String.eqb_neq in E. auto.
Qed.

Lemma findQuota_None (path : string) (quotas : list v1.IsiQuota) :
  v1.findQuota path quotas = None ->
  Forall (fun x => v1.Path x <> path) quotas.
Proof.
  induction quotas as [|x l IH]; [constructor |].
  cbn [v1.findQuota]. destruct (String.eqb (v1.Path x) path) eqn:E;
    [discriminate |].
  intros H. apply String.eqb_neq in E. auto.
Qed.

Lemma findQuota_found (path : string) (quotas : list v1.IsiQuota) :
  Exists (fun x => v1.Path x = path) quotas ->
  exists q, v1.findQuota path quotas = Some q.
Proof.
  intros H. destruct (v1.findQuota path quotas) eqn:E; [eauto |].
  apply findQuota_None in E. apply Exists_exists in H as (x & Hin & Hx).
  rewrite Forall_forall in E. now apply E in Hin.
Qed.

(** C7: when the appliance returns a list of quotas, [GetIsiQuota]
    returns a quota of that list whose [Path] is the queried path (the
    first one) if there is one; otherwise it returns a nil quota and an
    error whose message contains [Quota not found] and the path. *)
Theorem GetIsiQuota_by_path
    (St : Type) (U : json.Unmarshal v1.isiQuotaListResp)
    (ctx : api.Context) (client : api.Client St) (path : string)
    (s s' : St) (out : option v1.isiQuotaListResp) :
  api.Client_Get client ctx v1.quotaPath "" [["path"; path]] ∅
    (Some (v1.mkIsiQuotaListResp [])) s
  = Done (out, None, s') ->
  let quotas := v1.Quotas (default (v1.mkIsiQuotaListResp []) out) in
  let run := v1.GetIsiQuota St ctx client path s in
  (Exists (fun q => v1.Path q = path) quotas ->
   exists q, run = Done (Some q, None, s')
             /\ v1.Path q = path
             /\ firstWith (fun x => v1.Path x = path) quotas q)
  /\ (Forall (fun q => v1.Path q <> path) quotas ->
      exists e msg, run = Done (None, Some e, s')
                    /\ error_Error e = Done msg
                    /\ contains msg "Quota not found"
                    /\ contains msg path).
Proof.
  intros Hget quotas run. subst run. unfold v1.GetIsiQuota.
  change v1.byteArrPath with "path". rewrite Hget.
  go_step. fold quotas. split.
  - intros [q Hq]%findQuota_found. rewrite Hq. exists q.
    apply findQuota_Some in Hq. split; [reflexivity |].
    split; [| exact Hq]. now destruct Hq as (_ & _ & _ & H & _).
  - intros Hnone. destruct (v1.findQuota path quotas) as [q |] eqn:E.
    + apply findQuota_Some in E as (pre & post & Hl & Hq & _).
      rewrite Forall_forall in Hnone. exfalso. apply (Hnone q); [| exact Hq].
      rewrite Hl. set_solver.
    + exists (errorString ("Quota not found: " +:+ path)),
        ("Quota not found: " +:+ path).
      split; [reflexivity |]. split; [reflexivity |]. split.
      * exists "", (": " +:+ path). reflexivity.
      * exists "Quota not found: ", "". now rewrite append_nil_r.
Qed.

Lemma GetIsiQuota_by_path_witness :
  let a := v1.mkIsiQuota "AAAA" "/ifs/volumes/a" in
  let b := v1.mkIsiQuota "BBBB" "/ifs/volumes/b" in
  let client := listingClient [a; b] in
  api.Client_Get client quiet v1.quotaPath "" [["path"; "/ifs/volumes/b"]] ∅
    (Some (v1.mkIsiQuotaListResp [])) tt
  = Done (Some (v1.mkIsiQuotaListResp [a; b]), None, tt)
  /\ Exists (fun q => v1.Path q = "/ifs/volumes/b") [a; b]
  /\ exists q,
       v1.GetIsiQuota unit quiet client "/ifs/volumes/b" tt
       = Done (Some q, None, tt)
       /\ v1.Path q = "/ifs/volumes/b"
       /\ firstWith (fun x => v1.Path x = "/ifs/volumes/b") [a; b] q.
Proof.
  intros a b client.
  assert (Hget : api.Client_Get client quiet v1.quotaPath ""
                   [["path"; "/ifs/volumes/b"]] ∅
                   (Some (v1.mkIsiQuotaListResp [])) tt
                 = Done (Some (v1.mkIsiQuotaListResp [a; b]), None, tt))
    by reflexivity.
  assert (Hex : Exists (fun q => v1.Path q = "/ifs/volumes/b") [a; b])
    by (apply Exists_cons_tl, Exists_cons_hd; reflexivity).
  split; [exact Hget |]. split; [exact Hex |].
  exact (proj1 (GetIsiQuota_by_path unit _ quiet client "/ifs/volumes/b" tt
                  tt (Some (v1.mkIsiQuotaListResp [a; b])) Hget) Hex).
Defined.

(** ** Snapshots *)

(** The loop of [GetSnapshot] over a list whose first entry named
    [name] has no nil entry before it. *)
Lemma findSnapshot_Some (name : string)
    (pre post : goisilon.SnapshotList) (x : goisilon.IsiSnapshot) :
  goisilon.Name x = name ->
  Forall notNil pre -> Forall (fun y => ~ named name y) pre ->
  goisilon.findSnapshot name (pre ++ Some x :: post)%list
  = Done (Some x).
Proof.
  intros Hx Hnn Hpre. induction pre as [|[a |] pre IH]; cbn.
  - apply String.eqb_eq in Hx. now rewrite Hx.
  - apply Forall_cons in Hnn as [_ Hnn].
    apply Forall_cons in Hpre as [Ha Hpre].
    destruct (String.eqb_spec (goisilon.Name a) name) as [E | _].
    + exfalso. apply Ha. now exists a.
    + now apply IH.
  - apply Forall_cons in Hnn as [Hnil _]. now contradiction Hnil.
Qed.

(** The loop over a list with no entry named [name]: it ends with
    [return nil, nil] when no entry is nil, and panics at the first
    nil entry otherwise. *)
Lemma findSnapshot_None (name : string) (l : goisilon.SnapshotList) :
  Forall (fun y => ~ named name y) l ->
  (Forall notNil l -> goisilon.findSnapshot name l = Done None)
  /\ (goisilon.findSnapshot name l = Done None
      \/ goisilon.findSnapshot name l = Panics nilDereference).
Proof.
  induction 1 as [|[a |] l Ha _ IH]; cbn.
  - split; [reflexivity | now left].
  - destruct (String.eqb_spec (goisilon.Name a) name) as [E | _].
    + exfalso. apply Ha. now exists a.
    + split; [| exact (proj2 IH)].
      intros Hnn. apply Forall_cons in Hnn as [_ Hnn]. now apply IH.
  - split; [| now right].
    intros Hnn. apply Forall_cons in Hnn as [Hnil _].
    now contradiction Hnil.
Qed.

Section SnapshotProperties.

Variable St : Type.
Variable GetIsiSnapshots :
  api.Context -> api.Client St -> St ->
  result (goisilon.getIsiSnapshotsResp * option error * St).
Variable GetIsiSnapshot :
  api.Context -> api.Client St -> Z -> St ->
  result (goisilon.Snapshot * option error * St).
Variable RemoveIsiSnapshot :
  api.Context -> api.Client St -> Z -> St -> result (option error * St).

(** What [GetSnapshot] does once the lookup by id has failed. *)
Lemma GetSnapshot_fallback (c : goisilon.Client St) (ctx : api.Context)
    (id : Z) (name : string) (s s1 : St) (sn : goisilon.Snapshot)
    (e : error) :
  GetIsiSnapshot ctx (goisilon.API St c) id s = Done (sn, Some e, s1) ->
  goisilon.GetSnapshot St GetIsiSnapshots GetIsiSnapshot c ctx id name s
  = if String.eqb name "" then Done (None, Some e, s1)
    else
      r ← GetIsiSnapshots ctx (goisilon.API St c) s1;
      match r with
      | (_, Some err, s2) => Done (None, Some err, s2)
      | (resp, None, s2) =>
          snapshot ←
            goisilon.findSnapshot name (goisilon.SnapshotList_ resp);
          Done (snapshot, None, s2)
      end.
Proof.
  intros H. unfold goisilon.GetSnapshot, goisilon.GetSnapshots.
  rewrite H. go_step.
  destruct (String.eqb name ""); [reflexivity |].
  destruct (GetIsiSnapshots ctx (goisilon.API St c) s1)
    as [[[resp [err |]] s2] | msg]; reflexivity.
Qed.

End SnapshotProperties.

(** C6, as amended: when the lookup by id fails and [name] is empty,
    [GetSnapshot] returns the error of that lookup; when it fails and
    [name] is not empty, [GetSnapshot] fetches the list of all
    snapshots and returns the first one whose [Name] is [name],
    provided that no entry of the list before it is nil. *)
Theorem GetSnapshot_by_name_after_id_failure
    (St : Type)
    (GetIsiSnapshots :
       api.Context -> api.Client St -> St ->
       result (goisilon.getIsiSnapshotsResp * option error * St))
    (GetIsiSnapshot :
       api.Context -> api.Client St -> Z -> St ->
       result (goisilon.Snapshot * option error * St))
    (c : goisilon.Client St) (ctx : api.Context) (id : Z) (name : string)
    (s s1 : St) (sn : goisilon.Snapshot) (e : error) :
  GetIsiSnapshot ctx (goisilon.API St c) id s = Done (sn, Some e, s1) ->
  let run :=
    goisilon.GetSnapshot St GetIsiSnapshots GetIsiSnapshot c ctx id name s in
  (name = "" -> run = Done (None, Some e, s1))
  /\ (name <> "" ->
      forall resp s2 pre x post,
        GetIsiSnapshots ctx (goisilon.API St c) s1 = Done (resp, None, s2) ->
        goisilon.SnapshotList_ resp = (pre ++ Some x :: post)%list ->
        goisilon.Name x = name ->
        Forall (fun y => ~ named name y) pre ->
        Forall notNil pre ->
        run = Done (Some x, None, s2)).
Proof.
  intros Hid run. subst run.
  rewrite (GetSnapshot_fallback St GetIsiSnapshots GetIsiSnapshot c ctx id
             name s s1 sn e Hid).
  split.
  - intros ->. reflexivity.
  - intros Hname resp s2 pre x post Hlist Hl Hx Hpre Hnn.
    apply String.eqb_neq in Hname. rewrite Hname, Hlist.
    go_step. rewrite Hl, (findSnapshot_Some name pre post x Hx Hnn Hpre).
    reflexivity.
Qed.

Lemma GetSnapshot_by_name_after_id_failure_witness :
  let a := goisilon.mkIsiSnapshot 1 "daily" "/ifs/volumes/a" in
  let b := goisilon.mkIsiSnapshot 2 "weekly" "/ifs/volumes/b" in
  let b' := goisilon.mkIsiSnapshot 3 "weekly" "/ifs/volumes/c" in
  let l := [Some a; Some b; Some b'; None] in
  let c := goisilon.mkClient unit (failingClient io_EOF) in
  let notFound := errorString "404 Not Found" in
  noSnapshot notFound quiet (goisilon.API unit c) 0 tt
  = Done (None, Some notFound, tt)
  /\ "weekly" <> ""
  /\ snapshotsOf l quiet (goisilon.API unit c) tt
     = Done (goisilon.mkSnapshotsResp l, None, tt)
  /\ l = ([Some a] ++ Some b :: [Some b'; None])%list
  /\ goisilon.Name b = "weekly"
  /\ Forall (fun y => ~ named "weekly" y) [Some a]
  /\ Forall notNil [Some a]
  /\ goisilon.GetSnapshot unit (snapshotsOf l) (noSnapshot notFound)
       c quiet 0 "weekly" tt
     = Done (Some b, None, tt).
Proof.
  intros a b b' l c notFound.
  assert (Hpre : Forall (fun y => ~ named "weekly" y) [Some a]).
  { constructor; [| constructor]. intros (sn & [= <-] & Hn). discriminate. }
  assert (Hnn : Forall notNil [Some a])
    by (constructor; [discriminate | constructor]).
  assert (Hne : "weekly" <> "") by discriminate.
  split; [reflexivity |]. split; [exact Hne |]. split; [reflexivity |].
  split; [reflexivity |]. split; [reflexivity |].
  split; [exact Hpre |]. split; [exact Hnn |].
  exact (proj2 (GetSnapshot_by_name_after_id_failure unit
                  (snapshotsOf l) (noSnapshot notFound) c quiet 0
                  "weekly" tt tt None notFound eq_refl)
           Hne (goisilon.mkSnapshotsResp l) tt [Some a] b [Some b'; None]
           eq_refl eq_refl eq_refl Hpre Hnn).
Defined.

(** C6, as stated, fails for a list with a nil entry before the first
    snapshot whose [Name] is [name]: [GetSnapshot] reads the [Name] of
    the nil entry and panics, and returns no snapshot. *)
Lemma GetSnapshot_nil_entry_before_match :
  let b := goisilon.mkIsiSnapshot 2 "weekly" "/ifs/volumes/b" in
  let l := [None; Some b] in
  let c := goisilon.mkClient unit (failingClient io_EOF) in
  let notFound := errorString "404 Not Found" in
  noSnapshot notFound quiet (goisilon.API unit c) 0 tt
  = Done (None, Some notFound, tt)
  /\ snapshotsOf l quiet (goisilon.API unit c) tt
     = Done (goisilon.mkSnapshotsResp l, None, tt)
  /\ firstWith (named "weekly") l (Some b)
  /\ goisilon.GetSnapshot unit (snapshotsOf l) (noSnapshot notFound)
       c quiet 0 "weekly" tt
     = Panics nilDereference
  /\ goisilon.GetSnapshot unit (snapshotsOf l) (noSnapshot notFound)
       c quiet 0 "weekly" tt
     <> Done (Some b, None, tt).
Proof.
  intros b l c notFound.
  split; [reflexivity |]. split; [reflexivity |].
  split; [| split; [reflexivity | discriminate]].
  exists [None], []. split; [reflexivity |].
  split; [now exists b |].
  constructor; [| constructor]. intros (sn & [=] & _).
Qed.

(** C9: when the lookup by id fails, [name] is not empty and no listed
    snapshot has that [Name], [GetSnapshot] returns a nil snapshot and
    a nil error, for a list with no nil entry, and [RemoveSnapshot]
    reads the [Id] of the nil snapshot: it panics, and returns no
    error.  With a nil entry in the list the panic is that of
    [GetSnapshot]. *)
Theorem RemoveSnapshot_nil_snapshot_panics
    (St : Type)
    (GetIsiSnapshots :
       api.Context -> api.Client St -> St ->
       result (goisilon.getIsiSnapshotsResp * option error * St))
    (GetIsiSnapshot :
       api.Context -> api.Client St -> Z -> St ->
       result (goisilon.Snapshot * option error * St))
    (RemoveIsiSnapshot :
       api.Context -> api.Client St -> Z -> St -> result (option error * St))
    (c : goisilon.Client St) (ctx : api.Context) (id : Z) (name : string)
    (s s1 s2 : St) (sn : goisilon.Snapshot) (e : error)
    (resp : goisilon.getIsiSnapshotsResp) :
  GetIsiSnapshot ctx (goisilon.API St c) id s = Done (sn, Some e, s1) ->
  name <> "" ->
  GetIsiSnapshots ctx (goisilon.API St c) s1 = Done (resp, None, s2) ->
  Forall (fun y => ~ named name y) (goisilon.SnapshotList_ resp) ->
  (Forall notNil (goisilon.SnapshotList_ resp) ->
   goisilon.GetSnapshot St GetIsiSnapshots GetIsiSnapshot c ctx id name s
   = Done (None, None, s2))
  /\ goisilon.RemoveSnapshot St GetIsiSnapshots GetIsiSnapshot
       RemoveIsiSnapshot c ctx id name s
     = Panics nilDereference.
Proof.
  intros Hid Hname Hlist Hnone.
  assert (Hget : goisilon.GetSnapshot St GetIsiSnapshots GetIsiSnapshot c
                   ctx id name s
                 = snapshot ←
                     goisilon.findSnapshot name
                       (goisilon.SnapshotList_ resp);
                   Done (snapshot, None, s2)).
  { rewrite (GetSnapshot_fallback St GetIsiSnapshots GetIsiSnapshot c ctx
               id name s s1 sn e Hid).
    apply String.eqb_neq in Hname. now rewrite Hname, Hlist. }
  destruct (findSnapshot_None name _ Hnone) as [Hall Hany].
  split.
  - intros Hnn. now rewrite Hget, (Hall Hnn).
  - unfold goisilon.RemoveSnapshot. rewrite Hget.
    destruct Hany as [-> | ->]; reflexivity.
Qed.

Lemma RemoveSnapshot_nil_snapshot_panics_witness :
  let a := goisilon.mkIsiSnapshot 1 "daily" "/ifs/volumes/a" in
  let c := goisilon.mkClient unit (failingClient io_EOF) in
  let notFound := errorString "404 Not Found" in
  noSnapshot notFound quiet (goisilon.API unit c) 0 tt
  = Done (None, Some notFound, tt)
  /\ "weekly" <> ""
  /\ snapshotsOf [Some a] quiet (goisilon.API unit c) tt
     = Done (goisilon.mkSnapshotsResp [Some a], None, tt)
  /\ Forall (fun y => ~ named "weekly" y) [Some a]
  /\ Forall notNil [Some a]
  /\ goisilon.GetSnapshot unit (snapshotsOf [Some a]) (noSnapshot notFound)
       c quiet 0 "weekly" tt
     = Done (None, None, tt)
  /\ goisilon.RemoveSnapshot unit (snapshotsOf [Some a])
       (noSnapshot notFound) removeOk c quiet 0 "weekly" tt
     = Panics nilDereference.
Proof.
  intros a c notFound.
  assert (Hnone : Forall (fun y => ~ named "weekly" y) [Some a]).
  { constructor; [| constructor]. intros (sn & [= <-] & Hn). discriminate. }
  assert (Hnn : Forall notNil [Some a])
    by (constructor; [discriminate | constructor]).
  assert (Hne : "weekly" <> "") by discriminate.
  pose proof (RemoveSnapshot_nil_snapshot_panics unit (snapshotsOf [Some a])
                (noSnapshot notFound) removeOk c quiet 0 "weekly" tt tt tt
                None notFound (goisilon.mkSnapshotsResp [Some a]) eq_refl
                Hne eq_refl Hnone) as [Hget Hremove].
  split; [reflexivity |]. split; [exact Hne |]. split; [reflexivity |].
  split; [exact Hnone |]. split; [exact Hnn |].
  split; [exact (Hget Hnn) | exact Hremove].
Defined.

(** ** Volume paths *)

Example Clean_elements :
  path.Clean "a/b/../../../c/./d//e/" = "../c/d/e".
Proof. reflexivity. Qed.

Example Clean_above_root : path.Clean "/../a" = "/a".
Proof. reflexivity. Qed.

Example Clean_nothing_left : path.Clean "a/.." = ".".
Proof. reflexivity. Qed.

Example Join_skips_empty : path.Join [""; "a"; ""; "b"] = "a/b".
Proof. reflexivity. Qed.

(** The model of [Clean] and [Join] on the cases of the tests of Go's
    [path] package. *)
Example Clean_table :
  forallb (fun pq => String.eqb (path.Clean (fst pq)) (snd pq))
    [("", "."); ("abc", "abc"); ("abc/def", "abc/def"); ("a/b/c", "a/b/c");
     (".", "."); ("..", ".."); ("../..", "../.."); ("../../abc", "../../abc");
     ("/abc", "/abc"); ("/", "/");
     ("abc/", "abc"); ("abc/def/", "abc/def"); ("a/b/c/", "a/b/c");
     ("./", "."); ("../", ".."); ("../../", "../.."); ("/abc/", "/abc");
     ("abc//def//ghi", "abc/def/ghi"); ("//abc", "/abc"); ("///abc", "/abc");
     ("//abc//", "/abc"); ("abc//", "abc");
     ("abc/./def", "abc/def"); ("/./abc/def", "/abc/def"); ("abc/.", "abc");
     ("abc/def/ghi/../jkl", "abc/def/jkl");
     ("abc/def/../ghi/../jkl", "abc/jkl"); ("abc/def/..", "abc");
     ("abc/def/../..", "."); ("/abc/def/../..", "/");
     ("abc/def/../../..", ".."); ("/abc/def/../../..", "/");
     ("abc/def/../../../ghi/jkl/../../../mno", "../../mno");
     ("abc/./../def", "def"); ("abc//./../def", "def");
     ("abc/../../././../def", "../../def")]
  = true.
Proof. reflexivity. Qed.

Example Join_table :
  forallb (fun eq => String.eqb (path.Join (fst eq)) (snd eq))
    [([], ""); ([""], ""); (["a"], "a"); (["a"; "b"], "a/b");
     (["a"; ""], "a"); ([""; "b"], "b"); (["/"; "a"], "/a");
     (["/"; ""], "/"); (["a/"; "b"], "a/b"); (["a/"; ""], "a");
     ([""; ""], "")]
  = true.
Proof. reflexivity. Qed.

Example VolumePath_default :
  api.VolumePath (clientAt api.defaultVolumesPath) "vol1"
  = "/ifs/volumes/vol1".
Proof. reflexivity. Qed.

Lemma split_nonempty (s : string) : path.split s <> [].
Proof.
  destruct s as [|c s]; [discriminate |]. cbn [path.split].
  destruct (isSlash c); [discriminate |].
  destruct (path.split s); discriminate.
Qed.

Lemma split_slash (a b : string) :
  path.split (a +:+ "/" +:+ b) = (path.split a ++ path.split b)%list.
Proof.
  induction a as [|c a IH]; [reflexivity |].
  rewrite append_cons. cbn [path.split]. rewrite IH.
  destruct (isSlash c); [reflexivity |].
  destruct (path.split a) eqn:E; [now apply split_nonempty in E |].
  reflexivity.
Qed.

Lemma split_noSlash (s : string) :
  Forall (fun e => noSlash e = true) (path.split s).
Proof.
  induction s as [|c s IH]; [repeat constructor |].
  cbn [path.split]. destruct (isSlash c) eqn:E.
  - constructor; [reflexivity | exact IH].
  - destruct (path.split s) as [|seg segs]; [repeat constructor |].
    + cbn. now rewrite E.
    + inversion IH; subst. constructor; [| assumption].
      cbn [noSlash]. rewrite E. assumption.
Qed.

Lemma split_name (e : string) : noSlash e = true -> path.split e = [e].
Proof.
  induction e as [|c e IH]; [reflexivity |].
  cbn [noSlash path.split]. intros [Hc He]%andb_prop.
  apply negb_true_iff in Hc. rewrite Hc, IH by exact He. reflexivity.
Qed.

Lemma isName_noSlash (e : string) : isName e = true -> noSlash e = true.
Proof. unfold isName. now intros [_ H]%andb_prop. Qed.

Lemma split_join (names : list string) :
  names <> [] -> Forall (fun e => isName e = true) names ->
  path.split (joinWith "/" names) = names.
Proof.
  intros Hne H. induction H as [|e l He Hl IH]; [contradiction |].
  destruct l as [|e' l].
  - cbn [joinWith]. now apply split_name, isName_noSlash.
  - change (joinWith "/" (e :: e' :: l))
      with (e +:+ "/" +:+ joinWith "/" (e' :: l)).
    rewrite split_slash, IH by discriminate.
    rewrite split_name by now apply isName_noSlash. reflexivity.
Qed.

Lemma step_skip (rooted : bool) (out : path.lazybuf) :
  path.step rooted out "" = out.
Proof. reflexivity. Qed.

Lemma step_name (rooted : bool) (out : path.lazybuf) (e : string) :
  isName e = true ->
  path.step rooted out e
  = path.mkbuf (path.dotdots out) (e :: path.elems out).
Proof.
  unfold isName, path.step.
  intros [[[H1 H2]%andb_prop H3]%andb_prop _]%andb_prop.
  apply negb_true_iff in H1, H2, H3. now rewrite H1, H2, H3.
Qed.

Lemma fold_names (rooted : bool) (names : list string) (d : nat)
    (st : list string) :
  Forall (fun e => isName e = true) names ->
  fold_left (path.step rooted) names (path.mkbuf d st)
  = path.mkbuf d (rev names ++ st)%list.
Proof.
  intros H. revert st. induction H as [|e l He _ IH]; intros st;
    [reflexivity |].
  cbn [fold_left]. rewrite step_name by exact He.
  cbn [path.dotdots path.elems]. rewrite IH. cbn [rev].
  now rewrite <- app_assoc.
Qed.

Lemma step_rootedBuf (out : path.lazybuf) (e : string) :
  noSlash e = true -> rootedBuf out -> rootedBuf (path.step true out e).
Proof.
  intros He [Hd Hn]. unfold path.step.
  destruct (String.eqb e "") eqn:E1; [now split |].
  destruct (String.eqb e ".") eqn:E2; [now split |].
  destruct (String.eqb e "..") eqn:E3.
  - destruct (path.elems out) as [|x rest] eqn:E.
    + split; [exact Hd |]. rewrite E. constructor.
    + split; [exact Hd |]. cbn [path.elems]. now inversion Hn.
  - split; [exact Hd |]. cbn [path.elems]. constructor; [| exact Hn].
    unfold isName. now rewrite E1, E2, E3, He.
Qed.

Lemma fold_rootedBuf (segs : list string) (out : path.lazybuf) :
  Forall (fun e => noSlash e = true) segs -> rootedBuf out ->
  rootedBuf (fold_left (path.step true) segs out).
Proof.
  intros H. revert out. induction H as [|e l He _ IH]; intros out Hout;
    [exact Hout |].
  cbn [fold_left]. apply IH. now apply step_rootedBuf.
Qed.

Lemma render_rooted (out : path.lazybuf) :
  path.dotdots out = 0%nat ->
  path.render true out = "/" +:+ joinWith "/" (rev (path.elems out)).
Proof. intros H. unfold path.render, path.written. now rewrite H. Qed.

(** [Clean] on a rooted path, in terms of the buffer. *)
Lemma Clean_rooted (p : string) :
  hasSlashPrefix p = true ->
  path.Clean p
  = path.render true (fold_left (path.step true) (path.split p)
                        (path.mkbuf 0 [])).
Proof.
  intros H. destruct p as [|c p]; [discriminate |].
  unfold path.Clean. rewrite H. reflexivity.
Qed.

Lemma Clean_rooted_buf (p : string) :
  hasSlashPrefix p = true ->
  exists out, rootedBuf out
              /\ fold_left (path.step true) (path.split p) (path.mkbuf 0 [])
                 = out
              /\ path.Clean p
                 = "/" +:+ joinWith "/" (rev (path.elems out)).
Proof.
  intros H. eexists. split; [| split; [reflexivity |]].
  - apply fold_rootedBuf; [apply split_noSlash |]. split; [reflexivity |].
    constructor.
  - rewrite Clean_rooted by exact H. apply render_rooted.
    apply fold_rootedBuf; [apply split_noSlash |]. split; [reflexivity |].
    constructor.
Qed.

Lemma Clean_rooted_clean (p : string) :
  hasSlashPrefix p = true -> rootedClean (path.Clean p).
Proof.
  intros (out & [_ Hn] & _ & ->)%Clean_rooted_buf.
  exists (rev (path.elems out)). split; [reflexivity |].
  now apply Forall_rev.
Qed.

(** Reading a rooted clean path back fills the buffer with its names. *)
Lemma fold_rootedClean (names : list string) :
  Forall (fun e => isName e = true) names ->
  fold_left (path.step true) (path.split ("/" +:+ joinWith "/" names))
    (path.mkbuf 0 [])
  = path.mkbuf 0 (rev names).
Proof.
  intros H. change (path.split ("/" +:+ joinWith "/" names))
    with ("" :: path.split (joinWith "/" names)).
  cbn [fold_left]. rewrite step_skip.
  destruct names as [|e l]; [reflexivity |].
  rewrite split_join, fold_names, app_nil_r by (discriminate || exact H).
  reflexivity.
Qed.

Lemma Join_rooted (a b : string) :
  hasSlashPrefix a = true ->
  path.Join [a; b]
  = if String.eqb b "" then path.Clean a else path.Clean (a +:+ "/" +:+ b).
Proof.
  intros H. destruct a as [|c a]; [discriminate |].
  unfold path.Join. cbn [List.filter String.eqb negb].
  destruct (String.eqb b ""); reflexivity.
Qed.

Lemma hasSlashPrefix_append (a b : string) :
  hasSlashPrefix a = true -> hasSlashPrefix (a +:+ b) = true.
Proof. destruct a; [discriminate | intros H; exact H]. Qed.

(** A name that begins with [../] is resolved from the parent of the
    directory it is joined to. *)
Lemma Join_dotdot (vp x : string) :
  hasSlashPrefix vp = true ->
  path.Join [vp; "../" +:+ x] = path.Join [path.Join [vp; ".."]; x].
Proof.
  intros Hvp.
  rewrite (Join_rooted vp ("../" +:+ x) Hvp), (Join_rooted vp ".." Hvp).
  change (String.eqb ("../" +:+ x) "") with false.
  change (String.eqb ".." "") with false. cbv iota.
  assert (Hq : hasSlashPrefix (vp +:+ "/" +:+ "..") = true)
    by now apply hasSlashPrefix_append.
  destruct (Clean_rooted_buf _ Hq) as (B & [HdB HnB] & HB & Hclean).
  rewrite split_slash, fold_left_app in HB.
  change (path.split "..") with [".."] in HB. cbn [fold_left] in HB.
  set (names := rev (path.elems B)) in *.
  assert (Hnames : Forall (fun e => isName e = true) names)
    by now apply Forall_rev.
  assert (Hback : fold_left (path.step true) (path.split (path.Clean
                    (vp +:+ "/" +:+ ".."))) (path.mkbuf 0 [])
                  = B).
  { rewrite Hclean, fold_rootedClean by exact Hnames. subst names.
    rewrite rev_involutive. destruct B as [d st]. cbn in HdB.
    now rewrite HdB. }
  rewrite Join_rooted by (rewrite Hclean; reflexivity).
  rewrite (Clean_rooted (vp +:+ "/" +:+ "../" +:+ x))
    by now apply hasSlashPrefix_append.
  change ("../" +:+ x) with (".." +:+ "/" +:+ x).
  rewrite !split_slash, !fold_left_app.
  change (path.split "..") with [".."]. cbn [fold_left]. rewrite HB.
  destruct (String.eqb x "") eqn:Ex.
  - apply String.eqb_eq in Ex. subst x. cbn [path.split fold_left].
    rewrite step_skip, Clean_rooted, Hback by (rewrite Hclean; reflexivity).
    reflexivity.
  - rewrite Clean_rooted
      by (apply hasSlashPrefix_append; rewrite Hclean; reflexivity).
    rewrite split_slash, fold_left_app, Hback. reflexivity.
Qed.

(** C10, as amended: for a client whose volumes path begins with a
    slash, [VolumePath(name)] is the cleaned join of the volumes path
    and [name]: a slash followed by names with one slash between them,
    none of them empty, [.] or [..]; [VolumePath("")] is the cleaned
    volumes path; and a name that begins with [../] is resolved from the
    parent of the volumes path. *)
Theorem VolumePath_rooted_clean (c : api.client) (name : string) :
  hasSlashPrefix (api.volumePath c) = true ->
  api.VolumePath c name
  = (if String.eqb name "" then path.Clean (api.volumePath c)
     else path.Clean (api.volumePath c +:+ "/" +:+ name))
  /\ rootedClean (api.VolumePath c name)
  /\ api.VolumePath c "" = path.Clean (api.volumePath c)
  /\ api.VolumePath c ("../" +:+ name)
     = path.Join [path.Join [api.volumePath c; ".."]; name].
Proof.
  intros H. unfold api.VolumePath.
  split; [now apply Join_rooted |]. split.
  - rewrite Join_rooted by exact H.
    destruct (String.eqb name ""); apply Clean_rooted_clean;
      [exact H | now apply hasSlashPrefix_append].
  - split; [now rewrite Join_rooted by exact H |].
    now apply Join_dotdot.
Qed.

Lemma VolumePath_rooted_clean_witness :
  let c := clientAt "/ifs/volumes" in
  hasSlashPrefix (api.volumePath c) = true
  /\ rootedClean (api.VolumePath c "a/./b//../c")
  /\ api.VolumePath c "a/./b//../c" = "/ifs/volumes/a/c"
  /\ api.VolumePath c "" = "/ifs/volumes"
  /\ api.VolumePath c "../x" = "/ifs/x".
Proof.
  intros c.
  assert (H : hasSlashPrefix (api.volumePath c) = true) by reflexivity.
  split; [exact H |].
  split; [exact (proj1 (proj2 (VolumePath_rooted_clean c "a/./b//../c" H)))
         |].
  split; [reflexivity |]. split; reflexivity.
Defined.

(** C10, as stated, fails.  With the default volumes path, a name that
    begins with [../] can lead back into the volumes root; with a
    volumes path that does not begin with a slash the result can keep a
    [..] element or be [.]; and with a volumes path that ends with a
    slash [VolumePath("")] is not the configured path. *)
Lemma VolumePath_dotdot_inside_root :
  strings.HasPrefix "../volumes/x" "../" = true
  /\ api.VolumePath (clientAt api.defaultVolumesPath) "../volumes/x"
     = "/ifs/volumes/x"
  /\ insideRoot api.defaultVolumesPath
       (api.VolumePath (clientAt api.defaultVolumesPath) "../volumes/x")
     = true
  /\ api.VolumePath (clientAt "volumes") "../../x" = "../x"
  /\ api.VolumePath (clientAt "volumes") ".." = "."
  /\ api.VolumePath (clientAt "/ifs/volumes/") "" = "/ifs/volumes"
  /\ api.volumePath (clientAt "/ifs/volumes/") <> "/ifs/volumes".
Proof. repeat split; try reflexivity. discriminate. Qed.

(* ===================================================================== *)
(** * The rest of the client *)
(* ===================================================================== *)

(** ** URL assembly: empty arguments *)

Lemma HasPrefix_refl (h : string) : strings.HasPrefix h h = true.
Proof.
  induction h as [|c h IH]; [reflexivity |].
  cbn [strings.HasPrefix]. now rewrite Ascii.eqb_refl.
Qed.

Lemma HasPrefix_append (a x h : string) :
  strings.HasPrefix a h = true -> strings.HasPrefix (a +:+ x) h = true.
Proof.
  revert a. induction h as [|c h IH]; intros a H;
    [now destruct (a +:+ x) |].
  destruct a as [|d a]; [discriminate |].
  cbn [strings.HasPrefix] in H. rewrite append_cons.
  cbn [strings.HasPrefix]. apply andb_prop in H as [H1 H2].
  rewrite H1. now apply IH.
Qed.

Lemma lastByte_Some (s : string) :
  s <> "" -> exists c, lastByte s = Some c.
Proof.
  intros H. destruct (lastByte s) eqn:E; [eauto |].
  now apply lastByte_nonempty in H.
Qed.

(** X1: [assembleURL] panics exactly when the host name or the path is
    empty, whatever the id and the parameters are; otherwise it returns
    a URL that begins with the host name. *)
Theorem assembleURL_panics_on_empty (hostname uri id : string)
    (params : OrderedValues) :
  (hostname = "" \/ uri = "" ->
   assembleURL hostname uri id params = Panics indexOutOfRange)
  /\ (hostname <> "" -> uri <> "" ->
      exists url, assembleURL hostname uri id params = Done url
                  /\ strings.HasPrefix url hostname = true).
Proof.
  split.
  - intros [-> | ->]; [reflexivity |]. unfold assembleURL.
    unfold endsWithSlash. destruct (lastByte hostname); reflexivity.
  - intros Hh Hu. unfold assembleURL, endsWithSlash, beginsWithSlash.
    destruct (lastByte_Some hostname Hh) as [c ->].
    destruct (lastByte_Some uri Hu) as [d ->].
    destruct uri as [|u0 uri]; [contradiction |]. go_step.
    eexists. split; [reflexivity |].
    repeat match goal with
           | |- context [if ?b then _ else _] => destruct b
           end;
      repeat apply HasPrefix_append; apply HasPrefix_refl.
Qed.

Lemma assembleURL_panics_on_empty_witness :
  "https://1.2.3.4:8080" <> "" /\ "namespace" <> ""
  /\ exists url,
       assembleURL "https://1.2.3.4:8080" "namespace" "" [] = Done url
       /\ strings.HasPrefix url "https://1.2.3.4:8080" = true.
Proof.
  assert (H1 : "https://1.2.3.4:8080" <> "") by discriminate.
  assert (H2 : "namespace" <> "") by discriminate.
  split; [exact H1 |]. split; [exact H2 |].
  exact (proj2 (assembleURL_panics_on_empty "https://1.2.3.4:8080"
                  "namespace" "" []) H1 H2).
Defined.

(** ** Responses: what [DoWithHeaders] gives back *)

Lemma DoAndGetResponseBody_error (isPrintTable : Z -> bool)
    (url_Parse : string -> string + string)
    (c : api.client) (ctx : api.Context) (method uri id : string)
    (params : OrderedValues) (headers : gmap string string) (b : api.body)
    (res : option http.Response) (dbg : bool) (e : error) :
  api.DoAndGetResponseBody isPrintTable url_Parse c ctx method uri id params
    headers b
  = Done (res, dbg, Some e) ->
  res = None /\ exists msg, e = errorString msg.
Proof.
  unfold api.DoAndGetResponseBody.
  destruct (assembleURL (api.hostname c) uri id params) as [ubf | m];
    [| discriminate].
  go_step.
  destruct (api.buildRequest isPrintTable url_Parse c method ubf headers b)
    as [[e' | req] | m] eqn:E; [| | discriminate]; go_step.
  - intros [= <- _ <-]. split; [reflexivity |].
    now apply buildRequest_error in E.
  - destruct (api.http_ c req) as [msg | r]; [| discriminate].
    intros [= <- _ <-]. eauto.
Qed.

Lemma parseJSONError_entries (res : http.Response) (je : JSONError) :
  api.parseJSONError res = Done (errJSONError je) ->
  StatusCode je = http.StatusCode res
  /\ exists e0 rest,
       Err je = e0 :: rest
       /\ (http.Status res <> "" -> Message e0 <> "").
Proof.
  unfold api.parseJSONError.
  destruct (json.Decode (http.Body res) (mkJSONError 0 []))
    as [je0 [err |]] eqn:E.
  - intros [= ->]. apply Decode_error in E as [E | [msg E]]; discriminate.
  - cbn [Err StatusCode]. destruct (Err je0) as [|e0 rest]; [discriminate |].
    destruct (String.eqb (Message e0) "") eqn:Em; intros [= <-];
      (split; [reflexivity |]); eexists _, _; (split; [reflexivity |]).
    + intros H. exact H.
    + intros _. now apply String.eqb_neq in Em.
Qed.

(** X2: [DoWithHeaders] changes what [resp] points to only after a
    response with a status code in 200-299: with any error before the
    response arrives, and with any other response, the value is the one
    it was. *)
Theorem DoWithHeaders_output_only_on_2xx
    (isPrintTable : Z -> bool)
    (url_Parse : string -> string + string) (T : Type)
    (U : json.Unmarshal T) (c : api.client) (ctx : api.Context)
    (method uri id : string) (params : OrderedValues)
    (headers : gmap string string) (b : api.body) (resp out : option T)
    (err : option error) :
  api.DoWithHeaders isPrintTable url_Parse c ctx method uri id params headers b
    resp
  = Done (out, err) ->
  out = resp
  \/ exists res dbg,
       api.DoAndGetResponseBody isPrintTable url_Parse c ctx method uri id
         params headers b
       = Done (Some res, dbg, None)
       /\ is2xx res = true.
Proof.
  unfold api.DoWithHeaders.
  destruct (api.DoAndGetResponseBody isPrintTable url_Parse c ctx method uri id
              params headers b) as [[[res dbg] e] | m]; [| discriminate].
  go_step. destruct e as [e |]; [intros [= <- _]; now left |].
  destruct res as [res |]; [| discriminate]. fold (is2xx res).
  destruct (is2xx res) eqn:H2; [intros _; right; eauto |].
  destruct (api.parseJSONError res); [| discriminate].
  go_step. intros [= <- _]. now left.
Qed.

Lemma DoWithHeaders_output_only_on_2xx_witness :
  let res := http.mkResponse 503 "503 Service Unavailable"
               (json.BodyJSON (notFoundDoc "busy")) in
  let c := clientOf (answering res) in
  let err := errJSONError (mkJSONError 503 [mkError "AEC_NOT_FOUND" "" "busy"])
  in
  api.DoWithHeaders latin1Only parseAny c quiet "GET" "/platform/latest" "" [] ∅
    api.nilBody (Some "before")
  = Done (Some "before", Some err)
  /\ (Some "before" = Some "before"
      \/ exists res' dbg,
           api.DoAndGetResponseBody latin1Only parseAny c quiet "GET"
             "/platform/latest" "" [] ∅ api.nilBody
           = Done (Some res', dbg, None)
           /\ is2xx res' = true).
Proof.
  intros res c err.
  assert (H : api.DoWithHeaders latin1Only parseAny c quiet "GET"
                "/platform/latest" "" [] ∅ api.nilBody (Some "before")
              = Done (Some "before", Some err)) by reflexivity.
  split; [exact H |].
  exact (DoWithHeaders_output_only_on_2xx latin1Only parseAny string _ c quiet
           "GET" "/platform/latest" "" [] ∅ api.nilBody (Some "before")
           (Some "before") (Some err) H).
Defined.

(** X3: a [*JSONError] that [DoWithHeaders] returns comes from a
    response outside 200-299, carries the status code of that response,
    and has at least one entry, whose message is not empty when the
    response has a status text: its [Error()] does not panic.  [resp]
    is left as it was. *)
Theorem DoWithHeaders_JSONError_well_formed
    (isPrintTable : Z -> bool)
    (url_Parse : string -> string + string) (T : Type)
    (U : json.Unmarshal T) (c : api.client) (ctx : api.Context)
    (method uri id : string) (params : OrderedValues)
    (headers : gmap string string) (b : api.body) (resp out : option T)
    (je : JSONError) :
  api.DoWithHeaders isPrintTable url_Parse c ctx method uri id params headers b
    resp
  = Done (out, Some (errJSONError je)) ->
  out = resp
  /\ exists res dbg e0 rest,
       api.DoAndGetResponseBody isPrintTable url_Parse c ctx method uri id
         params headers b
       = Done (Some res, dbg, None)
       /\ is2xx res = false
       /\ StatusCode je = http.StatusCode res
       /\ Err je = e0 :: rest
       /\ JSONError_Error je = Done (Message e0)
       /\ (http.Status res <> "" -> Message e0 <> "").
Proof.
  unfold api.DoWithHeaders.
  destruct (api.DoAndGetResponseBody isPrintTable url_Parse c ctx method uri id
              params headers b) as [[[res dbg] e] | m] eqn:E; [| discriminate].
  go_step. destruct e as [e |].
  { intros [= _ ->]. apply DoAndGetResponseBody_error in E as [_ [msg E]].
    discriminate. }
  destruct res as [res |]; [| discriminate]. fold (is2xx res).
  destruct (is2xx res) eqn:H2.
  - destruct resp as [v |]; [| discriminate].
    destruct (json.Decode (http.Body res) v) as [v' [e |]] eqn:Ed;
      [| discriminate].
    apply Decode_error in Ed as [-> | [msg ->]]; discriminate.
  - destruct (api.parseJSONError res) as [e | m] eqn:Ep; [| discriminate].
    go_step. intros [= <- ->]. split; [reflexivity |].
    apply parseJSONError_entries in Ep as (Hs & e0 & rest & He & Hm).
    exists res, dbg, e0, rest. repeat split; try assumption.
    unfold JSONError_Error. now rewrite He.
Qed.

Lemma DoWithHeaders_JSONError_well_formed_witness :
  let res := http.mkResponse 404 "404 Not Found"
               (json.BodyJSON (notFoundDoc "")) in
  let c := clientOf (answering res) in
  let je := mkJSONError 404 [mkError "AEC_NOT_FOUND" "" "404 Not Found"] in
  api.DoWithHeaders latin1Only parseAny c quiet "GET" "/platform/1/snapshot" "7"
    [] ∅ api.nilBody (Some "before")
  = Done (Some "before", Some (errJSONError je))
  /\ exists res' dbg e0 rest,
       api.DoAndGetResponseBody latin1Only parseAny c quiet "GET"
         "/platform/1/snapshot" "7" [] ∅ api.nilBody
       = Done (Some res', dbg, None)
       /\ is2xx res' = false
       /\ StatusCode je = http.StatusCode res'
       /\ Err je = e0 :: rest
       /\ JSONError_Error je = Done (Message e0)
       /\ (http.Status res' <> "" -> Message e0 <> "").
Proof.
  intros res c je.
  assert (H : api.DoWithHeaders latin1Only parseAny c quiet "GET"
                "/platform/1/snapshot" "7" [] ∅ api.nilBody (Some "before")
              = Done (Some "before", Some (errJSONError je)))
    by reflexivity.
  split; [exact H |].
  exact (proj2 (DoWithHeaders_JSONError_well_formed latin1Only parseAny string _
                  c quiet "GET" "/platform/1/snapshot" "7" [] ∅ api.nilBody
                  (Some "before") (Some "before") je H)).
Defined.

(** ** Requests: methods, credentials and headers *)

Lemma NewRequest_invalid (isPrintTable : Z -> bool)
    (url_Parse : string -> string + string)
    (method u : string) (p : http.Payload) :
  invalidMethod method = true ->
  http.NewRequest isPrintTable url_Parse method u p
  = inl (http.invalidMethodError isPrintTable method).
Proof.
  unfold invalidMethod, http.NewRequest.
  intros [H1 H2]%andb_prop. apply negb_true_iff in H1.
  now rewrite H1, H2.
Qed.

(** X4: with a method that [http.NewRequest] refuses,
    [DoAndGetResponseBody] returns the error of [http.NewRequest] when
    the body is nil, but panics when a body is given: the content type
    is set on the request before the error is looked at. *)
Theorem DoAndGetResponseBody_invalid_method
    (isPrintTable : Z -> bool)
    (url_Parse : string -> string + string) (c : api.client)
    (ctx : api.Context) (method uri id : string) (params : OrderedValues)
    (headers : gmap string string) (ubf u : string) :
  invalidMethod method = true ->
  assembleURL (api.hostname c) uri id params = Done ubf ->
  url_Parse ubf = inr u ->
  api.DoAndGetResponseBody isPrintTable url_Parse c ctx method uri id
    params headers api.nilBody
  = Done (None, false, Some (http.invalidMethodError isPrintTable method))
  /\ (forall content,
         api.DoAndGetResponseBody isPrintTable url_Parse c ctx method uri
           id params headers (api.readCloser content)
         = Panics nilDereference)
  /\ (forall T (M : json.Marshal T) (v : T) doc,
         json.marshal v = inr doc ->
         api.DoAndGetResponseBody isPrintTable url_Parse c ctx method uri
           id params headers (api.value v)
         = Panics nilDereference).
Proof.
  intros Hm Hurl Hu. unfold api.DoAndGetResponseBody, api.buildRequest.
  rewrite Hurl. go_step. rewrite Hu.
  pose proof (NewRequest_invalid isPrintTable url_Parse method u) as Hnew.
  repeat split.
  - now rewrite (Hnew _ Hm).
  - intros content. now rewrite (Hnew _ Hm).
  - intros T M v doc Hdoc. now rewrite Hdoc, (Hnew _ Hm).
Qed.

Lemma DoAndGetResponseBody_invalid_method_witness :
  let c := clientOf (answering (http.mkResponse 200 "200 OK" json.BodyEmpty))
  in
  invalidMethod "GET /" = true
  /\ assembleURL (api.hostname c) "/platform/latest" "" []
     = Done "https://1.2.3.4:8080/platform/latest/"
  /\ parseAny "https://1.2.3.4:8080/platform/latest/"
     = inr "https://1.2.3.4:8080/platform/latest/"
  /\ http.invalidMethodError latin1Only "GET /"
     = errorString ("net/http: invalid method " +:+ inQuotes "GET /")
  /\ api.DoAndGetResponseBody latin1Only parseAny c quiet "GET /"
       "/platform/latest" "" [] ∅ api.nilBody
     = Done (None, false, Some (http.invalidMethodError latin1Only "GET /"))
  /\ api.DoAndGetResponseBody latin1Only parseAny c quiet "GET /"
       "/platform/latest" "" [] ∅ (api.readCloser "bytes")
     = Panics nilDereference.
Proof.
  intros c.
  pose proof (DoAndGetResponseBody_invalid_method latin1Only parseAny c
                quiet "GET /" "/platform/latest" "" [] ∅
                "https://1.2.3.4:8080/platform/latest/"
                "https://1.2.3.4:8080/platform/latest/"
                eq_refl eq_refl eq_refl) as (H1 & H2 & _).
  split; [reflexivity |]. split; [reflexivity |]. split; [reflexivity |].
  split; [reflexivity |].
  split; [exact H1 | exact (H2 "bytes")].
Defined.

Lemma headerValues_Add_keep (h : http.Header) (key v key' v' : string) :
  v ∈ headerValues h key -> v ∈ headerValues (http.Header_Add h key' v') key.
Proof.
  unfold headerValues, http.Header_Add. intros H.
  destruct (decide (http.CanonicalHeaderKey key'
                    = http.CanonicalHeaderKey key)) as [E | NE].
  - rewrite E, lookup_insert_eq. cbn. set_solver.
  - now rewrite lookup_insert_ne by exact NE.
Qed.

Lemma headerValues_Add_new (h : http.Header) (key v : string) :
  v ∈ headerValues (http.Header_Add h key v) key.
Proof.
  unfold headerValues, http.Header_Add. rewrite lookup_insert_eq. cbn.
  set_solver.
Qed.

Lemma addHeaders_keep (set : bool) (l : list (string * string))
    (h : http.Header) (key v : string) :
  v ∈ headerValues h key -> v ∈ headerValues (api.addHeaders set l h) key.
Proof.
  unfold api.addHeaders. revert h.
  induction l as [|[k x] l IH]; intros h Hh; [exact Hh |].
  cbn [fold_left fst snd]. apply IH.
  destruct (_ && _); [exact Hh | now apply headerValues_Add_keep].
Qed.

Lemma addHeaders_new (set : bool) (l : list (string * string))
    (h : http.Header) (key v : string) :
  (key, v) ∈ l ->
  String.eqb key api.headerKeyContentType && set = false ->
  v ∈ headerValues (api.addHeaders set l h) key.
Proof.
  intros Hin Hskip. revert h.
  induction l as [|[k x] l IH]; intros h; [now apply elem_of_nil in Hin |].
  apply elem_of_cons in Hin as [[= <- <-] | Hin].
  - unfold api.addHeaders. cbn [fold_left fst snd]. rewrite Hskip.
    apply (addHeaders_keep set l). apply headerValues_Add_new.
  - unfold api.addHeaders. cbn [fold_left fst snd]. now apply IH.
Qed.

Lemma size_pos_lookup (headers : gmap string string) (k v : string) :
  headers !! k = Some v -> (0 <? Z.of_nat (size headers)) = true.
Proof.
  intros H. apply Z.ltb_lt.
  destruct (size headers) eqn:E; [| lia].
  apply map_size_empty_iff in E. subst headers.
  now rewrite lookup_empty in H.
Qed.

(** What the last part of [buildRequest] keeps of a request [req0] and
    adds to it. *)
Lemma buildRequest_headers (c : api.client) (headers : gmap string string)
    (req0 : http.Request) (set : bool) (k v : string) :
  headers !! k = Some v ->
  http.CanonicalHeaderKey k <> "Authorization" ->
  (String.eqb k api.headerKeyContentType && set = true ->
   v ∈ headerValues (http.Header_ req0) k) ->
  let req1 :=
    if 0 <? Z.of_nat (size headers)
    then http.setHeader req0
           (api.addHeaders set (map_to_list headers) (http.Header_ req0))
    else req0 in
  let req := http.SetBasicAuth req1 (api.username c) (api.password c) in
  v ∈ headerValues (http.Header_ req) k.
Proof.
  intros Hk Hauth Hset req1 req. subst req req1.
  rewrite (size_pos_lookup headers k v Hk).
  cbn [http.SetBasicAuth http.setHeader http.Header_].
  rewrite headerValues_Set_other by (intros E; now apply Hauth).
  destruct (String.eqb k api.headerKeyContentType && set) eqn:E.
  - apply addHeaders_keep. now apply Hset.
  - apply addHeaders_new; [| exact E].
    now apply elem_of_map_to_list.
Qed.

(** The credentials are set last, on every request. *)
Lemma buildRequest_authorization (c : api.client)
    (headers : gmap string string) (req0 : http.Request) (set : bool) :
  let req1 :=
    if 0 <? Z.of_nat (size headers)
    then http.setHeader req0
           (api.addHeaders set (map_to_list headers) (http.Header_ req0))
    else req0 in
  let req := http.SetBasicAuth req1 (api.username c) (api.password c) in
  headerValues (http.Header_ req) "Authorization"
  = ["Basic " +:+ http.basicAuth (api.username c) (api.password c)].
Proof.
  intros req1 req. subst req. apply headerValues_Set.
Qed.

(** X5: every request that [buildRequest] makes has one value of the
    header [Authorization]: [Basic] and the user name and password of
    the client in base 64, in place of whatever the caller passes under
    a spelling of that key.  For every other header that the caller
    passes, the value passed is among the values of that header. *)
Theorem buildRequest_credentials_and_headers
    (isPrintTable : Z -> bool)
    (url_Parse : string -> string + string) (c : api.client)
    (method ubf : string) (headers : gmap string string) (b : api.body)
    (req : http.Request) :
  api.buildRequest isPrintTable url_Parse c method ubf headers b
  = Done (inr req) ->
  headerValues (http.Header_ req) "Authorization"
  = ["Basic " +:+ http.basicAuth (api.username c) (api.password c)]
  /\ forall k v, headers !! k = Some v ->
                 http.CanonicalHeaderKey k <> "Authorization" ->
                 v ∈ headerValues (http.Header_ req) k.
Proof.
  unfold api.buildRequest.
  destruct (url_Parse ubf) as [msg | u]; [discriminate |].
  assert (Hset : forall req0 dflt k v,
             headers !! k = Some v ->
             String.eqb k api.headerKeyContentType && true = true ->
             v ∈ headerValues
                   (http.Header_
                      (http.setHeader req0
                         (http.Header_Set (http.Header_ req0)
                            api.headerKeyContentType
                            (default dflt
                               (headers !! api.headerKeyContentType))))) k).
  { intros req0 dflt k v Hk Hct. rewrite andb_true_r in Hct.
    apply String.eqb_eq in Hct. subst k. rewrite Hk. cbn.
    unfold headerValues, http.Header_Set. rewrite lookup_insert_eq.
    cbn. set_solver. }
  destruct b as [| r | T M v].
  - destruct (http.NewRequest isPrintTable url_Parse method u
                http.NoPayload) as [e | req0] eqn:E; [discriminate |].
    go_step. intros [= <-].
    split; [apply buildRequest_authorization |].
    intros k v Hk Hauth. apply buildRequest_headers; [exact Hk | exact Hauth |].
    destruct (NewRequest_inr _ _ _ _ _ _ E) as [_ Hh].
    rewrite Hh. cbn. rewrite andb_false_r. discriminate.
  - destruct (http.NewRequest isPrintTable url_Parse method u (http.Raw r))
      as [e | req0] eqn:E; [discriminate |].
    go_step. cbn [negb]. intros [= <-].
    split; [apply buildRequest_authorization |].
    intros k v Hk Hauth. apply buildRequest_headers; [exact Hk | exact Hauth |].
    now apply Hset.
  - destruct (json.marshal v) as [msg | doc]; [discriminate |].
    destruct (http.NewRequest isPrintTable url_Parse method u
                (http.Encoded doc)) as [e | req0] eqn:E; [discriminate |].
    go_step. cbn [negb]. intros [= <-].
    split; [apply buildRequest_authorization |].
    intros k x Hk Hauth. apply buildRequest_headers; [exact Hk | exact Hauth |].
    now apply Hset.
Qed.

Lemma buildRequest_credentials_and_headers_witness :
  let c := clientOf (answering (http.mkResponse 200 "200 OK" json.BodyEmpty))
  in
  let headers : gmap string string :=
    <["authorization" := "Bearer token"]>
      (<["x-isi-ifs-target-type" := "object"]> ∅) in
  let req :=
    http.mkRequest "PUT" "https://1.2.3.4:8080/namespace/ifs/volumes/v/f"
      (<["Authorization" := ["Basic YWRtaW46c2VjcmV0"]]>
         (<["X-Isi-Ifs-Target-Type" := ["object"]]>
            (<["Content-Type" := ["binary/octet-stream"]]> ∅)))
      (http.Raw "bytes") in
  api.buildRequest latin1Only parseAny c "PUT"
    "https://1.2.3.4:8080/namespace/ifs/volumes/v/f" headers
    (api.readCloser "bytes")
  = Done (inr req)
  /\ headers !! "x-isi-ifs-target-type" = Some "object"
  /\ http.CanonicalHeaderKey "x-isi-ifs-target-type" <> "Authorization"
  /\ headerValues (http.Header_ req) "Authorization"
     = ["Basic " +:+ http.basicAuth (api.username c) (api.password c)]
  /\ "object" ∈ headerValues (http.Header_ req) "x-isi-ifs-target-type".
Proof.
  intros c headers req.
  assert (Hreq : api.buildRequest latin1Only parseAny c "PUT"
                   "https://1.2.3.4:8080/namespace/ifs/volumes/v/f" headers
                   (api.readCloser "bytes")
                 = Done (inr req)) by (vm_compute; reflexivity).
  assert (Hk : headers !! "x-isi-ifs-target-type" = Some "object")
    by (vm_compute; reflexivity).
  assert (Hauth : http.CanonicalHeaderKey "x-isi-ifs-target-type"
                  <> "Authorization") by (vm_compute; discriminate).
  destruct (buildRequest_credentials_and_headers latin1Only parseAny c "PUT"
              "https://1.2.3.4:8080/namespace/ifs/volumes/v/f" headers
              (api.readCloser "bytes") req Hreq) as [Hbasic Hheaders].
  split; [exact Hreq |]. split; [exact Hk |]. split; [exact Hauth |].
  split; [exact Hbasic |].
  exact (Hheaders "x-isi-ifs-target-type" "object" Hk Hauth).
Defined.

(** ** Construction of a client: what [New] returns *)

Example ParseUint8_table :
  strconv.ParseUint8 latin1Only "255" = inr 255
  /\ strconv.ParseUint8 latin1Only "007" = inr 7
  /\ strconv.ParseUint8 latin1Only "256"
     = inl (strconv.rangeError latin1Only "256")
  /\ strconv.ParseUint8 latin1Only "256x"
     = inl (strconv.rangeError latin1Only "256x")
  /\ strconv.ParseUint8 latin1Only "25x6"
     = inl (strconv.syntaxError latin1Only "25x6")
  /\ strconv.ParseUint8 latin1Only "1f"
     = inl (strconv.syntaxError latin1Only "1f")
  /\ strconv.ParseUint8 latin1Only "+1"
     = inl (strconv.syntaxError latin1Only "+1")
  /\ strconv.ParseUint8 latin1Only ""
     = inl (strconv.syntaxError latin1Only "")
  /\ strconv.syntaxError latin1Only "5.0"
     = errorString ("strconv.ParseUint: parsing " +:+ inQuotes "5.0"
                    +:+ ": invalid syntax").
Proof. repeat split. Qed.

(** A byte that [ParseUint] takes as a digit in base 10. *)
Lemma digitOf_decimal (c : ascii) (d : Z) :
  strconv.digitOf c = Some d -> (d >=? 10) = false ->
  0 <= d /\ Ascii.eqb c "." = false.
Proof.
  unfold strconv.digitOf. cbv zeta.
  destruct ((48 <=? byteOf c) && (byteOf c <=? 57)) eqn:E.
  - intros [= <-] _. apply andb_prop in E as [E1 _]. apply Z.leb_le in E1.
    split; [lia |].
    destruct (Ascii.eqb_spec c ".") as [-> | _]; [| reflexivity].
    vm_compute in E1. now contradiction E1.
  - destruct ((97 <=? Z.lor (byteOf c) 32) && _) eqn:E'; [| discriminate].
    intros [= <-] Hd. apply andb_prop in E' as [E1 _].
    apply Z.leb_le in E1. rewrite Z.geb_leb in Hd. apply Z.leb_gt in Hd.
    lia.
Qed.

Lemma parseLoop_inr (isPrintTable : Z -> bool) (s0 s : string) (n m : Z) :
  isUint8 n -> strconv.parseLoop isPrintTable s0 s n = inr m ->
  isUint8 m /\ noDot s = true.
Proof.
  revert n. induction s as [|c s IH]; intros n Hn;
    cbn [strconv.parseLoop noDot].
  - intros [= <-]. now split.
  - destruct (strconv.digitOf c) as [d |] eqn:Ed; [| discriminate].
    destruct (d >=? 10) eqn:Hd; [discriminate |].
    destruct (n >=? strconv.cutoff); [discriminate |].
    destruct (_ || _) eqn:E; [discriminate |].
    apply orb_false_iff in E as [_ E].
    destruct (digitOf_decimal c d Ed Hd) as [Hd0 Hdot].
    intros H. apply IH in H as [Hm Hs].
    + split; [exact Hm |]. now rewrite Hdot, Hs.
    + unfold isUint8. split.
      * apply Z.mod_pos_bound. lia.
      * rewrite Z.gtb_ltb in E. apply Z.ltb_ge in E. exact E.
Qed.

Lemma ParseUint8_inr (isPrintTable : Z -> bool) (s : string) (n : Z) :
  strconv.ParseUint8 isPrintTable s = inr n -> isUint8 n /\ noDot s = true.
Proof.
  unfold strconv.ParseUint8. destruct (String.eqb s ""); [discriminate |].
  apply parseLoop_inr. unfold isUint8. lia.
Qed.

Lemma ParseUint8_uint8 (isPrintTable : Z -> bool) (s : string) (n : Z) :
  strconv.ParseUint8 isPrintTable s = inr n -> isUint8 n.
Proof. intros H. now apply ParseUint8_inr in H. Qed.

Lemma versionOf_uint8 (isPrintTable : Z -> bool) (latest : option string)
    (major minor : Z) :
  api.versionOf isPrintTable latest = inr (major, minor) ->
  isUint8 major /\ isUint8 minor.
Proof.
  unfold api.versionOf. destruct latest as [s |].
  - destruct (negb _).
    + destruct (strconv.ParseUint8 isPrintTable (strings.sliceFrom s _))
        as [e | m] eqn:Em; [discriminate |].
      destruct (strconv.ParseUint8 isPrintTable (strings.sliceTo s _))
        as [e | M] eqn:EM; [discriminate |].
      intros [= <- <-]. split; eapply ParseUint8_uint8; eassumption.
    + destruct (strconv.ParseUint8 isPrintTable s) as [e | M] eqn:EM;
        [discriminate |].
      intros [= <- <-]. split; [eapply ParseUint8_uint8; eassumption |].
      unfold isUint8. lia.
  - intros [= <- <-]. unfold isUint8. lia.
Qed.

(** X6: a client that [New] returns comes without an error.  It has
    the host name, the user name, the password and the group name that
    were given, the first three not empty; its volumes path is the one
    of the options, or the default when that is empty or there are no
    options, and is not empty; its major version is between 3 and 255
    and its minor version between 0 and 255, so that the conversions to
    [uint8] lose nothing. *)
Theorem New_client_well_formed
    (isPrintTable : Z -> bool)
    (url_Parse : string -> string + string)
    (http_Do : http.Request -> string + http.Response) (ctx : api.Context)
    (hostname username password groupname : string)
    (opts : option api.ClientOptions) (c : api.client)
    (err : option error) :
  api.New isPrintTable url_Parse http_Do ctx hostname username password
    groupname opts
  = Done (Some c, err) ->
  err = None
  /\ api.hostname c = hostname /\ hostname <> ""
  /\ api.username c = username /\ username <> ""
  /\ api.password c = password /\ password <> ""
  /\ api.groupname c = groupname
  /\ api.volumePath c = volumesPathOf opts /\ api.volumePath c <> ""
  /\ 3 <= api.apiVersion c <= 255
  /\ isUint8 (api.apiMinorVersion c).
Proof.
  unfold api.New.
  destruct (String.eqb hostname "") eqn:Eh; [discriminate |].
  destruct (String.eqb username "") eqn:Eu; [discriminate |].
  destruct (String.eqb password "") eqn:Ep; [discriminate |].
  cbn [orb].
  change (match opts with
          | Some o =>
              if negb (String.eqb (api.VolumesPath o) "")
              then api.VolumesPath o else api.defaultVolumesPath
          | None => api.defaultVolumesPath
          end) with (volumesPathOf opts).
  destruct (api.Get _ _ _ _ _ _ _ _) as [[resp e] | m]; [| discriminate].
  go_step.
  destruct (match e with
            | Some err0 =>
                error_Error err0
                ≫= λ msg, Done (negb (strings.HasPrefix msg "json: "))
            | None => Done false
            end) as [[] | m]; [discriminate | | discriminate].
  go_step.
  destruct (api.versionOf isPrintTable _) as [e' | [major minor]] eqn:Ev;
    [discriminate |].
  destruct (major <? 3) eqn:Hlow; [discriminate |].
  intros [= <- <-]. cbn.
  apply versionOf_uint8 in Ev as [[_ HM] Hm]. apply Z.ltb_ge in Hlow.
  repeat split; try (now apply eqb_empty_false); try lia; try apply Hm.
  unfold volumesPathOf. destruct opts as [o |]; [| discriminate].
  destruct (String.eqb (api.VolumesPath o) "") eqn:Eo; cbn;
    [discriminate | now apply eqb_empty_false].
Qed.

Lemma New_client_well_formed_witness :
  let res := http.mkResponse 200 "200 OK"
               (json.BodyJSON
                  (json.JObject [("latest", json.JString "5.1")])) in
  let c := api.mkClient (answering res) "https://1.2.3.4:8080" "admin"
             "wheel" "secret" "/ifs/volumes" 5 1 in
  api.New latin1Only parseAny (answering res) quiet "https://1.2.3.4:8080"
    "admin" "secret" "wheel" (Some (api.mkClientOptions true "" 0))
  = Done (Some c, None)
  /\ api.volumePath c = "/ifs/volumes"
  /\ 3 <= api.apiVersion c <= 255
  /\ isUint8 (api.apiMinorVersion c).
Proof.
  intros res c.
  assert (H : api.New latin1Only parseAny (answering res) quiet
                "https://1.2.3.4:8080" "admin" "secret" "wheel"
                (Some (api.mkClientOptions true "" 0))
              = Done (Some c, None)) by reflexivity.
  pose proof (New_client_well_formed latin1Only parseAny (answering res) quiet
                "https://1.2.3.4:8080" "admin" "secret" "wheel"
                (Some (api.mkClientOptions true "" 0)) c None H)
    as (_ & _ & _ & _ & _ & _ & _ & _ & Hvp & _ & Hv & Hm).
  split; [exact H |]. split; [exact Hvp |]. split; [exact Hv | exact Hm].
Defined.

(** X7: when the version probe of [New] comes back with an error,
    [New] returns that error unless its message begins with [json: ];
    an error whose message begins with [json: ] is dropped, and the
    version left in [resp] decides as if the probe had succeeded. *)
Theorem New_probe_error
    (isPrintTable : Z -> bool)
    (url_Parse : string -> string + string)
    (http_Do : http.Request -> string + http.Response) (ctx : api.Context)
    (hostname username password groupname : string)
    (opts : option api.ClientOptions)
    (resp : option api.apiVerResponse) (e : error) (msg : string) :
  hostname <> "" -> username <> "" -> password <> "" ->
  versionProbe isPrintTable url_Parse http_Do ctx hostname username password
    groupname opts
  = Done (resp, Some e) ->
  error_Error e = Done msg ->
  let run :=
    api.New isPrintTable url_Parse http_Do ctx hostname username password
      groupname opts
  in
  (strings.HasPrefix msg "json: " = false -> run = Done (None, Some e))
  /\ (strings.HasPrefix msg "json: " = true ->
      run = match api.versionOf isPrintTable (latestOf resp) with
            | inl e' => Done (None, Some e')
            | inr (major, minor) =>
                if major <? 3 then Done (None, Some api.errUnsupported)
                else Done (Some (api.mkClient http_Do hostname username
                                   groupname password (volumesPathOf opts)
                                   major minor), None)
            end).
Proof.
  intros Hh Hu Hp Hprobe Hmsg run. subst run. unfold api.New.
  apply String.eqb_neq in Hh, Hu, Hp. rewrite Hh, Hu, Hp. cbn [orb].
  change (api.Get isPrintTable url_Parse _ ctx "/platform/latest" "" [] ∅
            (Some (api.mkApiVerResponse None)))
    with (versionProbe isPrintTable url_Parse http_Do ctx hostname username
            password groupname opts).
  rewrite Hprobe. go_step. rewrite Hmsg. go_step.
  split; intros ->; [reflexivity |]. cbn [negb]. fold (latestOf resp).
  destruct (api.versionOf isPrintTable (latestOf resp)) as [e' | [major minor]];
    reflexivity.
Qed.

Lemma New_probe_error_witness :
  let refused : http.Request -> string + http.Response :=
    fun _ => inl "dial tcp 1.2.3.4:8080: connect: connection refused" in
  let e :=
    errorString "dial tcp 1.2.3.4:8080: connect: connection refused" in
  "https://1.2.3.4:8080" <> "" /\ "admin" <> "" /\ "secret" <> ""
  /\ versionProbe latin1Only parseAny refused quiet "https://1.2.3.4:8080"
       "admin" "secret" "wheel" None
     = Done (Some (api.mkApiVerResponse None), Some e)
  /\ error_Error e
     = Done "dial tcp 1.2.3.4:8080: connect: connection refused"
  /\ strings.HasPrefix "dial tcp 1.2.3.4:8080: connect: connection refused"
       "json: "
     = false
  /\ api.New latin1Only parseAny refused quiet "https://1.2.3.4:8080" "admin"
       "secret" "wheel" None
     = Done (None, Some e).
Proof.
  intros refused e.
  assert (H1 : "https://1.2.3.4:8080" <> "") by discriminate.
  assert (H2 : "admin" <> "") by discriminate.
  assert (H3 : "secret" <> "") by discriminate.
  split; [exact H1 |]. split; [exact H2 |]. split; [exact H3 |].
  split; [reflexivity |]. split; [reflexivity |]. split; [reflexivity |].
  exact (proj1 (New_probe_error latin1Only parseAny refused quiet
                  "https://1.2.3.4:8080" "admin" "secret" "wheel" None
                  (Some (api.mkApiVerResponse None)) e
                  "dial tcp 1.2.3.4:8080: connect: connection refused"
                  H1 H2 H3 eq_refl eq_refl)
           eq_refl).
Defined.

(** ** Version strings *)

Lemma index_first_dot (a b : string) :
  noDot a = true ->
  String.index 0 "." (a +:+ "." +:+ b) = Some (String.length a).
Proof.
  induction a as [|c a IH]; intros H.
  - rewrite append_nil_l. change ("." +:+ b) with (String "." b).
    cbn [String.index].
    assert (E : String.prefix "." (String "." b) = true)
      by (apply String.prefix_correct; now destruct b).
    now rewrite E.
  - cbn [noDot] in H. apply andb_prop in H as [Hc Ha].
    apply negb_true_iff in Hc. rewrite append_cons. cbn [String.index].
    assert (E : String.prefix "." (String c (a +:+ "." +:+ b)) = false).
    { destruct (String.prefix "." (String c (a +:+ "." +:+ b))) eqn:E;
        [| reflexivity].
      apply String.prefix_correct in E. cbn in E. injection E as ->.
      discriminate. }
    rewrite E, IH by exact Ha. reflexivity.
Qed.

Lemma substring_all (s : string) : String.substring 0 (String.length s) s = s.
Proof. induction s as [|c s IH]; [reflexivity |]. cbn. now rewrite IH. Qed.

Lemma substring_head (a x : string) :
  String.substring 0 (String.length a) (a +:+ x) = a.
Proof.
  induction a as [|c a IH]; [now destruct x |].
  rewrite append_cons. cbn. now rewrite IH.
Qed.

Lemma substring_tail (a b : string) :
  String.substring (String.length a + 1)
    (String.length (a +:+ "." +:+ b) - (String.length a + 1))
    (a +:+ "." +:+ b)
  = b.
Proof.
  induction a as [|c a IH].
  - rewrite append_nil_l. change ("." +:+ b) with (String "." b).
    cbn [String.length Nat.add]. 
    replace (S (String.length b) - 1)%nat with (String.length b) by lia.
    destruct (String.length b) eqn:E; cbn [String.substring];
      [now destruct b | rewrite <- E; apply substring_all].
  - rewrite append_cons. cbn [String.length Nat.add Nat.sub].
    cbn [String.substring]. exact IH.
Qed.

Lemma ParseUint8_noDot (isPrintTable : Z -> bool) (s : string) (n : Z) :
  strconv.ParseUint8 isPrintTable s = inr n -> noDot s = true.
Proof. intros H. now apply ParseUint8_inr in H. Qed.

(** X8: [New] splits the version string at its first dot: what stands
    before it is the major version and all that follows is the minor
    version, parsed first.  A version string with a second dot, such as
    [9.5.0], is therefore refused with the error of
    [strconv.ParseUint]. *)
Theorem versionOf_first_dot (isPrintTable : Z -> bool) (a b : string) :
  noDot a = true ->
  api.versionOf isPrintTable (Some (a +:+ "." +:+ b))
  = match strconv.ParseUint8 isPrintTable b with
    | inl e => inl e
    | inr minor =>
        match strconv.ParseUint8 isPrintTable a with
        | inl e => inl e
        | inr major => inr (major, minor)
        end
    end
  /\ (noDot b = false ->
      exists e, api.versionOf isPrintTable (Some (a +:+ "." +:+ b)) = inl e).
Proof.
  intros Ha.
  assert (E : api.versionOf isPrintTable (Some (a +:+ "." +:+ b))
              = match strconv.ParseUint8 isPrintTable b with
                | inl e => inl e
                | inr minor =>
                    match strconv.ParseUint8 isPrintTable a with
                    | inl e => inl e
                    | inr major => inr (major, minor)
                    end
                end).
  { unfold api.versionOf, strings.Index, strings.sliceFrom, strings.sliceTo.
    rewrite (index_first_dot a b Ha).
    assert (Hi : (Z.of_nat (String.length a) =? -1) = false)
      by (apply Z.eqb_neq; lia).
    rewrite Hi. cbn [negb].
    replace (Z.to_nat (Z.of_nat (String.length a) + 1))
      with (String.length a + 1)%nat by lia.
    rewrite substring_tail, Nat2Z.id, substring_head. reflexivity. }
  split; [exact E |].
  intros Hb. rewrite E.
  destruct (strconv.ParseUint8 isPrintTable b) as [e | m] eqn:Eb; [eauto |].
  apply ParseUint8_noDot in Eb. congruence.
Qed.

Lemma versionOf_first_dot_witness :
  noDot "9" = true
  /\ noDot "5.0" = false
  /\ api.versionOf latin1Only (Some "9.5") = inr (9, 5)
  /\ exists e,
       api.versionOf latin1Only (Some ("9" +:+ "." +:+ "5.0")) = inl e.
Proof.
  split; [reflexivity |]. split; [reflexivity |]. split; [reflexivity |].
  exact (proj2 (versionOf_first_dot latin1Only "9" "5.0" eq_refl) eq_refl).
Defined.

Example New_three_part_version :
  let res := http.mkResponse 200 "200 OK"
               (json.BodyJSON
                  (json.JObject [("latest", json.JString "9.5.0")])) in
  api.New latin1Only parseAny (answering res) quiet "https://1.2.3.4:8080"
    "admin" "secret" "wheel" None
  = Done (None, Some (strconv.syntaxError latin1Only "5.0")).
Proof. reflexivity. Qed.

(** ** Volume paths: joining in steps, and staying below the root *)

Lemma buf_eta (B : path.lazybuf) :
  path.dotdots B = 0%nat -> path.mkbuf 0 (path.elems B) = B.
Proof. destruct B as [d st]. cbn. now intros ->. Qed.

(** The buffer of [Clean] after the elements of [vp] and then those of
    [a], and [Join [vp; a]] in terms of it. *)
Lemma Join_rooted_buf (vp a : string) :
  hasSlashPrefix vp = true ->
  exists B,
    rootedBuf B
    /\ fold_left (path.step true) (path.split a)
         (fold_left (path.step true) (path.split vp) (path.mkbuf 0 []))
       = B
    /\ path.Join [vp; a] = "/" +:+ joinWith "/" (rev (path.elems B))
    /\ fold_left (path.step true) (path.split (path.Join [vp; a]))
         (path.mkbuf 0 [])
       = B.
Proof.
  intros Hvp. eexists. split; [| split; [reflexivity |]].
  - apply fold_rootedBuf; [apply split_noSlash |].
    apply fold_rootedBuf; [apply split_noSlash |].
    split; [reflexivity | constructor].
  - assert (HB : rootedBuf
                   (fold_left (path.step true) (path.split a)
                      (fold_left (path.step true) (path.split vp)
                         (path.mkbuf 0 [])))).
    { apply fold_rootedBuf; [apply split_noSlash |].
      apply fold_rootedBuf; [apply split_noSlash |].
      split; [reflexivity | constructor]. }
    assert (E : path.Join [vp; a]
                = "/" +:+ joinWith "/"
                            (rev (path.elems
                                    (fold_left (path.step true)
                                       (path.split a)
                                       (fold_left (path.step true)
                                          (path.split vp)
                                          (path.mkbuf 0 [])))))).
    { rewrite Join_rooted by exact Hvp.
      destruct (String.eqb a "") eqn:Ea.
      - apply String.eqb_eq in Ea. subst a. cbn [path.split fold_left].
        rewrite step_skip, Clean_rooted by exact Hvp.
        apply render_rooted. apply HB.
      - rewrite Clean_rooted by now apply hasSlashPrefix_append.
        rewrite split_slash, fold_left_app. apply render_rooted. apply HB. }
    split; [exact E |].
    rewrite E, fold_rootedClean by (apply Forall_rev; apply HB).
    rewrite rev_involutive. apply buf_eta. apply HB.
Qed.

Lemma nested_nonempty (a b : string) :
  String.eqb (a +:+ "/" +:+ b) "" = false.
Proof. now destruct a. Qed.

(** X9: for a client whose volumes path begins with a slash, the path
    of [a/b] is the path of [a] joined with [b]: resolving a name in two
    steps gives the same path as resolving it at once. *)
Theorem VolumePath_in_two_steps (c : api.client) (a b : string) :
  hasSlashPrefix (api.volumePath c) = true ->
  api.VolumePath c (a +:+ "/" +:+ b) = path.Join [api.VolumePath c a; b].
Proof.
  intros Hvp. unfold api.VolumePath.
  destruct (Join_rooted_buf (api.volumePath c) a Hvp)
    as (B & HB & Hfold & Hjoin & Hback).
  rewrite (Join_rooted (api.volumePath c) _ Hvp), nested_nonempty.
  rewrite Clean_rooted by now apply hasSlashPrefix_append.
  rewrite !split_slash, !fold_left_app, Hfold.
  rewrite Join_rooted by (rewrite Hjoin; reflexivity).
  destruct (String.eqb b "") eqn:Eb.
  - apply String.eqb_eq in Eb. subst b. cbn [path.split fold_left].
    rewrite step_skip, Clean_rooted, Hback by (rewrite Hjoin; reflexivity).
    reflexivity.
  - rewrite Clean_rooted
      by (apply hasSlashPrefix_append; rewrite Hjoin; reflexivity).
    rewrite split_slash, fold_left_app, Hback. reflexivity.
Qed.

Lemma VolumePath_in_two_steps_witness :
  let c := clientAt "/ifs/volumes/" in
  hasSlashPrefix (api.volumePath c) = true
  /\ api.VolumePath c ("a/../b" +:+ "/" +:+ "./c/") = "/ifs/volumes/b/c"
  /\ path.Join [api.VolumePath c "a/../b"; "./c/"] = "/ifs/volumes/b/c".
Proof.
  intros c.
  assert (H : hasSlashPrefix (api.volumePath c) = true) by reflexivity.
  split; [exact H |]. split; [reflexivity |].
  rewrite <- (VolumePath_in_two_steps c "a/../b" "./c/" H). reflexivity.
Defined.

Lemma joinWith_app (sep : string) (l1 l2 : list string) :
  l1 <> [] -> l2 <> [] ->
  joinWith sep (l1 ++ l2) = joinWith sep l1 +:+ sep +:+ joinWith sep l2.
Proof.
  intros H1 H2. induction l1 as [|x l1 IH]; [contradiction |].
  destruct l1 as [|y l1].
  - cbn [app]. destruct l2; [contradiction | reflexivity].
  - change (joinWith sep ((x :: y :: l1) ++ l2))
      with (x +:+ sep +:+ joinWith sep ((y :: l1) ++ l2)).
    rewrite IH by discriminate.
    change (joinWith sep (x :: y :: l1))
      with (x +:+ sep +:+ joinWith sep (y :: l1)).
    now rewrite !append_assoc.
Qed.

(** Elements other than [..] only add names to the buffer. *)
Lemma fold_without_dotdot (segs : list string) (d : nat)
    (st : list string) :
  forallb (fun e => negb (String.eqb e "..")) segs = true ->
  exists added,
    fold_left (path.step true) segs (path.mkbuf d st)
    = path.mkbuf d (added ++ st)%list.
Proof.
  revert st. induction segs as [|e l IH]; intros st H.
  - now exists [].
  - cbn [forallb] in H. apply andb_prop in H as [He Hl].
    apply negb_true_iff in He. cbn [fold_left]. unfold path.step at 2.
    rewrite He. cbn [path.dotdots path.elems].
    destruct (String.eqb e ""); [now apply IH |].
    destruct (String.eqb e "."); [now apply IH |].
    destruct (IH (e :: st) Hl) as [added ->].
    exists (added ++ [e])%list. now rewrite <- app_assoc.
Qed.

(** X10: for a client whose volumes path begins with a slash and is
    not the root directory, a name without [..] elements gives a path
    that is the cleaned volumes path or lies below it. *)
Theorem VolumePath_stays_below_root (c : api.client) (name : string) :
  hasSlashPrefix (api.volumePath c) = true ->
  path.Clean (api.volumePath c) <> "/" ->
  noDotDot name = true ->
  insideRoot (path.Clean (api.volumePath c)) (api.VolumePath c name) = true.
Proof.
  intros Hvp Hroot Hname. unfold api.VolumePath, insideRoot.
  destruct (Clean_rooted_buf _ Hvp) as (B0 & [Hd Hn] & Hfold0 & Hclean).
  destruct (Join_rooted_buf (api.volumePath c) name Hvp)
    as (B & _ & Hfold & Hjoin & _).
  rewrite Hfold0 in Hfold. rewrite <- (buf_eta B0 Hd) in Hfold.
  destruct (fold_without_dotdot (path.split name) 0 (path.elems B0) Hname)
    as [added Hadded].
  rewrite Hadded in Hfold. subst B. cbn [path.elems] in Hjoin.
  rewrite Hjoin, Hclean, rev_app_distr.
  assert (Hst : rev (path.elems B0) <> []).
  { intros E. apply Hroot. now rewrite Hclean, E. }
  destruct (rev added) as [|x l] eqn:Ea.
  - rewrite app_nil_r, String.eqb_refl. reflexivity.
  - rewrite joinWith_app by (assumption || discriminate).
    apply orb_true_iff. right.
    rewrite <- !append_assoc. apply HasPrefix_append, HasPrefix_refl.
Qed.

Lemma VolumePath_stays_below_root_witness :
  let c := clientAt "/ifs/volumes" in
  hasSlashPrefix (api.volumePath c) = true
  /\ path.Clean (api.volumePath c) <> "/"
  /\ noDotDot "a//./b/" = true
  /\ insideRoot (path.Clean (api.volumePath c))
       (api.VolumePath c "a//./b/")
     = true.
Proof.
  intros c.
  assert (H1 : hasSlashPrefix (api.volumePath c) = true) by reflexivity.
  assert (H2 : path.Clean (api.volumePath c) <> "/") by discriminate.
  assert (H3 : noDotDot "a//./b/" = true) by reflexivity.
  split; [exact H1 |]. split; [exact H2 |]. split; [exact H3 |].
  exact (VolumePath_stays_below_root c "a//./b/" H1 H2 H3).
Defined.

(** ** Snapshots: the other methods *)

Example Base_table :
  forallb (fun pq => String.eqb (pathBase.Base (fst pq)) (snd pq))
    [("", "."); (".", "."); ("/.", "."); ("/", "/"); ("////", "/");
     ("x/", "x"); ("abc", "abc"); ("abc/def", "def"); ("a/b/.x", ".x");
     ("a/b/c.", "c."); ("a/b/c.x", "c.x")]
  = true.
Proof. reflexivity. Qed.

Lemma withPath_filter (target : string) (l acc : goisilon.SnapshotList) :
  Forall notNil l ->
  snapshots.withPath target l acc
  = Done (acc ++ List.filter (hasPath target) l)%list.
Proof.
  revert acc. induction l as [|[x |] l IH]; intros acc Hnn;
    cbn [snapshots.withPath List.filter hasPath].
  - now rewrite app_nil_r.
  - apply Forall_cons in Hnn as [_ Hnn].
    destruct (String.eqb (goisilon.Path x) target); rewrite IH by exact Hnn;
      [now rewrite <- app_assoc | reflexivity].
  - apply Forall_cons in Hnn as [Hnil _]. now contradiction Hnil.
Qed.

Lemma withPath_nil_entry (target : string)
    (l acc : goisilon.SnapshotList) :
  None ∈ l -> snapshots.withPath target l acc = Panics nilDereference.
Proof.
  revert acc. induction l as [|[x |] l IH]; intros acc Hin;
    cbn [snapshots.withPath].
  - now apply elem_of_nil in Hin.
  - apply elem_of_cons in Hin as [[=] | Hin].
    destruct (String.eqb (goisilon.Path x) target); now apply IH.
  - reflexivity.
Qed.

(** X11: when no entry of the list that the appliance sent is nil,
    [GetSnapshotsByPath] returns, in the order of that list, exactly
    the snapshots whose [Path] equals the volume path that the client
    gives to [path]; with a nil entry in the list it panics; when the
    list cannot be fetched it returns the error and no snapshot. *)
Theorem GetSnapshotsByPath_filters
    (St : Type)
    (GetIsiSnapshots :
       api.Context -> api.Client St -> St ->
       result (goisilon.getIsiSnapshotsResp * option error * St))
    (c : goisilon.Client St) (ctx : api.Context) (path : string)
    (s s' : St) (resp : goisilon.getIsiSnapshotsResp)
    (err : option error) :
  GetIsiSnapshots ctx (goisilon.API St c) s = Done (resp, err, s') ->
  let run := snapshots.GetSnapshotsByPath St GetIsiSnapshots c ctx path s in
  let target := api.Client_VolumePath (goisilon.API St c) path in
  match err with
  | Some e => run = Done ([], Some e, s')
  | None =>
      (Forall notNil (goisilon.SnapshotList_ resp) ->
       run = Done (List.filter (hasPath target) (goisilon.SnapshotList_ resp),
                   None, s'))
      /\ (None ∈ goisilon.SnapshotList_ resp ->
          run = Panics nilDereference)
  end.
Proof.
  intros H run target. subst run target.
  unfold snapshots.GetSnapshotsByPath. rewrite H. go_step.
  destruct err; [reflexivity |]. split.
  - intros Hnn. now rewrite withPath_filter.
  - intros Hin. now rewrite withPath_nil_entry.
Qed.

Lemma GetSnapshotsByPath_filters_witness :
  let a := goisilon.mkIsiSnapshot 1 "daily" "/ifs/volumes/a" in
  let b := goisilon.mkIsiSnapshot 2 "weekly" "/ifs/volumes/b" in
  let a' := goisilon.mkIsiSnapshot 3 "weekly" "/ifs/volumes/a" in
  let l := [Some a; Some b; Some a'] in
  let c := goisilon.mkClient unit silentClient in
  snapshotsOf l quiet (goisilon.API unit c) tt
  = Done (goisilon.mkSnapshotsResp l, None, tt)
  /\ Forall notNil l
  /\ snapshots.GetSnapshotsByPath unit (snapshotsOf l) c quiet "x/../a/" tt
     = Done ([Some a; Some a'], None, tt)
  /\ snapshots.GetSnapshotsByPath unit (snapshotsOf [Some a; None]) c quiet
       "x/../a/" tt
     = Panics nilDereference.
Proof.
  intros a b a' l c.
  assert (Hnn : Forall notNil l) by (repeat constructor; discriminate).
  split; [reflexivity |]. split; [exact Hnn |].
  split; [| reflexivity].
  exact (proj1 (GetSnapshotsByPath_filters unit (snapshotsOf l) c quiet
                  "x/../a/" tt tt (goisilon.mkSnapshotsResp l) None eq_refl)
           Hnn).
Defined.

(** X12: [GetSnapshot] never returns a snapshot together with an
    error: with an error the snapshot is nil, whatever the calls of
    package [v1] return. *)
Theorem GetSnapshot_snapshot_or_error
    (St : Type)
    (GetIsiSnapshots :
       api.Context -> api.Client St -> St ->
       result (goisilon.getIsiSnapshotsResp * option error * St))
    (GetIsiSnapshot :
       api.Context -> api.Client St -> Z -> St ->
       result (goisilon.Snapshot * option error * St))
    (c : goisilon.Client St) (ctx : api.Context) (id : Z) (name : string)
    (s s' : St) (snapshot : goisilon.Snapshot) (e : error) :
  goisilon.GetSnapshot St GetIsiSnapshots GetIsiSnapshot c ctx id name s
  = Done (snapshot, Some e, s') ->
  snapshot = None.
Proof.
  unfold goisilon.GetSnapshot, goisilon.GetSnapshots.
  destruct (GetIsiSnapshot ctx (goisilon.API St c) id s)
    as [[[sn [e1 |]] s1] | m]; go_step; [| discriminate | discriminate].
  destruct (String.eqb name ""); [now intros [= <- _ _] |].
  destruct (GetIsiSnapshots ctx (goisilon.API St c) s1)
    as [[[resp [e2 |]] s2] | m]; go_step; [| | discriminate].
  - now intros [= <- _ _].
  - destruct (goisilon.findSnapshot name (goisilon.SnapshotList_ resp));
      discriminate.
Qed.

Lemma GetSnapshot_snapshot_or_error_witness :
  let a := goisilon.mkIsiSnapshot 1 "daily" "/ifs/volumes/a" in
  let c := goisilon.mkClient unit silentClient in
  let stale : api.Context -> api.Client unit -> Z -> unit ->
              result (goisilon.Snapshot * option error * unit) :=
    fun _ _ _ s => Done (Some a, Some (errorString "404 Not Found"), s) in
  goisilon.GetSnapshot unit (snapshotsOf []) stale c quiet 1 "" tt
  = Done (None, Some (errorString "404 Not Found"), tt)
  /\ (None : goisilon.Snapshot) = None.
Proof.
  intros a c stale.
  assert (H : goisilon.GetSnapshot unit (snapshotsOf []) stale c quiet 1 ""
                tt
              = Done (None, Some (errorString "404 Not Found"), tt))
    by reflexivity.
  split; [exact H |].
  exact (GetSnapshot_snapshot_or_error unit (snapshotsOf []) stale c quiet
           1 "" tt tt None (errorString "404 Not Found") H).
Defined.

(** The loop of [GetSnapshot] over a list with a nil entry before
    any entry named [name]. *)
Lemma findSnapshot_nil_entry (name : string)
    (pre rest : goisilon.SnapshotList) :
  Forall (fun y => ~ named name y) pre -> None ∈ pre ->
  goisilon.findSnapshot name (pre ++ rest)%list = Panics nilDereference.
Proof.
  induction pre as [|[a |] pre IH]; intros Hpre Hin; cbn.
  - now apply elem_of_nil in Hin.
  - apply Forall_cons in Hpre as [Ha Hpre].
    apply elem_of_cons in Hin as [[=] | Hin].
    destruct (String.eqb_spec (goisilon.Name a) name) as [E | _].
    + exfalso. apply Ha. now exists a.
    + now apply IH.
  - reflexivity.
Qed.

(** X13: when the lookup by id fails and the list has a snapshot named
    [name] with no nil entry before it, [RemoveSnapshot] removes the
    first snapshot of that name, by the [Id] of that snapshot and not
    by the [id] it was given, and returns what the removal returns;
    with a nil entry before that snapshot it panics. *)
Theorem RemoveSnapshot_by_name
    (St : Type)
    (GetIsiSnapshots :
       api.Context -> api.Client St -> St ->
       result (goisilon.getIsiSnapshotsResp * option error * St))
    (GetIsiSnapshot :
       api.Context -> api.Client St -> Z -> St ->
       result (goisilon.Snapshot * option error * St))
    (RemoveIsiSnapshot :
       api.Context -> api.Client St -> Z -> St -> result (option error * St))
    (c : goisilon.Client St) (ctx : api.Context) (id : Z) (name : string)
    (s s1 s2 : St) (sn : goisilon.Snapshot) (e : error)
    (resp : goisilon.getIsiSnapshotsResp)
    (pre post : goisilon.SnapshotList) (x : goisilon.IsiSnapshot) :
  GetIsiSnapshot ctx (goisilon.API St c) id s = Done (sn, Some e, s1) ->
  name <> "" ->
  GetIsiSnapshots ctx (goisilon.API St c) s1 = Done (resp, None, s2) ->
  goisilon.SnapshotList_ resp = (pre ++ Some x :: post)%list ->
  goisilon.Name x = name ->
  Forall (fun y => ~ named name y) pre ->
  let run :=
    goisilon.RemoveSnapshot St GetIsiSnapshots GetIsiSnapshot
      RemoveIsiSnapshot c ctx id name s in
  (Forall notNil pre ->
   run = RemoveIsiSnapshot ctx (goisilon.API St c) (goisilon.Id x) s2)
  /\ (None ∈ pre -> run = Panics nilDereference).
Proof.
  intros Hid Hname Hlist Hl Hx Hpre run. subst run.
  unfold goisilon.RemoveSnapshot.
  rewrite (GetSnapshot_fallback St GetIsiSnapshots GetIsiSnapshot c ctx id
             name s s1 sn e Hid).
  apply String.eqb_neq in Hname. rewrite Hname, Hlist. go_step.
  rewrite Hl. split.
  - intros Hnn. now rewrite (findSnapshot_Some name pre post x Hx Hnn Hpre).
  - intros Hin. now rewrite (findSnapshot_nil_entry name pre _ Hpre Hin).
Qed.

Lemma RemoveSnapshot_by_name_witness :
  let a := goisilon.mkIsiSnapshot 7 "daily" "/ifs/volumes/a" in
  let b := goisilon.mkIsiSnapshot 9 "weekly" "/ifs/volumes/b" in
  let l := [Some a; Some b; None] in
  let c := goisilon.mkClient Z
             (answersOf Z (fun T U resp s => Done (resp, None, s))) in
  let list : api.Context -> api.Client Z -> Z ->
             result (goisilon.getIsiSnapshotsResp * option error * Z) :=
    fun _ _ s => Done (goisilon.mkSnapshotsResp l, None, s) in
  let byId : api.Context -> api.Client Z -> Z -> Z ->
             result (goisilon.Snapshot * option error * Z) :=
    fun _ _ _ s => Done (None, Some (errorString "404 Not Found"), s) in
  let remove : api.Context -> api.Client Z -> Z -> Z ->
               result (option error * Z) :=
    fun _ _ id _ => Done (None, id) in
  byId quiet (goisilon.API Z c) 0 0
  = Done (None, Some (errorString "404 Not Found"), 0)
  /\ "weekly" <> ""
  /\ list quiet (goisilon.API Z c) 0
     = Done (goisilon.mkSnapshotsResp l, None, 0)
  /\ l = ([Some a] ++ Some b :: [None])%list
  /\ goisilon.Name b = "weekly"
  /\ Forall (fun y => ~ named "weekly" y) [Some a]
  /\ Forall notNil [Some a]
  /\ goisilon.RemoveSnapshot Z list byId remove c quiet 0 "weekly" 0
     = Done (None, 9).
Proof.
  intros a b l c list byId remove.
  assert (Hne : "weekly" <> "") by discriminate.
  assert (Hpre : Forall (fun y => ~ named "weekly" y) [Some a]).
  { constructor; [| constructor]. intros (sn & [= <-] & Hn). discriminate. }
  assert (Hnn : Forall notNil [Some a])
    by (constructor; [discriminate | constructor]).
  split; [reflexivity |]. split; [exact Hne |]. split; [reflexivity |].
  split; [reflexivity |]. split; [reflexivity |].
  split; [exact Hpre |]. split; [exact Hnn |].
  exact (proj1 (RemoveSnapshot_by_name Z list byId remove c quiet 0 "weekly"
                  0 0 0 None (errorString "404 Not Found")
                  (goisilon.mkSnapshotsResp l) [Some a] [None] b eq_refl
                  Hne eq_refl eq_refl eq_refl Hpre)
           Hnn).
Defined.

Lemma afterLastSlash_noSlash (s : string) :
  noSlash (pathBase.afterLastSlash s) = true.
Proof.
  induction s as [|c s IH]; [reflexivity |].
  cbn [pathBase.afterLastSlash]. destruct (noSlash s) eqn:E; [| exact IH].
  destruct (isSlash c) eqn:Ec; [exact E |].
  cbn [noSlash]. now rewrite Ec, E.
Qed.

(** [path.Base] gives one path element, or the root. *)
Lemma Base_one_element (p : string) :
  pathBase.Base p <> ""
  /\ (pathBase.Base p = "/" \/ noSlash (pathBase.Base p) = true).
Proof.
  unfold pathBase.Base. destruct (String.eqb p ""); [split; [| right]; easy |].
  destruct (String.eqb _ "") eqn:E; [split; [| left]; easy |].
  split; [now apply eqb_empty_false |]. right. apply afterLastSlash_noSlash.
Qed.

Lemma findSnapshot_panics (name : string) (l : goisilon.SnapshotList) :
  Forall (fun y => ~ named name y) l -> None ∈ l ->
  goisilon.findSnapshot name l = Panics nilDereference.
Proof.
  intros Hl Hin. rewrite <- (app_nil_r l).
  now apply findSnapshot_nil_entry.
Qed.

(** X14: where [RemoveSnapshot] panics on a nil snapshot,
    [CopySnapshot] returns an error: when the lookup by id fails,
    [name] is not empty, no listed snapshot has that name and no entry
    of the list is nil, it returns a nil volume and the error
    [Snapshot doesn't exist], with the id and the name, and neither the
    copy nor the volume lookup takes place.  With a nil entry in the
    list it panics, as [GetSnapshot] does. *)
Theorem CopySnapshot_missing_snapshot
    (St IsiVolume copyResp : Type)
    (GetIsiSnapshots :
       api.Context -> api.Client St -> St ->
       result (goisilon.getIsiSnapshotsResp * option error * St))
    (GetIsiSnapshot :
       api.Context -> api.Client St -> Z -> St ->
       result (goisilon.Snapshot * option error * St))
    (CopyIsiSnapshot :
       api.Context -> api.Client St -> string -> string -> string -> St ->
       result (copyResp * option error * St))
    (GetVolume :
       goisilon.Client St -> api.Context -> string -> string -> St ->
       result (option IsiVolume * option error * St))
    (c : goisilon.Client St) (ctx : api.Context) (id : Z)
    (name destination : string) (s s1 s2 : St) (sn : goisilon.Snapshot)
    (e : error) (resp : goisilon.getIsiSnapshotsResp) :
  GetIsiSnapshot ctx (goisilon.API St c) id s = Done (sn, Some e, s1) ->
  name <> "" ->
  GetIsiSnapshots ctx (goisilon.API St c) s1 = Done (resp, None, s2) ->
  Forall (fun y => ~ named name y) (goisilon.SnapshotList_ resp) ->
  let run :=
    snapshots.CopySnapshot St IsiVolume copyResp GetIsiSnapshots
      GetIsiSnapshot CopyIsiSnapshot GetVolume c ctx id name destination s in
  (Forall notNil (goisilon.SnapshotList_ resp) ->
   run = Done (None,
               Some (errorString
                       ("Snapshot doesn't exist: (" +:+ fmt.formatInt id
                        +:+ ", " +:+ name +:+ ")")),
               s2))
  /\ (None ∈ goisilon.SnapshotList_ resp -> run = Panics nilDereference).
Proof.
  intros Hid Hname Hlist Hnone run. subst run.
  unfold snapshots.CopySnapshot.
  rewrite (GetSnapshot_fallback St GetIsiSnapshots GetIsiSnapshot c ctx id
             name s s1 sn e Hid).
  apply String.eqb_neq in Hname. rewrite Hname, Hlist. go_step. split.
  - intros Hnn. now rewrite (proj1 (findSnapshot_None name _ Hnone) Hnn).
  - intros Hin. now rewrite (findSnapshot_panics name _ Hnone Hin).
Qed.

Lemma CopySnapshot_missing_snapshot_witness :
  let a := goisilon.mkIsiSnapshot 1 "daily" "/ifs/volumes/a" in
  let c := goisilon.mkClient unit silentClient in
  let notFound := errorString "404 Not Found" in
  let copy : api.Context -> api.Client unit -> string -> string -> string ->
             unit -> result (unit * option error * unit) :=
    fun _ _ _ _ _ s => Done (tt, None, s) in
  let volume : goisilon.Client unit -> api.Context -> string -> string ->
               unit -> result (option string * option error * unit) :=
    fun _ _ name _ s => Done (Some name, None, s) in
  noSnapshot notFound quiet (goisilon.API unit c) (-1) tt
  = Done (None, Some notFound, tt)
  /\ "weekly" <> ""
  /\ snapshotsOf [Some a] quiet (goisilon.API unit c) tt
     = Done (goisilon.mkSnapshotsResp [Some a], None, tt)
  /\ Forall (fun y => ~ named "weekly" y) [Some a]
  /\ Forall notNil [Some a]
  /\ snapshots.CopySnapshot unit string unit (snapshotsOf [Some a])
       (noSnapshot notFound) copy volume c quiet (-1) "weekly" "copy" tt
     = Done (None,
             Some (errorString "Snapshot doesn't exist: (-1, weekly)"), tt).
Proof.
  intros a c notFound copy volume.
  assert (Hne : "weekly" <> "") by discriminate.
  assert (Hnone : Forall (fun y => ~ named "weekly" y) [Some a]).
  { constructor; [| constructor]. intros (sn & [= <-] & Hn). discriminate. }
  assert (Hnn : Forall notNil [Some a])
    by (constructor; [discriminate | constructor]).
  split; [reflexivity |]. split; [exact Hne |]. split; [reflexivity |].
  split; [exact Hnone |]. split; [exact Hnn |].
  exact (proj1 (CopySnapshot_missing_snapshot unit string unit
                  (snapshotsOf [Some a]) (noSnapshot notFound) copy volume
                  c quiet (-1) "weekly" "copy" tt tt tt None notFound
                  (goisilon.mkSnapshotsResp [Some a]) eq_refl Hne eq_refl
                  Hnone)
           Hnn).
Defined.

(** X15: when [GetSnapshot] finds a snapshot, [CopySnapshot] asks for
    the copy with the name of that snapshot and the last element of its
    path, which is one path element without a slash or the root [/];
    an error of the copy is returned without looking the new volume up,
    and otherwise the result is that of [GetVolume] for the
    destination. *)
Theorem CopySnapshot_found
    (St IsiVolume copyResp : Type)
    (GetIsiSnapshots :
       api.Context -> api.Client St -> St ->
       result (goisilon.getIsiSnapshotsResp * option error * St))
    (GetIsiSnapshot :
       api.Context -> api.Client St -> Z -> St ->
       result (goisilon.Snapshot * option error * St))
    (CopyIsiSnapshot :
       api.Context -> api.Client St -> string -> string -> string -> St ->
       result (copyResp * option error * St))
    (GetVolume :
       goisilon.Client St -> api.Context -> string -> string -> St ->
       result (option IsiVolume * option error * St))
    (c : goisilon.Client St) (ctx : api.Context) (id : Z)
    (name destination : string) (s s1 s2 : St) (x : goisilon.IsiSnapshot)
    (r : copyResp) (err : option error) :
  goisilon.GetSnapshot St GetIsiSnapshots GetIsiSnapshot c ctx id name s
  = Done (Some x, None, s1) ->
  let dir := pathBase.Base (goisilon.Path x) in
  CopyIsiSnapshot ctx (goisilon.API St c) (goisilon.Name x) dir destination
    s1
  = Done (r, err, s2) ->
  (dir = "/" \/ noSlash dir = true)
  /\ dir <> ""
  /\ snapshots.CopySnapshot St IsiVolume copyResp GetIsiSnapshots
       GetIsiSnapshot CopyIsiSnapshot GetVolume c ctx id name destination s
     = match err with
       | Some e => Done (None, Some e, s2)
       | None => GetVolume c ctx destination destination s2
       end.
Proof.
  intros Hget dir Hcopy.
  destruct (Base_one_element (goisilon.Path x)) as [Hne Hone].
  split; [exact Hone |]. split; [exact Hne |].
  unfold snapshots.CopySnapshot. rewrite Hget. go_step. fold dir.
  rewrite Hcopy. go_step. now destruct err.
Qed.

Lemma CopySnapshot_found_witness :
  let a := goisilon.mkIsiSnapshot 1 "daily" "/ifs/volumes/a/" in
  let c := goisilon.mkClient unit silentClient in
  let byId : api.Context -> api.Client unit -> Z -> unit ->
             result (goisilon.Snapshot * option error * unit) :=
    fun _ _ _ s => Done (Some a, None, s) in
  let copy : api.Context -> api.Client unit -> string -> string -> string ->
             unit -> result (unit * option error * unit) :=
    fun _ _ _ _ _ s => Done (tt, None, s) in
  let volume : goisilon.Client unit -> api.Context -> string -> string ->
               unit -> result (option string * option error * unit) :=
    fun _ _ name _ s => Done (Some name, None, s) in
  goisilon.GetSnapshot unit (snapshotsOf []) byId c quiet 1 "" tt
  = Done (Some a, None, tt)
  /\ copy quiet (goisilon.API unit c) "daily" "a" "copy" tt
     = Done (tt, None, tt)
  /\ pathBase.Base (goisilon.Path a) = "a"
  /\ snapshots.CopySnapshot unit string unit (snapshotsOf []) byId copy
       volume c quiet 1 "" "copy" tt
     = Done (Some "copy", None, tt).
Proof.
  intros a c byId copy volume.
  split; [reflexivity |]. split; [reflexivity |]. split; [reflexivity |].
  exact (proj2 (proj2 (CopySnapshot_found unit string unit (snapshotsOf [])
                         byId copy volume c quiet 1 "" "copy" tt tt tt a tt
                         None eq_refl eq_refl))).
Defined.

(** ** Volumes and quotas: the calls that the wrappers make *)

Lemma Join_from_root (rest : list string) :
  rootedClean (path.Join ("/" :: rest)).
Proof.
  unfold path.Join. cbn [List.filter String.eqb negb].
  apply Clean_rooted_clean.
  destruct (List.filter _ rest); reflexivity.
Qed.

(** X16: [CopyIsiVolume] makes one call: a [PUT] of the destination
    name whose only header, [x-isi-ifs-copy-source], is a rooted clean
    path (a slash and names, without empty, [.] or [..] elements)
    whatever the source name is; it returns the error of that call. *)
Theorem CopyIsiVolume_one_call
    (St resp_t : Type) (U : json.Unmarshal (option resp_t))
    (realNamespacePath : api.Client (St * list api.Call) -> string)
    (ctx : api.Context) (client : api.Client St)
    (source destination : string) (s s1 : St)
    (out : option (option resp_t)) (err : option error) :
  let namespace := realNamespacePath (api.recording client) in
  let copy := copyVolumeCall namespace source destination in
  api.Client_Put client ctx namespace destination [] (api.call_headers copy)
    api.nilBody (Some None) s
  = Done (out, err, s1) ->
  v1_volume.CopyIsiVolume (St * list api.Call) resp_t realNamespacePath ctx
    (api.recording client) source destination (s, [])
  = Done (default None out, err, (s1, [copy]))
  /\ exists src,
       api.call_headers copy !! "x-isi-ifs-copy-source" = Some src
       /\ rootedClean src.
Proof.
  intros namespace copy H. split.
  - unfold v1_volume.CopyIsiVolume.
    cbn [api.recording api.Client_Put]. fold namespace.
    unfold api.recorded. cbn [fst snd].
    cbn [api.call_headers copy copyVolumeCall] in H. rewrite H.
    reflexivity.
  - eexists. split; [apply lookup_insert_eq | apply Join_from_root].
Qed.

Lemma CopyIsiVolume_one_call_witness :
  let namespace := "namespace/ifs/volumes" in
  let copy := copyVolumeCall namespace "../../etc" "v2" in
  api.Client_Put silentClient quiet namespace "v2" []
    (api.call_headers copy) api.nilBody (Some (None : option string)) tt
  = Done (Some None, None, tt)
  /\ v1_volume.CopyIsiVolume (unit * list api.Call) string
       (fun _ => namespace) quiet (api.recording silentClient) "../../etc"
       "v2" (tt, [])
     = Done (None, None, (tt, [copy]))
  /\ api.call_headers copy !! "x-isi-ifs-copy-source"
     = Some "/namespace/etc".
Proof.
  intros namespace copy.
  assert (H : api.Client_Put silentClient quiet namespace "v2" []
                (api.call_headers copy) api.nilBody
                (Some (None : option string)) tt
              = Done (Some None, None, tt)) by reflexivity.
  split; [exact H |].
  split; [| vm_compute; reflexivity].
  exact (proj1 (CopyIsiVolume_one_call unit string _ (fun _ => namespace)
                  quiet silentClient "../../etc" "v2" tt tt (Some None) None
                  H)).
Defined.

(** X17: [UpdateIsiQuotaHardThreshold] first looks the quota of the
    path up.  When the lookup returns an error, or no quota has that
    path (the error [Quota not found]), that error is returned and
    nothing is changed: no [PUT] is made.  Otherwise one [PUT] follows,
    of the [Id] of the first quota with that path, with the hard
    threshold [size], and its error is what is returned; the nil check
    that the code leaves out is never needed. *)
Theorem UpdateIsiQuotaHardThreshold_calls
    (St : Type) (U_quota : json.Unmarshal v1.IsiQuota)
    (U_quotas : json.Unmarshal v1.isiQuotaListResp)
    (ctx : api.Context) (client : api.Client St) (path : string) (size : Z)
    (s s1 : St) (out : option v1.isiQuotaListResp) (err : option error) :
  api.Client_Get client ctx v1.quotaPath "" [["path"; path]] ∅
    (Some (v1.mkIsiQuotaListResp [])) s
  = Done (out, err, s1) ->
  let quotas := v1.Quotas (default (v1.mkIsiQuotaListResp []) out) in
  let run :=
    v1_quota.UpdateIsiQuotaHardThreshold (St * list api.Call) ctx
      (api.recording client) path size (s, []) in
  match err, v1.findQuota path quotas with
  | Some e, _ => run = Done (Some e, (s1, [getQuotaCall path]))
  | None, None =>
      run = Done (Some (errorString ("Quota not found: " +:+ path)),
                  (s1, [getQuotaCall path]))
  | None, Some quota =>
      v1.Path quota = path
      /\ forall out2 err2 s2,
           api.Client_Put client ctx v1.quotaPath (v1.Id quota) [] ∅
             (api.call_body (updateQuotaCall (v1.Id quota) size))
             (Some (v1.mkIsiQuota "" "")) s1
           = Done (out2, err2, s2) ->
           run = Done (err2,
                       (s2, [getQuotaCall path;
                             updateQuotaCall (v1.Id quota) size]))
  end.
Proof.
  intros Hget quotas run. subst run.
  unfold v1_quota.UpdateIsiQuotaHardThreshold, v1.GetIsiQuota.
  cbn [api.recording api.Client_Get api.Client_Put]. unfold api.recorded.
  cbn [fst snd]. change v1.byteArrPath with "path". rewrite Hget.
  go_step. cbn [fst snd]. fold quotas.
  destruct err as [e |]; [reflexivity |].
  destruct (v1.findQuota path quotas) as [quota |] eqn:E; [| reflexivity].
  split.
  - apply findQuota_Some in E. now destruct E as (_ & _ & _ & H & _).
  - intros out2 err2 s2 Hput. go_step.
    cbn [api.call_body updateQuotaCall] in Hput. cbn [fst snd app].
    rewrite Hput. reflexivity.
Qed.

Lemma UpdateIsiQuotaHardThreshold_calls_witness :
  let a := v1.mkIsiQuota "AAAA" "/ifs/volumes/a" in
  let b := v1.mkIsiQuota "BBBB" "/ifs/volumes/b" in
  let client := listingClient [a; b] in
  api.Client_Get client quiet v1.quotaPath "" [["path"; "/ifs/volumes/b"]] ∅
    (Some (v1.mkIsiQuotaListResp [])) tt
  = Done (Some (v1.mkIsiQuotaListResp [a; b]), None, tt)
  /\ v1_quota.UpdateIsiQuotaHardThreshold (unit * list api.Call) quiet
       (api.recording client) "/ifs/volumes/b" 1024 (tt, [])
     = Done (None, (tt, [getQuotaCall "/ifs/volumes/b";
                         updateQuotaCall "BBBB" 1024])).
Proof.
  intros a b client.
  assert (Hget : api.Client_Get client quiet v1.quotaPath ""
                   [["path"; "/ifs/volumes/b"]] ∅
                   (Some (v1.mkIsiQuotaListResp [])) tt
                 = Done (Some (v1.mkIsiQuotaListResp [a; b]), None, tt))
    by reflexivity.
  split; [exact Hget |].
  exact (proj2 (UpdateIsiQuotaHardThreshold_calls unit _ _ quiet client
                  "/ifs/volumes/b" 1024 tt tt
                  (Some (v1.mkIsiQuotaListResp [a; b])) None Hget)
           (Some (v1.mkIsiQuota "" "")) None tt eq_refl).
Defined.

(** X18: [SetQuotaSize] does not look an existing quota up: it makes
    one call, the [POST] of a new enforced directory quota for the
    volume path of [name], not a container, with the hard threshold
    [size] and no other threshold, and returns the error of that
    call. *)
Theorem SetQuotaSize_posts_a_quota
    (St : Type) (U_quota : json.Unmarshal v1.IsiQuota)
    (ctx : api.Context) (client : api.Client St) (name : string) (size : Z)
    (s s1 : St) (out : option v1.IsiQuota) (err : option error) :
  let post :=
    createQuotaCall (api.Client_VolumePath client name) false size in
  api.Client_Post client ctx v1.quotaPath "" [] ∅ (api.call_body post)
    (Some (v1.mkIsiQuota "" "")) s
  = Done (out, err, s1) ->
  quota.SetQuotaSize (St * list api.Call)
    (goisilon.mkClient (St * list api.Call) (api.recording client)) ctx name
    size (s, [])
  = Done (err, (s1, [post])).
Proof.
  intros post H.
  unfold quota.SetQuotaSize, v1_quota.SetIsiQuotaHardThreshold,
    v1_quota.CreateIsiQuota.
  cbn [goisilon.API api.recording api.Client_Post api.Client_VolumePath].
  unfold api.recorded. cbn [fst snd].
  cbn [api.call_body post createQuotaCall] in H. rewrite H. reflexivity.
Qed.

Lemma SetQuotaSize_posts_a_quota_witness :
  let post := createQuotaCall "/ifs/volumes/v" false 1024 in
  api.Client_Post silentClient quiet v1.quotaPath "" [] ∅
    (api.call_body post) (Some (v1.mkIsiQuota "" "")) tt
  = Done (Some (v1.mkIsiQuota "" ""), None, tt)
  /\ quota.SetQuotaSize (unit * list api.Call)
       (goisilon.mkClient (unit * list api.Call)
          (api.recording silentClient))
       quiet "v" 1024 (tt, [])
     = Done (None, (tt, [post])).
Proof.
  intros post. split; [reflexivity |].
  exact (SetQuotaSize_posts_a_quota unit _ quiet silentClient "v" 1024 tt tt
           (Some (v1.mkIsiQuota "" "")) None eq_refl).
Defined.

(** X19: [GetQuota] returns a quota exactly when it returns no error:
    without an error the quota is not nil and its [Path] is the volume
    path that the client gives to [name]; with an error the quota is
    nil. *)
Theorem GetQuota_quota_or_error
    (St : Type) (U_quotas : json.Unmarshal v1.isiQuotaListResp)
    (c : goisilon.Client St) (ctx : api.Context) (name : string)
    (s s' : St) (q : option v1.IsiQuota) (err : option error) :
  quota.GetQuota St c ctx name s = Done (q, err, s') ->
  match err with
  | Some _ => q = None
  | None =>
      exists x,
        q = Some x
        /\ v1.Path x = api.Client_VolumePath (goisilon.API St c) name
  end.
Proof.
  unfold quota.GetQuota, v1.GetIsiQuota.
  destruct (api.Client_Get _ _ _ _ _ _ _ _) as [[[out [e |]] s1] | m];
    go_step; [now intros [= <- <- _] | | discriminate].
  destruct (v1.findQuota _ _) as [x |] eqn:E; go_step.
  - intros [= <- <- _]. exists x. split; [reflexivity |].
    apply findQuota_Some in E. now destruct E as (_ & _ & _ & H & _).
  - now intros [= <- <- _].
Qed.

Lemma GetQuota_quota_or_error_witness :
  let a := v1.mkIsiQuota "AAAA" "/ifs/volumes/a" in
  let c := goisilon.mkClient unit (listingClient [a]) in
  quota.GetQuota unit c quiet "x/../a" tt = Done (Some a, None, tt)
  /\ exists x,
       Some a = Some x
       /\ v1.Path x = api.Client_VolumePath (goisilon.API unit c) "x/../a".
Proof.
  intros a c.
  assert (H : quota.GetQuota unit c quiet "x/../a" tt
              = Done (Some a, None, tt)) by reflexivity.
  split; [exact H |].
  exact (GetQuota_quota_or_error unit _ c quiet "x/../a" tt tt (Some a) None
           H).
Defined.

Lemma addHeaders_other (set : bool) (l : list (string * string))
    (h : http.Header) (key : string) :
  Forall (fun kv => http.CanonicalHeaderKey (fst kv)
                    <> http.CanonicalHeaderKey key) l ->
  api.addHeaders set l h !! http.CanonicalHeaderKey key
  = h !! http.CanonicalHeaderKey key.
Proof.
  intros H. revert h. unfold api.addHeaders.
  induction H as [|[k v] l Hk _ IH]; intros h; [reflexivity |].
  cbn [fold_left fst snd]. rewrite IH.
  destruct (_ && _); [reflexivity |].
  unfold http.Header_Add. now rewrite lookup_insert_ne.
Qed.

(** X20: a request without a body is sent without a body, and without
    a content type unless one of the headers that the caller passes is
    a [Content-Type] header, in any letter case. *)
Theorem buildRequest_nil_body
    (isPrintTable : Z -> bool)
    (url_Parse : string -> string + string) (c : api.client)
    (method ubf : string) (headers : gmap string string)
    (req : http.Request) :
  api.buildRequest isPrintTable url_Parse c method ubf headers api.nilBody
  = Done (inr req) ->
  (forall k v, headers !! k = Some v ->
               http.CanonicalHeaderKey k <> "Content-Type") ->
  http.Body_ req = http.NoPayload
  /\ http.Header_Get (http.Header_ req) "Content-Type" = "".
Proof.
  unfold api.buildRequest.
  destruct (url_Parse ubf) as [msg | u]; [discriminate |].
  destruct (http.NewRequest isPrintTable url_Parse method u http.NoPayload)
    as [e | req0] eqn:E; [discriminate |].
  go_step. intros [= <-] Hk.
  destruct (NewRequest_inr _ _ _ _ _ _ E) as [Hbody Hh].
  rewrite headers_loop. split; [exact Hbody |].
  unfold http.Header_Get.
  cbn [http.SetBasicAuth http.setHeader http.Header_].
  unfold http.Header_Set at 1.
  rewrite lookup_insert_ne by (vm_compute; discriminate).
  rewrite addHeaders_other, Hh, lookup_empty; [reflexivity |].
  apply Forall_forall. intros [k v] Hin%elem_of_map_to_list.
  cbn [fst]. now apply Hk in Hin.
Qed.

Lemma buildRequest_nil_body_witness :
  let c := clientOf (answering (http.mkResponse 200 "200 OK" json.BodyEmpty))
  in
  let headers : gmap string string :=
    <["x-isi-ifs-target-type" := "container"]> ∅ in
  let req :=
    http.mkRequest "GET" "https://1.2.3.4:8080/namespace/ifs/volumes/"
      (<["Authorization" := ["Basic YWRtaW46c2VjcmV0"]]>
         (<["X-Isi-Ifs-Target-Type" := ["container"]]> ∅))
      http.NoPayload in
  api.buildRequest latin1Only parseAny c "GET"
    "https://1.2.3.4:8080/namespace/ifs/volumes/" headers api.nilBody
  = Done (inr req)
  /\ (forall k v, headers !! k = Some v ->
                  http.CanonicalHeaderKey k <> "Content-Type")
  /\ http.Body_ req = http.NoPayload
  /\ http.Header_Get (http.Header_ req) "Content-Type" = "".
Proof.
  intros c headers req.
  assert (Hreq : api.buildRequest latin1Only parseAny c "GET"
                   "https://1.2.3.4:8080/namespace/ifs/volumes/" headers
                   api.nilBody
                 = Done (inr req)) by (vm_compute; reflexivity).
  assert (Hk : forall k v, headers !! k = Some v ->
                           http.CanonicalHeaderKey k <> "Content-Type").
  { intros k v H. subst headers.
    apply lookup_insert_Some in H as [[<- _] | [_ H]];
      [vm_compute; discriminate | now rewrite lookup_empty in H]. }
  split; [exact Hreq |]. split; [exact Hk |].
  exact (buildRequest_nil_body latin1Only parseAny c "GET"
           "https://1.2.3.4:8080/namespace/ifs/volumes/" headers req Hreq
           Hk).
Defined.
